(** * Resume tailoring backend: job tracker, extraction registry, artifact store

    A shallow embedding of [Backend/main.py]: the three in-memory registries
    ([resume_storage], [extraction_status], [tailoring_jobs]), the request
    handlers that read and write them, the two background tasks
    ([perform_extraction], [perform_tailoring]) and the file-name and
    download-resolution logic of the artifact directory.

    Python dictionaries with a fixed set of keys are records; the registries
    are finite maps keyed by strings; lists indexed in place use list lookup
    and insert with the out-of-range [IndexError] written out; exceptions are
    an error monad; the external collaborators (the LLM calls, the PDF
    renderer, the file system failures) are parameters of the functions that
    call them. *)

From Stdlib Require Import Ascii String DecimalString DecimalNat.
From stdpp Require Import gmap strings list.

Local Open Scope string_scope.

(** ** Python string primitives

    A [str] is modelled as a [string] whose characters are the code points
    U+0000 to U+00FF; the character classes below are those of CPython's
    [str.isalnum] and [str.isspace] on that range. *)

Module PyStr.

Definition code (c : ascii) : nat := nat_of_ascii c.

Definition between (lo hi : nat) (c : ascii) : bool :=
  (lo <=? code c)%nat && (code c <=? hi)%nat.

(** [c.isalnum()]: letters, decimal digits and the other numeric
    characters. *)
Definition isalnum (c : ascii) : bool :=
  between 48 57 c || between 65 90 c || between 97 122 c
  || (code c =? 170)%nat || between 178 179 c || (code c =? 181)%nat
  || between 185 186 c || between 188 190 c
  || between 192 214 c || between 216 246 c || between 248 255 c.

(** [c.isspace()]. *)
Definition isspace (c : ascii) : bool :=
  between 9 13 c || between 28 32 c || (code c =? 133)%nat
  || (code c =? 160)%nat.

(** ["".join(c for c in s if p(c))] *)
Fixpoint join_filter (p : ascii -> bool) (s : string) : string :=
  match s with
  | EmptyString => EmptyString
  | String c s' =>
      if p c then String c (join_filter p s') else join_filter p s'
  end.

(** [s.rstrip()]: drop the longest suffix made of whitespace. *)
Fixpoint rstrip (s : string) : string :=
  match s with
  | EmptyString => EmptyString
  | String c s' =>
      match rstrip s' with
      | EmptyString => if isspace c then EmptyString else String c EmptyString
      | r => String c r
      end
  end.

(** [Some rest] when [s = p ++ rest]. *)
Fixpoint strip_prefix (p s : string) : option string :=
  match p, s with
  | EmptyString, _ => Some s
  | String a p', String b s' =>
      if Ascii.eqb a b then strip_prefix p' s' else None
  | String _ _, EmptyString => None
  end.

(** [s.replace(old, new)] for a non-empty [old]: a left-to-right scan
    that replaces each non-overlapping occurrence.  The scan consumes at
    least one character per round, so [length s] rounds are enough. *)
Fixpoint replace_scan (rounds : nat) (old new s : string) : string :=
  match rounds with
  | O => s
  | S k =>
      match strip_prefix old s with
      | Some rest => new +:+ replace_scan k old new rest
      | None =>
          match s with
          | EmptyString => EmptyString
          | String c s' => String c (replace_scan k old new s')
          end
      end
  end.

Definition replace (old new s : string) : string :=
  replace_scan (String.length s) old new s.

(** [s.endswith(suffix)] *)
Fixpoint endswith (s suffix : string) : bool :=
  if String.eqb s suffix then true
  else match s with
       | EmptyString => false
       | String _ s' => endswith s' suffix
       end.

(** [str(n)] for a non-negative [int]. *)
Definition str_int (n : nat) : string :=
  NilEmpty.string_of_uint (Nat.to_uint n).

(** [c in s] *)
Fixpoint contains (c : ascii) (s : string) : bool :=
  match s with
  | EmptyString => false
  | String a s' => Ascii.eqb a c || contains c s'
  end.

(** [ch * n] *)
Fixpoint repeat_char (c : ascii) (n : nat) : string :=
  match n with
  | O => EmptyString
  | S k => String c (repeat_char c k)
  end.

(** [all(p(c) for c in s)] *)
Fixpoint all_chars (p : ascii -> bool) (s : string) : bool :=
  match s with
  | EmptyString => true
  | String a s' => p a && all_chars p s'
  end.

End PyStr.

(** ** Artifact file names (perform_tailoring, file-name generation) *)

(** A job description is the request's [Dict[str, str]]. *)
Abbreviation JobDesc := (gmap string string).

(** [d.get(key, default)] *)
Definition dict_get (d : JobDesc) (key default : string) : string :=
  match d !! key with
  | Some v => v
  | None => default
  end.

(** The filter of the two "safe" names:
    [c.isalnum() or c in (' ', '-', '_')]. *)
Definition safe_char (c : ascii) : bool :=
  PyStr.isalnum c
  || Ascii.eqb c " " || Ascii.eqb c "-" || Ascii.eqb c "_".

(** ["".join(c for c in s if c.isalnum() or c in (' ', '-', '_')).rstrip()] *)
Definition sanitize (s : string) : string :=
  PyStr.rstrip (PyStr.join_filter safe_char s).

(** [f"{resume_id}_{safe_company}_{safe_title}_{i}"] *)
Definition base_filename (resume_id : string) (job_desc_data : JobDesc)
    (i : nat) : string :=
  let safe_company := sanitize (dict_get job_desc_data "company" "Unknown") in
  let safe_title := sanitize (dict_get job_desc_data "title" "Unknown") in
  resume_id +:+ "_" +:+ safe_company +:+ "_" +:+ safe_title +:+ "_"
    +:+ PyStr.str_int i.

(** Two "Engineer" jobs at "Acme" share this description. *)
Definition acme_engineer : JobDesc :=
  <["company" := "Acme"]> (<["title" := "Engineer"]> ∅).

Definition json_filename (base : string) : string := base +:+ ".json".
Definition pdf_filename (base : string) : string := base +:+ ".pdf".

(** ** Data model *)

(** The four values of every ["status"] field. *)
Inductive Status := pending | processing | completed | failed.

#[global] Instance Status_eq_dec : EqDecision Status.
Proof. solve_decision. Defined.

(** JSON-like Python values: the extracted resume, the tailored resume and
    the job context handed to the tailoring collaborator. *)
#[warnings="-register-all"] Inductive pyobj :=
| PyNone
| PyBool (b : bool)
| PyInt (z : Z)
| PyStr (s : string)
| PyList (items : list pyobj)
| PyDict (items : list (string * pyobj)).

(** Truth value of an object, as tested by [if x:] and [not x]. *)
Definition truthy (v : pyobj) : bool :=
  match v with
  | PyNone => false
  | PyBool b => b
  | PyInt z => negb (z =? 0)%Z
  | PyStr s => negb (String.eqb s "")
  | PyList items => negb (Nat.eqb (length items) 0)
  | PyDict items => negb (Nat.eqb (length items) 0)
  end.

Definition is_none (v : pyobj) : bool :=
  match v with PyNone => true | _ => false end.

(** [d.get(key)] on an object that is a dict; [PyNone] when absent. *)
Fixpoint assoc_get (items : list (string * pyobj)) (key : string)
    : option pyobj :=
  match items with
  | [] => None
  | (k, v) :: rest => if String.eqb k key then Some v else assoc_get rest key
  end.

(** [x == "literal"] *)
Definition eq_str (v : option pyobj) (lit : string) : bool :=
  match v with
  | Some (PyStr s) => String.eqb s lit
  | _ => false
  end.

(** Exceptions, as far as the handlers distinguish them. [Exception] stands
    for any exception raised by a collaborator, with its [str()];
    [ValidationError] is raised by the constructor of a response model for
    a [value] that does not fit a field. *)
Inductive exn :=
| KeyError (key : string)
| IndexError
| HTTPException (status_code : nat) (detail : string)
| ValidationError (model : string) (value : pyobj)
| Exception (text : string).

Inductive result (A : Type) :=
| Return (a : A)
| Raise (e : exn).
Arguments Return {A} a.
Arguments Raise {A} e.

(** [resume_storage] entries. *)
Module Resume.
Record t := mk {
  filename : string;
  file_path : string;
  upload_time : string;
  status : string
}.
End Resume.

(** [extraction_status] entries. *)
Module Extraction.
Record t := mk {
  status : Status;
  extracted_data : pyobj;
  error_message : option string
}.
End Extraction.

(** The ["download_links"] dictionary of a finished subjob. *)
Module Links.
Record t := mk {
  json : string;
  pdf : string
}.
End Links.

(** Entries of a batch's ["individual_jobs"] list. *)
Module SubJob.
Record t := mk {
  job_index : nat;
  job_title : string;
  company : string;
  status : Status;
  progress_message : option string;
  error_message : option string;
  tailored_resume : option pyobj;
  download_links : option Links.t
}.

(** [job["status"] = s] *)
Definition set_status (s : Status) (j : t) : t :=
  mk (job_index j) (job_title j) (company j) s (progress_message j)
     (error_message j) (tailored_resume j) (download_links j).

(** [job["progress_message"] = m] *)
Definition set_progress (m : string) (j : t) : t :=
  mk (job_index j) (job_title j) (company j) (status j) (Some m)
     (error_message j) (tailored_resume j) (download_links j).

(** [job.update({"status": .., "progress_message": .., "tailored_resume":
    .., "download_links": .., "error_message": ..})] *)
Definition update (s : Status) (progress : option string)
    (tailored : option pyobj) (links : option Links.t)
    (err : option string) (j : t) : t :=
  mk (job_index j) (job_title j) (company j) s progress err tailored links.
End SubJob.

(** [tailoring_jobs] entries. *)
Module Batch.
Record t := mk {
  resume_id : string;
  job_descriptions : list JobDesc;
  status : Status;
  individual_jobs : list SubJob.t;
  error_message : option string;
  created_at : string
}.

Definition set_status (s : Status) (b : t) : t :=
  mk (resume_id b) (job_descriptions b) s (individual_jobs b)
     (error_message b) (created_at b).

Definition set_error_message (m : string) (b : t) : t :=
  mk (resume_id b) (job_descriptions b) (status b) (individual_jobs b)
     (Some m) (created_at b).

Definition set_individual_jobs (js : list SubJob.t) (b : t) : t :=
  mk (resume_id b) (job_descriptions b) (status b) js
     (error_message b) (created_at b).
End Batch.

(** Files of the artifact directory [TAILORED_RESUMES_DIR], keyed by file
    name: a JSON document written by [json.dump], a PDF rendered from a
    document, or anything else. *)
Inductive file :=
| JsonFile (doc : pyobj)
| PdfFile (doc : pyobj)
| OtherFile (bytes : string).

(** Background tasks handed to [BackgroundTasks.add_task]. *)
Inductive Task :=
| ExtractionTask (resume_id : string)
| TailoringTask (task_id : string).

(** The process state: the three module-level registries, the two storage
    directories and the queue of scheduled background tasks. *)
Record State := mkState {
  resume_storage : gmap string Resume.t;
  extraction_status : gmap string Extraction.t;
  tailoring_jobs : gmap string Batch.t;
  uploads : gmap string string;
  tailored_resumes : gmap string file;
  scheduled : list Task
}.

Definition initial_state : State := mkState ∅ ∅ ∅ ∅ ∅ [].

Definition with_resume_storage (f : gmap string Resume.t -> gmap string Resume.t)
    (st : State) : State :=
  mkState (f (resume_storage st)) (extraction_status st) (tailoring_jobs st)
          (uploads st) (tailored_resumes st) (scheduled st).

Definition with_extraction_status
    (f : gmap string Extraction.t -> gmap string Extraction.t)
    (st : State) : State :=
  mkState (resume_storage st) (f (extraction_status st)) (tailoring_jobs st)
          (uploads st) (tailored_resumes st) (scheduled st).

Definition with_tailoring_jobs
    (f : gmap string Batch.t -> gmap string Batch.t) (st : State) : State :=
  mkState (resume_storage st) (extraction_status st) (f (tailoring_jobs st))
          (uploads st) (tailored_resumes st) (scheduled st).

Definition with_uploads (f : gmap string string -> gmap string string)
    (st : State) : State :=
  mkState (resume_storage st) (extraction_status st) (tailoring_jobs st)
          (f (uploads st)) (tailored_resumes st) (scheduled st).

Definition with_tailored_resumes (f : gmap string file -> gmap string file)
    (st : State) : State :=
  mkState (resume_storage st) (extraction_status st) (tailoring_jobs st)
          (uploads st) (f (tailored_resumes st)) (scheduled st).

Definition with_scheduled (f : list Task -> list Task) (st : State) : State :=
  mkState (resume_storage st) (extraction_status st) (tailoring_jobs st)
          (uploads st) (tailored_resumes st) (f (scheduled st)).

(** ** State and exception monad

    A computation runs on the process state and either returns or raises;
    what it wrote before raising stays written. *)

Definition Py (A : Type) : Type := State -> result A * State.

#[global] Instance Py_ret : MRet Py := fun A a st => (Return a, st).

#[global] Instance Py_bind : MBind Py := fun A B f m st =>
  match m st with
  | (Return a, st') => f a st'
  | (Raise e, st') => (Raise e, st')
  end.

Definition raise {A : Type} (e : exn) : Py A := fun st => (Raise e, st).

(** The outcome of a call that has already been made for us. *)
Definition lift {A : Type} (r : result A) : Py A := fun st => (r, st).

Definition gets {A : Type} (f : State -> A) : Py A :=
  fun st => (Return (f st), st).

Definition modify (f : State -> State) : Py unit :=
  fun st => (Return tt, f st).

(** [try: body  except Exception as e: handler(e)] *)
Definition try_except {A : Type} (body : Py A) (handler : exn -> Py A)
    : Py A :=
  fun st =>
    match body st with
    | (Return a, st') => (Return a, st')
    | (Raise e, st') => handler e st'
    end.

(** The body of [m] with its exception, if any, reified. *)
Definition attempt {A : Type} (m : Py A) : Py (result A) :=
  fun st => let '(r, st') := m st in (Return r, st').

(** [for i, x in enumerate(xs, start): body(i, x)] *)
Fixpoint for_enumerate {A : Type} (start : nat) (xs : list A)
    (body : nat -> A -> Py unit) : Py unit :=
  match xs with
  | [] => mret tt
  | x :: rest => body start x ;; for_enumerate (S start) rest body
  end.

(** ** External collaborators

    Everything the backend calls but does not implement.  The tailoring
    call takes, before its two arguments, the position of the call in the
    batch, so that two calls with equal arguments may answer differently. *)

(** A validated [TailoredResume] model, seen through its [model_dump()]. *)
Record TailoredResume := { model_dump : pyobj }.

Record Collaborators := {
  (** [await parse_resume_raw_json(file_path)] *)
  parse_resume_raw_json : string -> result pyobj;
  (** [await tailor_resume_with_ai(resume_data, job_context)] *)
  tailor_resume_with_ai : nat -> pyobj -> pyobj -> result (option TailoredResume);
  (** [open(path, 'w')] followed by [json.dump]: the exception, if any *)
  json_dump : string -> pyobj -> option exn;
  (** [pdf_generator.generate_pdf(data, path)]; it catches its own
      exceptions and answers [False] *)
  generate_pdf : pyobj -> string -> bool;
  (** [open(path, 'wb')] followed by [f.write]: the exception, if any *)
  write_upload : string -> string -> option exn;
  (** the text of the error [json.load] raises on a file that holds no JSON *)
  json_decode_error : string;
  (** [Path(name).suffix.lower()] *)
  path_suffix_lower : string -> string;
  (** [str(x)] of a value inside an f-string *)
  format_obj : pyobj -> string;
  (** [repr(key)], the text of a [KeyError] *)
  repr_str : string -> string;
  (** [str(e)] of an [HTTPException] *)
  str_http_exception : nat -> string -> string;
  (** [str(e)] of the [ValidationError] a response model raises for a
      value that does not fit its field *)
  str_validation_error : string -> pyobj -> string
}.

(** ** Responses *)

Record UploadResponse := {
  up_resume_id : string;
  up_filename : string;
  up_message : string
}.

Record ExtractionStatusResponse := {
  esr_resume_id : string;
  esr_status : Status;
  esr_extracted_data : pyobj;
  esr_error_message : option string
}.

Record TailorRequest := {
  req_resume_id : string;
  req_job_descriptions : list JobDesc
}.

Record TailorResponse := {
  tr_task_id : string;
  tr_message : string;
  tr_status : Status
}.

Record TailorStatusResponse := {
  tsr_task_id : string;
  overall_status : Status;
  total_jobs : nat;
  completed_jobs : nat;
  failed_jobs : nat;
  tsr_individual_jobs : list SubJob.t;
  tsr_error_message : option string
}.

Record FileResponse := {
  fr_path : string;
  fr_filename : string;
  media_type : string
}.

(** [sum(1 for job in jobs if job["status"] == s)] *)
Definition count_status (s : Status) (jobs : list SubJob.t) : nat :=
  length (filter (fun job => SubJob.status job = s) jobs).

(** ** Registry access *)

(** [tailoring_jobs[task_id]] *)
Definition lookup_batch (task_id : string) : Py Batch.t :=
  fun st =>
    match tailoring_jobs st !! task_id with
    | Some batch => (Return batch, st)
    | None => (Raise (KeyError task_id), st)
    end.

(** In-place change of [tailoring_jobs[task_id]]. *)
Definition update_batch (task_id : string) (f : Batch.t -> Batch.t)
    : Py unit :=
  batch ← lookup_batch task_id;
  modify (with_tailoring_jobs <[task_id := f batch]>).

(** In-place change of [tailoring_jobs[task_id]["individual_jobs"][i]]. *)
Definition update_job (task_id : string) (i : nat)
    (f : SubJob.t -> SubJob.t) : Py unit :=
  batch ← lookup_batch task_id;
  match Batch.individual_jobs batch !! i with
  | None => raise IndexError
  | Some job =>
      modify (with_tailoring_jobs
                <[task_id := Batch.set_individual_jobs
                               (<[i := f job]> (Batch.individual_jobs batch))
                               batch]>)
  end.

(** [extraction_status[resume_id]] *)
Definition lookup_extraction (resume_id : string) : Py Extraction.t :=
  fun st =>
    match extraction_status st !! resume_id with
    | Some es => (Return es, st)
    | None => (Raise (KeyError resume_id), st)
    end.

Section Backend.

Context (W : Collaborators).

(** [str(e)] *)
Definition str_exn (e : exn) : string :=
  match e with
  | KeyError key => repr_str W key
  | IndexError => "list index out of range"
  | HTTPException status_code detail => str_http_exception W status_code detail
  | ValidationError model value => str_validation_error W model value
  | Exception text => text
  end.

(** *** POST /api/upload *)

Definition allowed_extensions : list string := [".pdf"; ".docx"; ".doc"].

Definition upload_resume (resume_id now : string)
    (filename content : string) : Py UploadResponse :=
  let file_extension := path_suffix_lower W filename in
  if negb (bool_decide (file_extension ∈ allowed_extensions)) then
    raise (HTTPException 400
             ("File type " +:+ file_extension
              +:+ " not supported. Allowed types: ['.pdf', '.docx', '.doc']"))
  else
    let name := resume_id +:+ "_" +:+ filename in
    let file_path := "uploads/" +:+ name in
    match write_upload W file_path content with
    | Some e =>
        raise (HTTPException 500 ("File upload failed: " +:+ str_exn e))
    | None =>
        modify (with_uploads <[name := content]>);;
        modify (with_resume_storage
                  <[resume_id := Resume.mk filename file_path now "uploaded"]>);;
        modify (with_extraction_status
                  <[resume_id := Extraction.mk pending PyNone None]>);;
        mret {| up_resume_id := resume_id;
                up_filename := filename;
                up_message := "Resume uploaded successfully" |}
    end.

(** *** POST /api/extract/{resume_id} *)

Definition extract_resume_data (resume_id : string)
    : Py ExtractionStatusResponse :=
  st ← gets id;
  match resume_storage st !! resume_id with
  | None => raise (HTTPException 404 "Resume not found")
  | Some _ =>
      match extraction_status st !! resume_id with
      | None =>
          modify (with_extraction_status
                    <[resume_id := Extraction.mk pending PyNone None]>)
      | Some _ => mret tt
      end;;
      modify (with_scheduled
                (fun q => (q ++ [ExtractionTask resume_id])%list));;
      es ← lookup_extraction resume_id;
      modify (with_extraction_status
                <[resume_id := Extraction.mk processing
                                 (Extraction.extracted_data es)
                                 (Extraction.error_message es)]>);;
      mret {| esr_resume_id := resume_id;
              esr_status := processing;
              esr_extracted_data := PyNone;
              esr_error_message := None |}
  end.

(** *** GET /api/extract/{resume_id}/status *)

(** The constructor of [ExtractionStatusResponse]: the field
    [extracted_data] is declared [Optional[Dict]], and a value that is
    neither [None] nor a dictionary is refused. *)
Definition new_extraction_status_response (resume_id : string)
    (status : Status) (extracted_data : pyobj)
    (error_message : option string) : result ExtractionStatusResponse :=
  match extracted_data with
  | PyNone | PyDict _ =>
      Return {| esr_resume_id := resume_id;
                esr_status := status;
                esr_extracted_data := extracted_data;
                esr_error_message := error_message |}
  | _ => Raise (ValidationError "ExtractionStatusResponse" extracted_data)
  end.

Definition get_extraction_status (resume_id : string)
    : Py ExtractionStatusResponse :=
  st ← gets id;
  match extraction_status st !! resume_id with
  | None => raise (HTTPException 404 "Extraction status not found")
  | Some status_data =>
      lift (new_extraction_status_response resume_id
              (Extraction.status status_data)
              (Extraction.extracted_data status_data)
              (Extraction.error_message status_data))
  end.

(** *** PUT /api/resume/{resume_id} *)

Definition update_resume_data (resume_id : string)
    (updated_data : list (string * pyobj)) : Py string :=
  st ← gets id;
  match extraction_status st !! resume_id with
  | None => raise (HTTPException 404 "Resume not found")
  | Some es =>
      if negb (bool_decide (Extraction.status es = completed)) then
        raise (HTTPException 400
                 "Resume extraction not complete, cannot update.")
      else
        modify (with_extraction_status
                  <[resume_id := Extraction.mk (Extraction.status es)
                                   (PyDict updated_data)
                                   (Extraction.error_message es)]>);;
        mret "Resume data updated successfully"
  end.

(** *** POST /api/tailor *)

(** One entry of [individual_jobs], built from a job description. *)
Definition new_subjob (i : nat) (job_desc : JobDesc) : SubJob.t :=
  SubJob.mk i
    (dict_get job_desc "title" "Unknown Title")
    (dict_get job_desc "company" "Unknown Company")
    pending None None None None.

(** [for i, job_desc in enumerate(...): individual_jobs.append({...})] *)
Fixpoint build_individual_jobs (start : nat) (job_descriptions : list JobDesc)
    (individual_jobs : list SubJob.t) : list SubJob.t :=
  match job_descriptions with
  | [] => individual_jobs
  | job_desc :: rest =>
      build_individual_jobs (S start) rest
        (individual_jobs ++ [new_subjob start job_desc])%list
  end.

Definition tailor_resume (task_id now : string) (request : TailorRequest)
    : Py TailorResponse :=
  st ← gets id;
  match resume_storage st !! req_resume_id request with
  | None => raise (HTTPException 404 "Resume not found")
  | Some _ =>
      match extraction_status st !! req_resume_id request with
      | None => raise (HTTPException 400 "Resume not extracted yet")
      | Some es =>
          if negb (bool_decide (Extraction.status es = completed)) then
            raise (HTTPException 400 "Resume extraction not completed")
          else if negb (truthy (Extraction.extracted_data es)) then
            raise (HTTPException 400 "No extracted resume data available")
          else
            let individual_jobs :=
              build_individual_jobs 0 (req_job_descriptions request) [] in
            modify (with_tailoring_jobs
                      <[task_id := Batch.mk (req_resume_id request)
                                     (req_job_descriptions request)
                                     pending individual_jobs None now]>);;
            modify (with_scheduled
                      (fun q => (q ++ [TailoringTask task_id])%list));;
            mret {| tr_task_id := task_id;
                    tr_message := "Resume tailoring started";
                    tr_status := processing |}
      end
  end.

(** *** GET /api/tailor/{task_id}/status *)

Definition get_tailoring_status (task_id : string)
    : Py TailorStatusResponse :=
  st ← gets id;
  match tailoring_jobs st !! task_id with
  | None => raise (HTTPException 404 "Tailoring task not found")
  | Some job_data =>
      let completed_jobs :=
        count_status completed (Batch.individual_jobs job_data) in
      let failed_jobs :=
        count_status failed (Batch.individual_jobs job_data) in
      mret {| tsr_task_id := task_id;
              overall_status := Batch.status job_data;
              total_jobs := length (Batch.job_descriptions job_data);
              completed_jobs := completed_jobs;
              failed_jobs := failed_jobs;
              tsr_individual_jobs := Batch.individual_jobs job_data;
              tsr_error_message := Batch.error_message job_data |}
  end.

(** *** Background task: perform_extraction *)

Definition perform_extraction (resume_id : string) : Py unit :=
  try_except
    (st ← gets id;
     match resume_storage st !! resume_id with
     | None => raise (KeyError resume_id)
     | Some resume_data =>
         let file_path := Resume.file_path resume_data in
         extracted_data ← lift (parse_resume_raw_json W file_path);
         if truthy extracted_data then
           match extracted_data with
           | PyDict items =>
               if eq_str (assoc_get items "error") "api_key_invalid" then
                 let text :=
                   match assoc_get items "error_message" with
                   | Some v => format_obj W v
                   | None => "Invalid or missing API key"
                   end in
                 modify (with_extraction_status
                           <[resume_id := Extraction.mk failed PyNone
                                            (Some ("API Key Error: " +:+ text))]>)
               else
                 modify (with_extraction_status
                           <[resume_id := Extraction.mk completed
                                            extracted_data None]>)
           | _ =>
               modify (with_extraction_status
                         <[resume_id := Extraction.mk completed
                                          extracted_data None]>)
           end
         else
           modify (with_extraction_status
                     <[resume_id := Extraction.mk failed PyNone
                                      (Some "Failed to extract resume data")]>)
     end)
    (fun e =>
       modify (with_extraction_status
                 <[resume_id := Extraction.mk failed PyNone
                                  (Some (str_exn e))]>)).

(** *** Background task: perform_tailoring *)

(** [job_desc_data.get(key, "")] as a value of the job context. *)
Definition ctx_str (job_desc_data : JobDesc) (key : string)
    : string * pyobj :=
  (key, PyStr (dict_get job_desc_data key "")).

(** [job_desc_data.get(key, False)] *)
Definition ctx_flag (job_desc_data : JobDesc) (key : string)
    : string * pyobj :=
  (key, match job_desc_data !! key with
        | Some v => PyStr v
        | None => PyBool false
        end).

(** The enhanced job context with all available fields. *)
Definition job_context (job_desc_data : JobDesc) : pyobj :=
  PyDict [ ctx_str job_desc_data "title";
           ctx_str job_desc_data "company";
           ctx_str job_desc_data "location";
           ctx_str job_desc_data "job_level";
           ctx_str job_desc_data "job_function";
           ctx_str job_desc_data "company_industry";
           ctx_str job_desc_data "description";
           ctx_str job_desc_data "skills";
           ctx_str job_desc_data "experience_range";
           ctx_flag job_desc_data "is_remote";
           ctx_str job_desc_data "job_type";
           ctx_str job_desc_data "company_description";
           ctx_str job_desc_data "company_num_employees";
           ctx_str job_desc_data "min_amount";
           ctx_str job_desc_data "max_amount";
           ctx_str job_desc_data "currency" ].

(** The download links of a tailored resume. *)
Definition download_links (json_name pdf_name : string)
    (pdf_generated : bool) : Links.t :=
  {| Links.json := "/api/download/" +:+ json_name;
     Links.pdf := if pdf_generated
                  then "/api/download/" +:+ pdf_name
                  else "/api/download/" +:+ json_name +:+ "/pdf" |}.

(** [with open(json_file_path, 'w') as f: json.dump(tailored_dict, f)] *)
Definition save_json (name : string) (doc : pyobj) : Py unit :=
  match json_dump W ("tailored_resumes/" +:+ name) doc with
  | Some e => raise e
  | None => modify (with_tailored_resumes <[name := JsonFile doc]>)
  end.

(** [pdf_generator.generate_pdf(doc, str(TAILORED_RESUMES_DIR / name))]:
    the renderer leaves the file behind exactly when it answers [True]. *)
Definition render_pdf (name : string) (doc : pyobj) : Py bool :=
  if generate_pdf W doc ("tailored_resumes/" +:+ name) then
    modify (with_tailored_resumes <[name := PdfFile doc]>);; mret true
  else mret false.

(** The loop body up to the tailoring call: the subjob is marked as being
    processed and the job context is assembled. *)
Definition job_begin (task_id : string) (i : nat) (job_desc_data : JobDesc)
    : Py pyobj :=
  update_job task_id i (SubJob.set_status processing);;
  update_job task_id i (SubJob.set_progress "Starting resume tailoring...");;
  let ctx := job_context job_desc_data in
  update_job task_id i (SubJob.set_progress "Tailoring resume with AI...");;
  mret ctx.

(** The loop body from the answer of the tailoring call on. *)
Definition job_finish (task_id resume_id : string) (i : nat)
    (job_desc_data : JobDesc) (tailored_content : option TailoredResume)
    : Py unit :=
  match tailored_content with
  | Some content =>
      update_job task_id i
        (SubJob.set_progress "Converting to dictionary format...");;
      let tailored_dict := model_dump content in
      update_job task_id i (SubJob.set_progress "Generating filenames...");;
      let base := base_filename resume_id job_desc_data i in
      let json_name := json_filename base in
      let pdf_name := pdf_filename base in
      update_job task_id i (SubJob.set_progress "Saving JSON file...");;
      save_json json_name tailored_dict;;
      update_job task_id i (SubJob.set_progress "Generating PDF...");;
      pdf_generated ← render_pdf pdf_name tailored_dict;
      update_job task_id i (SubJob.set_progress "Creating download links...");;
      let links := download_links json_name pdf_name pdf_generated in
      update_job task_id i
        (SubJob.update completed (Some "Resume tailored successfully!")
           (Some tailored_dict) (Some links) None)
  | None =>
      update_job task_id i
        (SubJob.update failed None None None
           (Some "Failed to generate tailored content"))
  end.

(** The inner [except Exception as e] branch. *)
Definition job_except (task_id : string) (i : nat) (e : exn) : Py unit :=
  update_job task_id i
    (SubJob.update failed None None None (Some (str_exn e))).

(** The inner [try] block. *)
Definition job_body (task_id resume_id : string) (resume_data : pyobj)
    (i : nat) (job_desc_data : JobDesc) : Py unit :=
  ctx ← job_begin task_id i job_desc_data;
  tailored_content ← lift (tailor_resume_with_ai W i resume_data ctx);
  job_finish task_id resume_id i job_desc_data tailored_content.

(** One iteration of the loop over the job descriptions. *)
Definition tailor_job (task_id resume_id : string) (resume_data : pyobj)
    (i : nat) (job_desc_data : JobDesc) : Py unit :=
  try_except
    (job_body task_id resume_id resume_data i job_desc_data)
    (job_except task_id i).

(** The advisory message of a partly successful batch. *)
Definition partial_message (completed_count total_count failed_count : nat)
    : string :=
  PyStr.str_int completed_count +:+ " out of " +:+ PyStr.str_int total_count
  +:+ " jobs completed successfully. " +:+ PyStr.str_int failed_count
  +:+ " jobs failed.".

(** The check of the overall completion status after the loop. *)
Definition summarize (task_id : string) : Py unit :=
  batch ← lookup_batch task_id;
  let completed_count := count_status completed (Batch.individual_jobs batch) in
  batch ← lookup_batch task_id;
  let failed_count := count_status failed (Batch.individual_jobs batch) in
  batch ← lookup_batch task_id;
  let total_count := length (Batch.individual_jobs batch) in
  if (0 <? completed_count)%nat then
    if (completed_count =? total_count)%nat then
      update_batch task_id (Batch.set_status completed)
    else
      update_batch task_id (Batch.set_status completed);;
      update_batch task_id
        (Batch.set_error_message
           (partial_message completed_count total_count failed_count))
  else
    update_batch task_id (Batch.set_status failed);;
    update_batch task_id (Batch.set_error_message "All jobs failed to process").

(** The outer [except Exception as e] branch. *)
Definition batch_except (task_id : string) (e : exn) : Py unit :=
  update_batch task_id
    (fun b => Batch.set_error_message (str_exn e) (Batch.set_status failed b)).

(** The outer [try] block. *)
Definition tailoring_body (task_id : string) : Py unit :=
  job_data ← lookup_batch task_id;
  let resume_id := Batch.resume_id job_data in
  let job_descriptions := Batch.job_descriptions job_data in
  update_batch task_id (Batch.set_status processing);;
  es ← lookup_extraction resume_id;
  let resume_data := Extraction.extracted_data es in
  for_enumerate 0 job_descriptions
    (tailor_job task_id resume_id resume_data);;
  summarize task_id.

Definition perform_tailoring (task_id : string) : Py unit :=
  try_except (tailoring_body task_id) (batch_except task_id).

(** *** GET /api/download/{file_key} *)

(** [(TAILORED_RESUMES_DIR / file_key).exists()] for a [file_key] of one
    path component, which is all a route hands over: a stored file
    exists, and so do the directory itself, which the empty key and [.]
    name, and its parent, which [..] names. *)
Definition path_exists (st : State) (file_key : string) : bool :=
  match tailored_resumes st !! file_key with
  | Some _ => true
  | None => bool_decide (file_key ∈ [""; "."; ".."])
  end.

Definition download_tailored_resume (file_key : string) : Py FileResponse :=
  st ← gets id;
  if negb (path_exists st file_key) then
    raise (HTTPException 404 "File not found")
  else
    let media :=
      if PyStr.endswith file_key ".pdf" then "application/pdf"
      else if PyStr.endswith file_key ".json" then "application/json"
      else "application/octet-stream" in
    mret {| fr_path := "tailored_resumes/" +:+ file_key;
            fr_filename := file_key;
            media_type := media |}.

(** *** GET /api/download/{file_key}/pdf *)

(** [json.load] of a stored file. *)
Definition load_json (f : file) : Py pyobj :=
  match f with
  | JsonFile doc => mret doc
  | _ => raise (Exception (json_decode_error W))
  end.

Definition pdf_response (pdf_file_key : string) : FileResponse :=
  {| fr_path := "tailored_resumes/" +:+ pdf_file_key;
     fr_filename := pdf_file_key;
     media_type := "application/pdf" |}.

Definition download_tailored_resume_pdf (file_key : string)
    : Py FileResponse :=
  let base_name := PyStr.replace ".json" "" file_key in
  let pdf_file_key := base_name +:+ ".pdf" in
  let json_file_key := base_name +:+ ".json" in
  st ← gets id;
  match tailored_resumes st !! pdf_file_key with
  | Some _ => mret (pdf_response pdf_file_key)
  | None =>
      match tailored_resumes st !! json_file_key with
      | Some stored =>
          try_except
            (resume_data ← load_json stored;
             generated ← render_pdf pdf_file_key resume_data;
             if generated : bool
             then mret (pdf_response pdf_file_key) : Py FileResponse
             else raise (HTTPException 500 "Failed to generate PDF"))
            (fun e =>
               raise (HTTPException 500
                        ("Error generating PDF: " +:+ str_exn e)))
      | None => raise (HTTPException 404 "Resume file not found")
      end
  end.

End Backend.

(** ** The backend as a transition system

    Handlers and background tasks run on one event loop: a handler runs
    to its end, a tailoring run gives way to the others exactly where it
    awaits the tailoring collaborator. *)

(** A tailoring run suspended at [await tailor_resume_with_ai(...)]: its
    local variables and the job descriptions still to come. *)
Record Worker := {
  w_task_id : string;
  w_resume_id : string;
  w_resume_data : pyobj;
  w_index : nat;
  w_job_desc_data : JobDesc;
  w_context : pyobj;
  w_rest : list JobDesc
}.

Section Scheduler.

Context (W : Collaborators).

(** The loop from iteration [i] on, up to the next tailoring call or, when
    no job description is left, through the completion check. *)
Fixpoint run_to_await (task_id resume_id : string) (resume_data : pyobj)
    (i : nat) (jobs : list JobDesc) : Py (option Worker) :=
  match jobs with
  | [] => summarize task_id;; mret None
  | job_desc_data :: rest =>
      begun ← attempt (job_begin task_id i job_desc_data);
      match begun with
      | Return ctx =>
          mret (Some {| w_task_id := task_id;
                        w_resume_id := resume_id;
                        w_resume_data := resume_data;
                        w_index := i;
                        w_job_desc_data := job_desc_data;
                        w_context := ctx;
                        w_rest := rest |})
      | Raise e =>
          job_except W task_id i e;;
          run_to_await task_id resume_id resume_data (S i) rest
      end
  end.

(** A scheduled [perform_tailoring(task_id)] starts. *)
Definition worker_start (task_id : string) : Py (option Worker) :=
  try_except
    (job_data ← lookup_batch task_id;
     let resume_id := Batch.resume_id job_data in
     let job_descriptions := Batch.job_descriptions job_data in
     update_batch task_id (Batch.set_status processing);;
     es ← lookup_extraction resume_id;
     let resume_data := Extraction.extracted_data es in
     run_to_await task_id resume_id resume_data 0 job_descriptions)
    (fun e => batch_except W task_id e;; mret None).

(** The tailoring call of a suspended run answers. *)
Definition worker_resume (w : Worker) : Py (option Worker) :=
  try_except
    (try_except
       (tailored_content ←
          lift (tailor_resume_with_ai W (w_index w) (w_resume_data w)
                  (w_context w));
        job_finish W (w_task_id w) (w_resume_id w) (w_index w)
          (w_job_desc_data w) tailored_content)
       (job_except W (w_task_id w) (w_index w));;
     run_to_await (w_task_id w) (w_resume_id w) (w_resume_data w)
       (S (w_index w)) (w_rest w))
    (fun e => batch_except W (w_task_id w) e;; mret None).

(** An uninterrupted run: resume until the run is over.  Every round
    consumes a job description, so one round per description is enough. *)
Fixpoint drive (rounds : nat) (w : option Worker) : Py unit :=
  match w, rounds with
  | None, _ => mret tt
  | Some _, O => mret tt
  | Some w, S k => next ← worker_resume w; drive k next
  end.

End Scheduler.

(** The requests of the API. *)
Inductive Call :=
| CallUpload (resume_id now filename content : string)
| CallExtract (resume_id : string)
| CallExtractionStatus (resume_id : string)
| CallUpdate (resume_id : string) (updated_data : list (string * pyobj))
| CallTailor (task_id now : string) (request : TailorRequest)
| CallTailoringStatus (task_id : string)
| CallDownload (file_key : string)
| CallDownloadPdf (file_key : string).

(** The state a request leaves behind, whatever it answers. *)
Definition handle (W : Collaborators) (c : Call) (st : State) : State :=
  match c with
  | CallUpload resume_id now filename content =>
      snd (upload_resume W resume_id now filename content st)
  | CallExtract resume_id => snd (extract_resume_data resume_id st)
  | CallExtractionStatus resume_id => snd (get_extraction_status resume_id st)
  | CallUpdate resume_id updated_data =>
      snd (update_resume_data resume_id updated_data st)
  | CallTailor task_id now request => snd (tailor_resume task_id now request st)
  | CallTailoringStatus task_id => snd (get_tailoring_status task_id st)
  | CallDownload file_key => snd (download_tailored_resume file_key st)
  | CallDownloadPdf file_key => snd (download_tailored_resume_pdf W file_key st)
  end.

(** [uuid.uuid4()] yields an identifier that is not in use. *)
Definition fresh (c : Call) (st : State) : Prop :=
  match c with
  | CallUpload resume_id _ _ _ =>
      resume_storage st !! resume_id = None
      /\ extraction_status st !! resume_id = None
  | CallTailor task_id _ _ => tailoring_jobs st !! task_id = None
  | _ => True
  end.

Record System := {
  store : State;
  suspended : list Worker
}.

Definition initial_system : System :=
  {| store := initial_state; suspended := [] |}.

(** The run that continues, if one does. *)
Definition continuing (r : result (option Worker)) : list Worker :=
  match r with
  | Return (Some w) => [w]
  | _ => []
  end.

Inductive step : System -> System -> Prop :=
| step_call W c s :
    fresh c (store s) ->
    step s {| store := handle W c (store s); suspended := suspended s |}
| step_extraction W resume_id s q1 q2 :
    scheduled (store s) = (q1 ++ ExtractionTask resume_id :: q2)%list ->
    step s {| store := snd (perform_extraction W resume_id
                              (with_scheduled (fun _ => (q1 ++ q2)%list)
                                 (store s)));
              suspended := suspended s |}
| step_start W task_id s q1 q2 r st' :
    scheduled (store s) = (q1 ++ TailoringTask task_id :: q2)%list ->
    worker_start W task_id
      (with_scheduled (fun _ => (q1 ++ q2)%list) (store s)) = (r, st') ->
    step s {| store := st'; suspended := (suspended s ++ continuing r)%list |}
| step_resume W w s l1 l2 r st' :
    suspended s = (l1 ++ w :: l2)%list ->
    worker_resume W w (store s) = (r, st') ->
    step s {| store := st'; suspended := (l1 ++ continuing r ++ l2)%list |}.

(** The states the backend can be in. *)
Definition reachable (s : System) : Prop := rtc step initial_system s.

(** The failures of a submission, by the names the specification gives
    them. *)
Inductive SubmitFailure :=
| NotFound | NotExtracted | ExtractionIncomplete | NoData.

Definition submit_failure (f : SubmitFailure) : exn :=
  match f with
  | NotFound => HTTPException 404 "Resume not found"
  | NotExtracted => HTTPException 400 "Resume not extracted yet"
  | ExtractionIncomplete => HTTPException 400 "Resume extraction not completed"
  | NoData => HTTPException 400 "No extracted resume data available"
  end.

(** ** What one loop iteration amounts to

    The record a subjob ends with and the files its iteration writes, as
    functions of the collaborators' answers. *)

Section Summary.

Context (W : Collaborators).

Definition failed_with (text : string) (job : SubJob.t) : SubJob.t :=
  SubJob.update failed None None None (Some text) job.

Definition finished_job (resume_id : string) (resume_data : pyobj)
    (i : nat) (job_desc_data : JobDesc) (job : SubJob.t) : SubJob.t :=
  match tailor_resume_with_ai W i resume_data (job_context job_desc_data) with
  | Raise e => failed_with (str_exn W e) job
  | Return None => failed_with "Failed to generate tailored content" job
  | Return (Some content) =>
      let doc := model_dump content in
      let base := base_filename resume_id job_desc_data i in
      match json_dump W ("tailored_resumes/" +:+ json_filename base) doc with
      | Some e => failed_with (str_exn W e) job
      | None =>
          SubJob.update completed (Some "Resume tailored successfully!")
            (Some doc)
            (Some (download_links (json_filename base) (pdf_filename base)
                     (generate_pdf W doc
                        ("tailored_resumes/" +:+ pdf_filename base))))
            None job
      end
  end.

Definition written_files (resume_id : string) (resume_data : pyobj)
    (i : nat) (job_desc_data : JobDesc) (files : gmap string file)
    : gmap string file :=
  match tailor_resume_with_ai W i resume_data (job_context job_desc_data) with
  | Return (Some content) =>
      let doc := model_dump content in
      let base := base_filename resume_id job_desc_data i in
      match json_dump W ("tailored_resumes/" +:+ json_filename base) doc with
      | Some _ => files
      | None =>
          let files := <[json_filename base := JsonFile doc]> files in
          if generate_pdf W doc ("tailored_resumes/" +:+ pdf_filename base)
          then <[pdf_filename base := PdfFile doc]> files
          else files
      end
  | _ => files
  end.

(** The exception, if any, with which the inner [try] block ends. *)
Definition job_failure (resume_id : string) (resume_data : pyobj)
    (i : nat) (job_desc_data : JobDesc) : option exn :=
  match tailor_resume_with_ai W i resume_data (job_context job_desc_data) with
  | Raise e => Some e
  | Return None => None
  | Return (Some content) =>
      json_dump W
        ("tailored_resumes/"
         +:+ json_filename (base_filename resume_id job_desc_data i))
        (model_dump content)
  end.

Fixpoint finish_jobs (resume_id : string) (resume_data : pyobj)
    (start : nat) (job_descriptions : list JobDesc)
    (jobs : list SubJob.t) : list SubJob.t :=
  match job_descriptions, jobs with
  | job_desc_data :: rest, job :: jobs' =>
      finished_job resume_id resume_data start job_desc_data job
      :: finish_jobs resume_id resume_data (S start) rest jobs'
  | _, _ => jobs
  end.

Fixpoint files_after (resume_id : string) (resume_data : pyobj)
    (start : nat) (job_descriptions : list JobDesc)
    (files : gmap string file) : gmap string file :=
  match job_descriptions with
  | [] => files
  | job_desc_data :: rest =>
      files_after resume_id resume_data (S start) rest
        (written_files resume_id resume_data start job_desc_data files)
  end.

(** The batch after the completion check. *)
Definition summary (batch : Batch.t) : Batch.t :=
  let jobs := Batch.individual_jobs batch in
  let completed_count := count_status completed jobs in
  if (0 <? completed_count)%nat then
    if (completed_count =? length jobs)%nat then
      Batch.set_status completed batch
    else
      Batch.set_error_message
        (partial_message completed_count (length jobs)
           (count_status failed jobs))
        (Batch.set_status completed batch)
  else
    Batch.set_error_message "All jobs failed to process"
      (Batch.set_status failed batch).

(** The batch a run leaves behind. *)
Definition final_batch (batch : Batch.t) (resume_data : pyobj) : Batch.t :=
  summary
    (Batch.set_individual_jobs
       (finish_jobs (Batch.resume_id batch) resume_data 0
          (Batch.job_descriptions batch) (Batch.individual_jobs batch))
       (Batch.set_status processing batch)).

End Summary.

(** The state in which subjob [i] of batch [task_id], which was [batch], is
    [job]. *)
Definition put_job (task_id : string) (batch : Batch.t) (i : nat)
    (job : SubJob.t) (st : State) : State :=
  with_tailoring_jobs
    <[task_id := Batch.set_individual_jobs
                   (<[i := job]> (Batch.individual_jobs batch)) batch]> st.

(** [job] is in a final state. *)
Definition terminal (job : SubJob.t) : Prop :=
  SubJob.status job = completed \/ SubJob.status job = failed.

(** ** Shapes of batches *)

(** What identifies a subjob: its index, title and company. *)
Definition identity (job : SubJob.t) : nat * string * string :=
  (SubJob.job_index job, SubJob.job_title job, SubJob.company job).

(** What a submission fixes of a batch: the job descriptions and, in order,
    the identities of the subjobs. *)
Definition shape (batch : Batch.t)
    : list JobDesc * list (nat * string * string) :=
  (Batch.job_descriptions batch, identity <$> Batch.individual_jobs batch).

Definition shapes (st : State)
    : gmap string (list JobDesc * list (nat * string * string)) :=
  shape <$> tailoring_jobs st.

(** One subjob per job description, in the order of the job descriptions. *)
Definition aligned_shape (sh : list JobDesc * list (nat * string * string))
    : Prop :=
  sh.2 = imap (fun i job_desc => identity (new_subjob i job_desc)) sh.1.

Definition aligned (batch : Batch.t) : Prop := aligned_shape (shape batch).

(** A computation that leaves the shape of every batch alone. *)
Definition keeps_shapes {A : Type} (m : Py A) : Prop :=
  forall st, shapes (m st).2 = shapes st.

(** Every batch of the state is aligned. *)
Definition all_aligned (st : State) : Prop :=
  map_Forall (fun _ sh => aligned_shape sh) (shapes st).

(** ** A sample deployment

    Concrete collaborators and a concrete state, on which the properties
    below are exercised. *)

(** A collaborator set for the examples: the tailoring call fails on the
    first job description and answers on the others, the PDF renderer
    always fails, writes go through. *)
Definition sample_resume : pyobj := PyDict [("name", PyStr "Ada")].

Definition sample_world : Collaborators :=
  {| parse_resume_raw_json := fun _ => Return sample_resume;
     tailor_resume_with_ai := fun i _ _ =>
       match i with
       | O => Raise (Exception "quota exceeded")
       | _ => Return (Some {| model_dump := PyDict [("summary", PyStr "x")] |})
       end;
     json_dump := fun _ _ => None;
     generate_pdf := fun _ _ => false;
     write_upload := fun _ _ => None;
     json_decode_error := "Expecting value";
     path_suffix_lower := fun _ => ".pdf";
     format_obj := fun _ => "";
     repr_str := fun s => s;
     str_http_exception := fun _ d => d;
     str_validation_error := fun model _ =>
       "1 validation error for " +:+ model |}.

(** A state with one extracted resume ["r"] and one submitted batch ["t"]
    of two "Engineer" jobs at "Acme". *)
Definition sample_state : State :=
  {| resume_storage := {["r" := Resume.mk "cv.pdf" "uploads/r_cv.pdf" "now" "uploaded"]};
     extraction_status := {["r" := Extraction.mk completed sample_resume None]};
     tailoring_jobs :=
       {["t" := Batch.mk "r" [acme_engineer; acme_engineer] pending
                  [new_subjob 0 acme_engineer; new_subjob 1 acme_engineer]
                  None "now"]};
     uploads := ∅;
     tailored_resumes := ∅;
     scheduled := [TailoringTask "t"] |}.

Definition sample_batch : Batch.t :=
  Batch.mk "r" [acme_engineer; acme_engineer] pending
    [new_subjob 0 acme_engineer; new_subjob 1 acme_engineer] None "now".

(** A submission of two "Engineer" jobs at "Acme". *)
Definition two_jobs : TailorRequest :=
  {| req_resume_id := "r"; req_job_descriptions := [acme_engineer; acme_engineer] |}.

(** The sample deployment after an upload, an extraction, a submission of
    two jobs and the start of the tailoring run. *)
Definition sample_system : System :=
  let s1 := handle sample_world (CallUpload "r" "now" "cv.pdf" "bytes")
              initial_state in
  let s2 := handle sample_world (CallExtract "r") s1 in
  let s3 := (perform_extraction sample_world "r"
               (with_scheduled (fun _ => []) s2)).2 in
  let s4 := handle sample_world (CallTailor "t" "now" two_jobs) s3 in
  let started := worker_start sample_world "t" (with_scheduled (fun _ => []) s4) in
  {| store := started.2; suspended := continuing started.1 |}.

(** The invariant the specification states for an extraction record: the
    extracted data is there exactly when the state is [completed]. *)
Definition data_iff_completed (es : Extraction.t) : Prop :=
  is_none (Extraction.extracted_data es) = false
  <-> Extraction.status es = completed.

(** The sample deployment with its resume uploaded and extracted. *)
Definition extracted_state : State :=
  let s1 := handle sample_world (CallUpload "r" "now" "cv.pdf" "bytes")
              initial_state in
  let s2 := handle sample_world (CallExtract "r") s1 in
  (perform_extraction sample_world "r" (with_scheduled (fun _ => []) s2)).2.

(** [Some base] when [s = base ++ suffix]. *)
Fixpoint strip_suffix (suffix s : string) : option string :=
  if String.eqb s suffix then Some ""
  else match s with
       | EmptyString => None
       | String c s' => String c <$> strip_suffix suffix s'
       end.

(** The base name as the specification words it: the key without its
    [.pdf] or [.json] suffix, if it has one. *)
Definition spec_base_name (file_key : string) : string :=
  match strip_suffix ".pdf" file_key with
  | Some base => base
  | None =>
      match strip_suffix ".json" file_key with
      | Some base => base
      | None => file_key
      end
  end.

(** An artifact directory that holds the rendered document [a.pdf] only. *)
Definition only_a_pdf : State :=
  with_tailored_resumes <["a.pdf" := PdfFile sample_resume]> initial_state.

(** * Further components *)

(** The sample collaborators with a renderer that works. *)
Definition rendering_world : Collaborators :=
  {| parse_resume_raw_json := parse_resume_raw_json sample_world;
     tailor_resume_with_ai := tailor_resume_with_ai sample_world;
     json_dump := json_dump sample_world;
     generate_pdf := fun _ _ => true;
     write_upload := write_upload sample_world;
     json_decode_error := json_decode_error sample_world;
     path_suffix_lower := path_suffix_lower sample_world;
     format_obj := format_obj sample_world;
     repr_str := repr_str sample_world;
     str_http_exception := str_http_exception sample_world;
     str_validation_error := str_validation_error sample_world |}.

(** ** Job search (jobs_scraper.py and GET /api/search)

    A [DataFrame] of job postings is seen as the list of its rows, each the
    record [to_dict('records')] makes of it; a frame of [jobspy] has
    columns, so it is empty when it has no row. *)

Module JobSearch.

Abbreviation DataFrame := (list pyobj).

(** [df.empty] *)
Definition empty (df : DataFrame) : bool :=
  match df with
  | [] => true
  | _ :: _ => false
  end.

(** [df.head(n)]: the first [n] rows, or all but the last [-n] rows when
    [n] is negative. *)
Definition head (n : Z) (df : DataFrame) : DataFrame :=
  if (0 <=? n)%Z then take (Z.to_nat n) df
  else take (length df - Z.to_nat (- n)) df.

Record Scraper := {
  (** [scrape_jobs(site_name=["linkedin"], search_term=..,
      google_search_term=.., location=.., results_wanted=20, hours_old=..,
      linkedin_fetch_description=True, proxies=..)] *)
  scrape_jobs : string -> string -> string -> nat -> option (list string)
                -> result (option DataFrame);
  (** [(datetime.now() - timedelta(days=time_days)).strftime("%d %b %Y")] *)
  formatted_date : nat -> string
}.

Record JobSearchResponse := {
  jobs : list pyobj;
  total_count : nat;
  search_term : string;
  location : string
}.

(** [SpeedyApplyTool.find_and_save_jobs] *)
Definition find_and_save_jobs (S : Scraper) (search_term location : string)
    (time_days : nat) (proxy_url : option string) : option DataFrame :=
  let google_search_query :=
    search_term +:+ " jobs near " +:+ location +:+ " since "
    +:+ formatted_date S time_days in
  let proxies_to_use :=
    match proxy_url with
    | Some url => if String.eqb url "" then None else Some [url]
    | None => None
    end in
  match scrape_jobs S search_term google_search_query location
          (time_days * 24) proxies_to_use with
  | Raise _ => None
  | Return jobs_df =>
      match jobs_df with
      | Some df => if negb (empty df) then Some df else None
      | None => None
      end
  end.

(** [search_jobs], the handler of GET /api/search; [time_days] keeps its
    default of 4. *)
Definition search_jobs (W : Collaborators) (S : Scraper)
    (query location : string) (limit : Z) (proxy : option string)
    : Py JobSearchResponse :=
  try_except
    (match find_and_save_jobs S query location 4 proxy with
     | None => raise (HTTPException 404 "No jobs found or scraping failed")
     | Some jobs_df =>
         if empty jobs_df then
           raise (HTTPException 404 "No jobs found or scraping failed")
         else
           let jobs_list := head limit jobs_df in
           mret {| jobs := jobs_list;
                   total_count := length jobs_list;
                   search_term := query;
                   location := location |}
     end)
    (fun e =>
       raise (HTTPException 500 ("Job search failed: " +:+ str_exn W e))).

End JobSearch.

(** A scraper that finds three postings. *)
Definition sample_scraper : JobSearch.Scraper :=
  {| JobSearch.scrape_jobs := fun _ _ _ _ _ =>
       Return (Some [PyStr "a"; PyStr "b"; PyStr "c"]);
     JobSearch.formatted_date := fun _ => "01 Jan 2025" |}.

(** ** The tailoring agent (resume_tailor_agent.py) *)

Module Agent.

Record t := {
  (** create the agent, build the prompt from the resume data and the job
      context, [await agent.arun(prompt)]; the answer is
      [response.content], or [str(response)] when there is no such
      attribute *)
  arun : pyobj -> pyobj -> result string;
  (** [clean_response_content]: two [re.sub] and a [strip] *)
  clean_response_content : string -> string;
  (** [parse_json_response], which is [json.loads] *)
  parse_json_response : string -> result pyobj;
  (** the constructor of [TailoredResume] applied to the entries of the
      parsed data *)
  validate : pyobj -> result TailoredResume
}.

(** [tailor_resume(resume_data, job_context)] *)
Definition tailor_resume (A : t) (resume_data job_context : pyobj)
    : result (option TailoredResume) :=
  match arun A resume_data job_context with
  | Raise e => Raise e
  | Return response_content =>
      let cleaned_content := clean_response_content A response_content in
      match parse_json_response A cleaned_content with
      | Raise e => Raise e
      | Return tailored_data =>
          if truthy tailored_data then
            match validate A tailored_data with
            | Return validated_resume => Return (Some validated_resume)
            | Raise validation_error => Return None
            end
          else Return None
      end
  end.

End Agent.

(** The collaborators [W] with [main.py]'s [tailor_resume_with_ai] bound
    to the agent's [tailor_resume]. *)
Definition with_agent (W : Collaborators) (A : Agent.t) : Collaborators :=
  {| parse_resume_raw_json := parse_resume_raw_json W;
     tailor_resume_with_ai := fun _ resume_data job_context =>
       Agent.tailor_resume A resume_data job_context;
     json_dump := json_dump W;
     generate_pdf := generate_pdf W;
     write_upload := write_upload W;
     json_decode_error := json_decode_error W;
     path_suffix_lower := path_suffix_lower W;
     format_obj := format_obj W;
     repr_str := repr_str W;
     str_http_exception := str_http_exception W;
     str_validation_error := str_validation_error W |}.

(** An agent whose model answers with text that is no JSON. *)
Definition babbling_agent : Agent.t :=
  {| Agent.arun := fun _ _ => Return "Sure! Here is your resume";
     Agent.clean_response_content := fun s => s;
     Agent.parse_json_response := fun _ =>
       Raise (Exception "Expecting value: line 1 column 1 (char 0)");
     Agent.validate := fun _ => Raise (Exception "validation error") |}.

(** ** The resume parser (resume_parser_agent.py) *)

Module Parser.

(** The dictionary [validate_gemini_api_key] returns. *)
Record Validation := {
  valid : bool;
  error : option string
}.

(** What [resume_parser_agent.arun] answers, as far as
    [parse_resume_raw_json] tells the answers apart. *)
Inductive RunResponse :=
(** [response.content] is a [Resume]; [dump] is its [model_dump()] *)
| ResumeContent (dump : pyobj)
(** [response] is a [Resume] *)
| ResumeObject (dump : pyobj)
(** otherwise: [response.content], or [str(response)] *)
| Content (response_content : string).

Record t := {
  (** [os.getenv] *)
  getenv : string -> option string;
  (** [genai.configure(api_key)], the model, its test request, and the
      truth value of [response and response.text] *)
  test_request : string -> result bool;
  (** the texts of the paragraphs of [docx.Document(file_path)] *)
  read_docx : string -> result (list string);
  (** [page.get_text()] of the pages of [fitz.open(file_path)] *)
  read_pdf : string -> result (list string);
  (** [await resume_parser_agent.arun(prompt)] *)
  arun : string -> result RunResponse;
  (** [parse_json_response]: regular expressions around [json.loads];
      [None] is [PyNone] *)
  parse_json_response : string -> result pyobj
}.

(** [not api_key] *)
Definition not_str (s : option string) : bool :=
  match s with
  | None => true
  | Some s => String.eqb s ""
  end.

Section Functions.

Context (W : Collaborators) (P : t).

(** [validate_gemini_api_key()] *)
Definition validate_gemini_api_key : result Validation :=
  let body :=
    let api_key := getenv P "GOOGLE_API_KEY" in
    if not_str api_key then
      Return {| valid := false;
                error := Some "GOOGLE_API_KEY not found in environment variables" |}
    else
      match test_request P (default "" api_key) with
      | Raise e => Raise e
      | Return true => Return {| valid := true; error := None |}
      | Return false =>
          Return {| valid := false;
                    error := Some "API key is invalid or has insufficient permissions" |}
      end in
  match body with
  | Return validation => Return validation
  | Raise e =>
      Return {| valid := false;
                error := Some ("API validation failed: " +:+ str_exn W e) |}
  end.

(** The separator of the loaders' [join]: a backslash and an [n]. *)
Definition separator : string := "\n".

(** [load_resume_from_docx(file_path)] *)
Definition load_resume_from_docx (file_path : string) : string :=
  match read_docx P file_path with
  | Return full_text => String.concat separator full_text
  | Raise e => ""
  end.

(** [load_resume_from_pdf(file_path)] *)
Definition load_resume_from_pdf (file_path : string) : string :=
  match read_pdf P file_path with
  | Return full_text => String.concat separator full_text
  | Raise e => ""
  end.

(** [load_resume_text(file_path)] *)
Definition load_resume_text (file_path : string) : string :=
  let file_extension := path_suffix_lower W file_path in
  if String.eqb file_extension ".pdf" then load_resume_from_pdf file_path
  else if bool_decide (file_extension ∈ [".docx"; ".doc"]) then
    load_resume_from_docx file_path
  else "".

Definition newline : string := String (ascii_of_nat 10) "".

(** The prompt built around the resume text. *)
Definition prompt (resume_text : string) : string :=
  newline
  +:+ "    Please parse the following resume text and extract the information into the structured JSON format."
  +:+ newline +:+ newline
  +:+ "    Resume Text:" +:+ newline
  +:+ "    ---" +:+ newline
  +:+ "    " +:+ resume_text +:+ newline
  +:+ "    ---" +:+ newline +:+ newline
  +:+ "    CRITICAL: Return ONLY a valid JSON object with all the extracted resume information. Your response must start with { and end with }. NO other text allowed."
  +:+ newline +:+ "    ".

(** An optional string as a value. *)
Definition opt_str (s : option string) : pyobj :=
  match s with
  | Some s => PyStr s
  | None => PyNone
  end.

(** [parse_resume_raw_json(resume_file_path)] *)
Definition parse_resume_raw_json (resume_file_path : string)
    : result pyobj :=
  match validate_gemini_api_key with
  | Raise e => Raise e
  | Return api_validation =>
      if negb (valid api_validation) then
        Return (PyDict [("error", PyStr "api_key_invalid");
                        ("error_message", opt_str (error api_validation));
                        ("status", PyStr "failed")])
      else
        let resume_text := load_resume_text resume_file_path in
        if String.eqb resume_text "" then Return PyNone
        else
          let body :=
            match arun P (prompt resume_text) with
            | Raise e => Raise e
            | Return (ResumeContent dump) => Return dump
            | Return (ResumeObject dump) => Return dump
            | Return (Content response_content) =>
                match parse_json_response P response_content with
                | Raise e => Raise e
                | Return json_data =>
                    if truthy json_data then Return json_data
                    else Return PyNone
                end
            end in
          match body with
          | Return data => Return data
          | Raise e => Return PyNone
          end
  end.

End Functions.

End Parser.

(** The collaborators [W] with [main.py]'s [parse_resume_raw_json] bound
    to the parser's. *)
Definition with_parser (W : Collaborators) (P : Parser.t) : Collaborators :=
  {| parse_resume_raw_json := Parser.parse_resume_raw_json W P;
     tailor_resume_with_ai := tailor_resume_with_ai W;
     json_dump := json_dump W;
     generate_pdf := generate_pdf W;
     write_upload := write_upload W;
     json_decode_error := json_decode_error W;
     path_suffix_lower := path_suffix_lower W;
     format_obj := format_obj W;
     repr_str := repr_str W;
     str_http_exception := str_http_exception W;
     str_validation_error := str_validation_error W |}.

(** *** GET /api/validate-key *)

Record KeyValidationResponse := {
  kv_valid : bool;
  kv_error_message : option string;
  kv_timestamp : string
}.

(** [validate_api_key()]; [now] is [datetime.now().isoformat()]. *)
Definition validate_api_key (W : Collaborators) (P : Parser.t)
    (now : string) : result KeyValidationResponse :=
  match Parser.validate_gemini_api_key W P with
  | Return validation_result =>
      Return {| kv_valid := Parser.valid validation_result;
                kv_error_message := Parser.error validation_result;
                kv_timestamp := now |}
  | Raise e =>
      Return {| kv_valid := false;
                kv_error_message :=
                  Some ("Validation failed: " +:+ str_exn W e);
                kv_timestamp := now |}
  end.

(** A deployment without an API key, and one whose model is
    unreachable. *)
Definition keyless_parser : Parser.t :=
  {| Parser.getenv := fun _ => None;
     Parser.test_request := fun _ => Return true;
     Parser.read_docx := fun _ => Return ["Jane Doe"];
     Parser.read_pdf := fun _ => Return ["Jane Doe"];
     Parser.arun := fun _ => Return (Parser.ResumeObject sample_resume);
     Parser.parse_json_response := fun _ => Return PyNone |}.

Definition unreachable_parser : Parser.t :=
  {| Parser.getenv := fun _ => Some "key";
     Parser.test_request := fun _ => Return true;
     Parser.read_docx := fun _ => Return ["Jane Doe"];
     Parser.read_pdf := fun _ => Return ["Jane Doe"];
     Parser.arun := fun _ => Raise (Exception "503 model overloaded");
     Parser.parse_json_response := fun _ => Return PyNone |}.

(** A deployment whose model answers with a JSON list. *)
Definition listing_parser : Parser.t :=
  {| Parser.getenv := fun _ => Some "key";
     Parser.test_request := fun _ => Return true;
     Parser.read_docx := fun _ => Return ["Jane Doe"];
     Parser.read_pdf := fun _ => Return ["Jane Doe"];
     Parser.arun := fun _ => Return (Parser.Content "[1]");
     Parser.parse_json_response := fun _ => Return (PyList [PyInt 1]) |}.

(** ** Dates of the rendered document (pdf_generator.py) *)

Module Dates.

(** [c.lower()] *)
Definition lower_char (c : ascii) : ascii :=
  if PyStr.between 65 90 c || PyStr.between 192 214 c
     || PyStr.between 216 222 c
  then ascii_of_nat (PyStr.code c + 32)
  else c.

(** [s.lower()] *)
Fixpoint lower (s : string) : string :=
  match s with
  | EmptyString => EmptyString
  | String c s' => String (lower_char c) (lower s')
  end.

(** [s.split(sep)] for a separator of one character. *)
Fixpoint split (sep : ascii) (s : string) : list string :=
  match s with
  | EmptyString => [EmptyString]
  | String c s' =>
      if Ascii.eqb c sep then EmptyString :: split sep s'
      else
        match split sep s' with
        | part :: parts => String c part :: parts
        | [] => [String c EmptyString]
        end
  end.

(** The white space [int()] skips at both ends of its argument. *)
Definition int_space (c : ascii) : bool :=
  PyStr.between 9 13 c || (PyStr.code c =? 32)%nat
  || (PyStr.code c =? 133)%nat || (PyStr.code c =? 160)%nat.

Fixpoint skip_leading (s : string) : string :=
  match s with
  | EmptyString => EmptyString
  | String c s' => if int_space c then skip_leading s' else s
  end.

Fixpoint skip_trailing (s : string) : string :=
  match s with
  | EmptyString => EmptyString
  | String c s' =>
      match skip_trailing s' with
      | EmptyString => if int_space c then EmptyString else String c EmptyString
      | rest => String c rest
      end
  end.

Definition is_digit (c : ascii) : bool := PyStr.between 48 57 c.

(** Decimal digits with single underscores between them: the value and
    the number of digits. *)
Fixpoint digits (s : string) (value : Z) (count : nat)
    : option (Z * nat) :=
  match s with
  | EmptyString => Some (value, count)
  | String c s' =>
      if is_digit c then
        digits s' (10 * value + (Z.of_nat (PyStr.code c) - 48))%Z (S count)
      else if Ascii.eqb c "_" then
        match s' with
        | String c' _ => if is_digit c' then digits s' value count else None
        | EmptyString => None
        end
      else None
  end.

(** The most digits [int()] converts (sys.int_info.default_max_str_digits). *)
Definition max_str_digits : nat := 4300.

(** [int(s)]; [None] is a [ValueError]. *)
Definition int (s : string) : option Z :=
  match skip_trailing (skip_leading s) with
  | EmptyString => None
  | String c rest =>
      let '(negative, body) :=
        if Ascii.eqb c "-" then (true, rest)
        else if Ascii.eqb c "+" then (false, rest)
        else (false, String c rest) in
      match body with
      | EmptyString => None
      | String first _ =>
          if is_digit first then
            match digits body 0 0 with
            | Some (value, count) =>
                if (max_str_digits <? count)%nat then None
                else Some (if negative then (- value)%Z else value)
            | None => None
            end
          else None
      end
  end.

Definition month_names : list (Z * string) :=
  [(1, "Jan"); (2, "Feb"); (3, "Mar"); (4, "Apr"); (5, "May"); (6, "Jun");
   (7, "Jul"); (8, "Aug"); (9, "Sep"); (10, "Oct"); (11, "Nov");
   (12, "Dec")]%Z.

(** [names[key]] when [key in names] *)
Fixpoint month_get (names : list (Z * string)) (key : Z) : option string :=
  match names with
  | [] => None
  | (k, name) :: rest => if (k =? key)%Z then Some name else month_get rest key
  end.

(** [ResumePDFGenerator._format_date(date_str)] for a string. *)
Definition _format_date (date_str : string) : string :=
  if String.eqb date_str "" || String.eqb (lower date_str) "present" then
    date_str
  else if PyStr.contains "-" date_str then
    let parts := split "-" date_str in
    if (2 <=? length parts)%nat then
      match parts !! 0%nat, parts !! 1%nat with
      | Some year, Some part =>
          match int part with
          | Some month_num =>
              match month_get month_names month_num with
              | Some name => year +:+ "-" +:+ name
              | None => date_str
              end
          | None => date_str
          end
      | _, _ => date_str
      end
    else date_str
  else date_str.

End Dates.

(** ** Links and artifacts

    What the store owes to a completed subjob: the file its [json] link
    names is there and holds a JSON document. *)

Definition has_json (name : string) (st : State) : Prop :=
  exists doc, tailored_resumes st !! name = Some (JsonFile doc).

Definition linked (st : State) (job : SubJob.t) : Prop :=
  SubJob.status job = completed ->
  exists links base,
    SubJob.download_links job = Some links
    /\ Links.json links = "/api/download/" +:+ json_filename base
    /\ has_json (json_filename base) st.

Definition artifacts_linked (st : State) : Prop :=
  forall task_id batch i job,
    tailoring_jobs st !! task_id = Some batch ->
    Batch.individual_jobs batch !! i = Some job ->
    linked st job.

(** The sample deployment after its run is over: the first tailoring call
    has failed, the second has answered. *)
Definition finished_system : System :=
  match suspended sample_system with
  | w0 :: _ =>
      let first := worker_resume sample_world w0 (store sample_system) in
      match continuing first.1 with
      | w1 :: _ =>
          let second := worker_resume sample_world w1 first.2 in
          {| store := second.2; suspended := continuing second.1 |}
      | [] => {| store := first.2; suspended := [] |}
      end
  | [] => sample_system
  end.

(** A change of a subjob that cannot make it [completed], or that leaves
    a [completed] subjob its links. *)
Definition harmless (job job' : SubJob.t) : Prop :=
  SubJob.status job' = completed ->
  SubJob.status job = completed
  /\ SubJob.download_links job' = SubJob.download_links job.

(** Properties of the state that no write of the backend breaks, the
    write of the record of a completed subjob apart. *)
Record closed (J : State -> Prop) : Prop := {
  closed_view : forall st st',
    tailoring_jobs st' = tailoring_jobs st ->
    tailored_resumes st' = tailored_resumes st ->
    J st -> J st';
  closed_job : forall st task_id batch i job job',
    tailoring_jobs st !! task_id = Some batch ->
    Batch.individual_jobs batch !! i = Some job ->
    harmless job job' ->
    J st ->
    J (with_tailoring_jobs
         <[task_id := Batch.set_individual_jobs
                        (<[i := job']> (Batch.individual_jobs batch))
                        batch]> st);
  closed_batch : forall st task_id batch,
    (forall i job, Batch.individual_jobs batch !! i = Some job ->
       SubJob.status job = completed ->
       exists batch0,
         tailoring_jobs st !! task_id = Some batch0
         /\ Batch.individual_jobs batch0 !! i = Some job) ->
    J st -> J (with_tailoring_jobs <[task_id := batch]> st);
  closed_json : forall st base doc,
    J st ->
    J (with_tailored_resumes <[json_filename base := JsonFile doc]> st);
  closed_pdf : forall st base doc,
    J st ->
    J (with_tailored_resumes <[pdf_filename base := PdfFile doc]> st)
}.

(** A computation that keeps a property of the state, however it ends. *)
Definition stable (J : State -> Prop) {A : Type} (m : Py A) : Prop :=
  forall st, J st -> J (m st).2.

(** * Properties *)

(** ** Strings *)

Module PyStrFacts.
Import PyStr.

Lemma append_cons (x : ascii) (a b : string) :
  String x a +:+ b = String x (a +:+ b).
Proof. reflexivity. Qed.

Lemma append_nil_l (b : string) : "" +:+ b = b.
Proof. reflexivity. Qed.

(** Unfold appends to a known head. *)
Ltac str_simpl :=
  repeat (rewrite append_cons || rewrite append_nil_l); simpl.
Ltac str_simpl_in H :=
  repeat (rewrite append_cons in H || rewrite append_nil_l in H); simpl in H.

Lemma append_assoc (a b c : string) : (a +:+ b) +:+ c = a +:+ (b +:+ c).
Proof. induction a as [|x a IH]; str_simpl; [reflexivity | now rewrite IH]. Qed.

Lemma append_nil_r (a : string) : a +:+ "" = a.
Proof. induction a as [|x a IH]; str_simpl; [reflexivity | now rewrite IH]. Qed.

Lemma all_chars_append p (a b : string) :
  all_chars p (a +:+ b) = all_chars p a && all_chars p b.
Proof.
  induction a as [|x a IH]; simpl; [reflexivity|].
  rewrite IH. now rewrite andb_assoc.
Qed.

Lemma contains_append c (a b : string) :
  contains c (a +:+ b) = contains c a || contains c b.
Proof.
  induction a as [|x a IH]; simpl; [reflexivity|].
  rewrite IH. now rewrite orb_assoc.
Qed.

Lemma join_filter_chars p (s : string) :
  list_ascii_of_string (join_filter p s)
  = List.filter p (list_ascii_of_string s).
Proof.
  induction s as [|c s IH]; simpl; [reflexivity|].
  destruct (p c); simpl; now rewrite IH.
Qed.

Lemma join_filter_all p (s : string) : all_chars p (join_filter p s) = true.
Proof.
  induction s as [|c s IH]; simpl; [reflexivity|].
  destruct (p c) eqn:Hc; simpl; [now rewrite Hc | exact IH].
Qed.

(** What [rstrip] cuts off is whitespace... *)
Lemma rstrip_split (s : string) :
  exists tail, s = rstrip s +:+ tail /\ all_chars isspace tail = true.
Proof.
  induction s as [|c s (tail & Hs & Htail)]; simpl.
  - exists ""; auto.
  - destruct (rstrip s) as [|b r] eqn:Hr.
    + destruct (isspace c) eqn:Hc.
      * exists (String c s). split; [reflexivity|].
        simpl. rewrite Hc. simpl in Hs. now rewrite Hs.
      * exists tail. split; [|assumption]. simpl. now rewrite Hs at 1.
    + exists tail. split; [|assumption]. simpl. now rewrite Hs at 1.
Qed.

(** ... and what it leaves does not end in whitespace. *)
Lemma rstrip_last (s t : string) (c : ascii) :
  rstrip s = t +:+ String c "" -> isspace c = false.
Proof.
  revert t. induction s as [|a s IH]; intros t; simpl.
  - destruct t; discriminate.
  - destruct (rstrip s) as [|b r] eqn:Hr.
    + destruct (isspace a) eqn:Ha.
      * destruct t; discriminate.
      * destruct t as [|x t]; str_simpl; intros H.
        -- congruence.
        -- destruct t; discriminate.
    + destruct t as [|x t]; str_simpl; intros H; [discriminate|].
      injection H as _ H. now apply (IH t).
Qed.

(** A string of one repeated character. *)
Lemma all_chars_repeat (p : ascii -> bool) (c : ascii) (s : string) :
  (forall a, p a = true -> a = c) ->
  all_chars p s = true -> s = repeat_char c (String.length s).
Proof.
  intros Hp. induction s as [|a s IH]; simpl; intros H; [reflexivity|].
  apply andb_prop in H as [Ha Hs].
  rewrite <- (IH Hs). now rewrite (Hp a Ha).
Qed.

(** The text after the last occurrence of a separator is determined by
    the whole. *)
Lemma last_segment (sep : ascii) (p1 p2 d1 d2 : string) :
  contains sep d1 = false -> contains sep d2 = false ->
  p1 +:+ String sep d1 = p2 +:+ String sep d2 -> d1 = d2.
Proof.
  intros H1 H2. revert p2.
  induction p1 as [|a p1 IH]; intros [|b p2]; str_simpl; intros H.
  - congruence.
  - injection H as <- H. rewrite H, contains_append in H1. simpl in H1.
    rewrite Ascii.eqb_refl in H1. simpl in H1.
    now rewrite orb_true_r in H1.
  - injection H as -> H. rewrite <- H, contains_append in H2. simpl in H2.
    rewrite Ascii.eqb_refl in H2. simpl in H2.
    now rewrite orb_true_r in H2.
  - injection H as _ H. now apply (IH p2).
Qed.

Lemma digits_no_underscore (d : Decimal.uint) :
  contains "_" (NilEmpty.string_of_uint d) = false.
Proof. induction d; simpl; auto. Qed.

Lemma str_int_no_underscore (n : nat) : contains "_" (str_int n) = false.
Proof. apply digits_no_underscore. Qed.

Lemma str_int_inj (n m : nat) : str_int n = str_int m -> n = m.
Proof.
  unfold str_int. intros H.
  assert (Hd : Some (Nat.to_uint n) = Some (Nat.to_uint m)).
  { rewrite <- !NilEmpty.usu. now rewrite H. }
  injection Hd as Hd.
  rewrite <- (Unsigned.of_to n), <- (Unsigned.of_to m). now rewrite Hd.
Qed.

End PyStrFacts.

(** ** Sanitized names and artifact file names *)

Lemma safe_char_iff (c : ascii) :
  safe_char c = true <->
  PyStr.isalnum c = true \/ c = " "%char \/ c = "-"%char \/ c = "_"%char.
Proof.
  unfold safe_char. rewrite !orb_true_iff, !Ascii.eqb_eq. tauto.
Qed.

(** A safe character that is whitespace is the space. *)
Lemma safe_space (c : ascii) :
  safe_char c && PyStr.isspace c = true -> c = " "%char.
Proof.
  destruct c as [[] [] [] [] [] [] [] []]; vm_compute; congruence.
Qed.

(** C9: sanitization keeps, in order, exactly the characters that are
    alphanumeric, space, hyphen or underscore, and then cuts off the
    trailing whitespace, which by then can only be spaces; what is left does
    not end in whitespace.  The company "Acme, Inc." becomes "Acme Inc". *)
Theorem sanitize_keeps_safe_and_trims (s : string) :
  (forall c, safe_char c = true <->
     PyStr.isalnum c = true \/ c = " "%char \/ c = "-"%char \/ c = "_"%char)
  /\ (exists n,
        list_ascii_of_string (sanitize s +:+ PyStr.repeat_char " " n)
        = List.filter safe_char (list_ascii_of_string s))
  /\ (forall t c, sanitize s = t +:+ String c "" -> PyStr.isspace c = false)
  /\ sanitize "Acme, Inc." = "Acme Inc".
Proof.
  split; [exact safe_char_iff|].
  split; [|split; [|reflexivity]].
  - unfold sanitize.
    destruct (PyStrFacts.rstrip_split (PyStr.join_filter safe_char s))
      as (tail & Hsplit & Hspace).
    exists (String.length tail).
    rewrite <- PyStrFacts.join_filter_chars.
    rewrite Hsplit at 2. f_equal. f_equal.
    symmetry.
    apply (PyStrFacts.all_chars_repeat
             (fun a => safe_char a && PyStr.isspace a)).
    + exact safe_space.
    + pose proof (PyStrFacts.join_filter_all safe_char s) as Hall.
      rewrite Hsplit, PyStrFacts.all_chars_append in Hall.
      apply andb_prop in Hall as [_ Hall].
      clear Hsplit. induction tail as [|a tail IH]; simpl in *; [reflexivity|].
      apply andb_prop in Hall as [-> Hall].
      apply andb_prop in Hspace as [-> Hspace].
      simpl. now apply IH.
  - intros t c. apply PyStrFacts.rstrip_last.
Qed.

(** C4: within one batch two subjobs at different indices get different
    base file names, whatever their companies and titles; two "Engineer"
    jobs at "Acme" at indices 0 and 1 get [..._Acme_Engineer_0] and
    [..._Acme_Engineer_1]. *)
Theorem base_filename_distinct (resume_id : string) (jd1 jd2 : JobDesc)
    (i j : nat) (Hij : i <> j) :
  base_filename resume_id jd1 i <> base_filename resume_id jd2 j
  /\ base_filename resume_id acme_engineer 0
     = resume_id +:+ "_Acme_Engineer_0"
  /\ base_filename resume_id acme_engineer 1
     = resume_id +:+ "_Acme_Engineer_1".
Proof.
  split; [|split; reflexivity].
  unfold base_filename. intros H. apply Hij.
  apply PyStrFacts.str_int_inj.
  rewrite <- !PyStrFacts.append_assoc in H.
  rewrite (PyStrFacts.append_assoc _ "_" (PyStr.str_int i)) in H.
  rewrite (PyStrFacts.append_assoc _ "_" (PyStr.str_int j)) in H.
  eapply (PyStrFacts.last_segment "_"); [| |exact H];
    apply PyStrFacts.str_int_no_underscore.
Qed.

Lemma base_filename_distinct_witness :
  0 <> 1
  /\ base_filename "r" acme_engineer 0 <> base_filename "r" acme_engineer 1.
Proof.
  split; [discriminate|].
  apply (base_filename_distinct "r" acme_engineer acme_engineer 0 1).
  discriminate.
Defined.

(** ** Running computations *)

Lemma bind_run {A B : Type} (m : Py A) (f : A -> Py B) (st : State) :
  (m ≫= f) st
  = match m st with
    | (Return a, st') => f a st'
    | (Raise e, st') => (Raise e, st')
    end.
Proof. reflexivity. Qed.

Lemma try_return {A : Type} (m : Py A) h st a st' :
  m st = (Return a, st') -> try_except m h st = (Return a, st').
Proof. intros H. unfold try_except. now rewrite H. Qed.

Lemma try_raise {A : Type} (m : Py A) h st e st' :
  m st = (Raise e, st') -> try_except m h st = h e st'.
Proof. intros H. unfold try_except. now rewrite H. Qed.

(** ** Writing to a subjob *)

Lemma put_job_id task_id batch i job st :
  tailoring_jobs st !! task_id = Some batch ->
  Batch.individual_jobs batch !! i = Some job ->
  put_job task_id batch i job st = st.
Proof.
  intros Hb Hj. unfold put_job, with_tailoring_jobs.
  rewrite list_insert_id by assumption.
  destruct batch; simpl. rewrite insert_id by assumption.
  now destruct st.
Qed.

Lemma update_job_put task_id batch i job f st :
  i < length (Batch.individual_jobs batch) ->
  update_job task_id i f (put_job task_id batch i job st)
  = (Return tt, put_job task_id batch i (f job) st).
Proof.
  intros Hi. unfold update_job. rewrite bind_run.
  unfold lookup_batch at 1. unfold put_job at 1; simpl.
  rewrite lookup_insert_eq. simpl.
  rewrite list_lookup_insert_eq by assumption.
  unfold modify. f_equal. 
  unfold put_job, with_tailoring_jobs; simpl.
  now rewrite insert_insert_eq, list_insert_insert_eq.
Qed.

Lemma files_put_job g task_id batch i job st :
  with_tailored_resumes g (put_job task_id batch i job st)
  = put_job task_id batch i job (with_tailored_resumes g st).
Proof. reflexivity. Qed.

(** ** One loop iteration *)

Section Iteration.

Context (W : Collaborators).

(** Chase a computation through a write to the subjob at hand. *)
Ltac write_job Hi :=
  rewrite bind_run; rewrite (update_job_put _ _ _ _ _ _ Hi).

Lemma job_begin_run task_id batch i job job_desc_data st
    (Hi : i < length (Batch.individual_jobs batch)) :
  job_begin task_id i job_desc_data (put_job task_id batch i job st)
  = (Return (job_context job_desc_data),
     put_job task_id batch i
       (SubJob.set_progress "Tailoring resume with AI..."
          (SubJob.set_progress "Starting resume tailoring..."
             (SubJob.set_status processing job))) st).
Proof.
  unfold job_begin. do 3 write_job Hi. reflexivity.
Qed.

Lemma job_body_run task_id resume_id resume_data batch i job job_desc_data st
    (Hi : i < length (Batch.individual_jobs batch)) :
  exists job',
    (forall text, failed_with text job' = failed_with text job)
    /\ job_body W task_id resume_id resume_data i job_desc_data
         (put_job task_id batch i job st)
       = match job_failure W resume_id resume_data i job_desc_data with
         | Some e =>
             (Raise e,
              put_job task_id batch i job'
                (with_tailored_resumes
                   (written_files W resume_id resume_data i job_desc_data) st))
         | None =>
             (Return tt,
              put_job task_id batch i
                (finished_job W resume_id resume_data i job_desc_data job)
                (with_tailored_resumes
                   (written_files W resume_id resume_data i job_desc_data) st))
         end.
Proof.
  unfold job_body, job_failure, finished_job, written_files.
  rewrite bind_run, (job_begin_run _ _ _ _ _ _ Hi). rewrite bind_run.
  unfold lift at 1.
  destruct (tailor_resume_with_ai W i resume_data (job_context job_desc_data))
    as [[content|]|e]; simpl.
  - do 3 write_job Hi. rewrite bind_run. unfold save_json.
    destruct (json_dump W _ (model_dump content)) as [e|] eqn:Hdump.
    + eexists. split; [|reflexivity]. reflexivity.
    + eexists. split; [reflexivity|].
      unfold modify at 1. rewrite files_put_job.
      write_job Hi. rewrite bind_run. unfold render_pdf.
      destruct (generate_pdf W (model_dump content) _) eqn:Hpdf.
      * rewrite bind_run. unfold modify at 1. rewrite files_put_job. simpl.
        write_job Hi. rewrite (update_job_put _ _ _ _ _ _ Hi). reflexivity.
      * simpl. write_job Hi. rewrite (update_job_put _ _ _ _ _ _ Hi).
        reflexivity.
  - eexists. split; [reflexivity|].
    rewrite (update_job_put _ _ _ _ _ _ Hi). reflexivity.
  - eexists. split; [|reflexivity]. reflexivity.
Qed.

Lemma finished_job_failure resume_id resume_data i job_desc_data job e :
  job_failure W resume_id resume_data i job_desc_data = Some e ->
  finished_job W resume_id resume_data i job_desc_data job
  = failed_with (str_exn W e) job.
Proof.
  unfold job_failure, finished_job.
  destruct (tailor_resume_with_ai W i resume_data (job_context job_desc_data))
    as [[content|]|e']; simpl; intros H; try congruence.
  now rewrite H.
Qed.

(** An iteration always hands over to the next one, with the subjob in
    its final record. *)
Lemma tailor_job_run task_id resume_id resume_data batch i job job_desc_data st
    (Hi : i < length (Batch.individual_jobs batch)) :
  tailor_job W task_id resume_id resume_data i job_desc_data
    (put_job task_id batch i job st)
  = (Return tt,
     put_job task_id batch i
       (finished_job W resume_id resume_data i job_desc_data job)
       (with_tailored_resumes
          (written_files W resume_id resume_data i job_desc_data) st)).
Proof.
  destruct (job_body_run task_id resume_id resume_data batch i job
              job_desc_data st Hi) as (job' & Hsame & Hrun).
  unfold tailor_job.
  destruct (job_failure W resume_id resume_data i job_desc_data) as [e|] eqn:Hf.
  - rewrite (try_raise _ _ _ _ _ Hrun). unfold job_except.
    rewrite (update_job_put _ _ _ _ _ _ Hi).
    fold (failed_with (str_exn W e) job'). rewrite Hsame.
    now rewrite (finished_job_failure _ _ _ _ _ _ Hf).
  - now rewrite (try_return _ _ _ _ _ Hrun).
Qed.

End Iteration.

(** ** The whole run *)

Section Run.

Context (W : Collaborators).

Lemma finish_jobs_lookup resume_id resume_data start jds jobs k jd job :
  jds !! k = Some jd -> jobs !! k = Some job ->
  finish_jobs W resume_id resume_data start jds jobs !! k
  = Some (finished_job W resume_id resume_data (start + k) jd job).
Proof.
  revert start jobs k.
  induction jds as [|jd0 jds IH]; intros start [|j0 jobs] [|k]; simpl;
    try discriminate.
  - intros [= ->] [= ->]. now rewrite Nat.add_0_r.
  - intros Hjd Hjob. rewrite (IH (S start) jobs k Hjd Hjob).
    now rewrite Nat.add_succ_r.
Qed.

(** The loop, started at iteration [length done] with the subjobs in
    [done] behind it. *)
Lemma loop_run task_id resume_id resume_data jds :
  forall st batch done rest,
    tailoring_jobs st !! task_id = Some batch ->
    Batch.individual_jobs batch = (done ++ rest)%list ->
    length rest = length jds ->
    for_enumerate (length done) jds
      (tailor_job W task_id resume_id resume_data) st
    = (Return tt,
       with_tailoring_jobs
         <[task_id := Batch.set_individual_jobs
                        (done ++ finish_jobs W resume_id resume_data
                                   (length done) jds rest)%list batch]>
         (with_tailored_resumes
            (files_after W resume_id resume_data (length done) jds) st)).
Proof.
  induction jds as [|jd jds IH]; intros st batch done rest Hb Hjobs Hlen.
  - destruct rest; [|discriminate]. simpl.
    unfold mret, Py_ret. f_equal.
    rewrite <- Hjobs. destruct batch; simpl.
    unfold with_tailoring_jobs, with_tailored_resumes; simpl.
    rewrite insert_id by assumption. now destruct st.
  - destruct rest as [|job rest]; [discriminate|].
    injection Hlen as Hlen.
    assert (Hjob : Batch.individual_jobs batch !! length done = Some job).
    { rewrite Hjobs. now rewrite list_lookup_middle. }
    assert (Hi : length done < length (Batch.individual_jobs batch)).
    { now apply lookup_lt_Some in Hjob. }
    simpl for_enumerate. rewrite bind_run.
    rewrite <- (put_job_id task_id batch (length done) job st Hb Hjob) at 1.
    rewrite (tailor_job_run W _ _ _ _ _ _ _ _ Hi).
    set (job' := finished_job W resume_id resume_data (length done) jd job).
    set (st1 := put_job _ _ _ _ _).
    set (batch1 := Batch.set_individual_jobs
                     (<[length done := job']> (Batch.individual_jobs batch))
                     batch).
    assert (Hb1 : tailoring_jobs st1 !! task_id = Some batch1).
    { subst st1. unfold put_job. simpl. now rewrite lookup_insert_eq. }
    assert (Hjobs1 : Batch.individual_jobs batch1
                     = ((done ++ [job']) ++ rest)%list).
    { subst batch1. simpl. rewrite Hjobs.
      rewrite insert_app_r_alt by lia. rewrite Nat.sub_diag. simpl.
      now rewrite <- app_assoc. }
    pose proof (IH st1 batch1 (done ++ [job'])%list rest Hb1 Hjobs1 Hlen)
      as Hrun.
    rewrite length_app in Hrun. simpl in Hrun.
    rewrite Nat.add_1_r in Hrun. rewrite Hrun.
    f_equal. subst st1 batch1. unfold put_job, with_tailoring_jobs,
      with_tailored_resumes. simpl.
    rewrite insert_insert_eq. rewrite <- app_assoc. reflexivity.
Qed.

Lemma update_batch_run task_id batch f st :
  tailoring_jobs st !! task_id = Some batch ->
  update_batch task_id f st
  = (Return tt, with_tailoring_jobs <[task_id := f batch]> st).
Proof.
  intros Hb. unfold update_batch. rewrite bind_run. unfold lookup_batch.
  now rewrite Hb.
Qed.

Lemma lookup_batch_run task_id batch st :
  tailoring_jobs st !! task_id = Some batch ->
  lookup_batch task_id st = (Return batch, st).
Proof. intros Hb. unfold lookup_batch. now rewrite Hb. Qed.

(** The completion check. *)
Lemma summarize_run task_id batch st :
  tailoring_jobs st !! task_id = Some batch ->
  summarize task_id st
  = (Return tt, with_tailoring_jobs <[task_id := summary batch]> st).
Proof.
  intros Hb. unfold summarize, summary.
  do 3 (rewrite bind_run, (lookup_batch_run _ _ _ Hb)).
  destruct (0 <? count_status completed (Batch.individual_jobs batch))%nat.
  - destruct (count_status completed (Batch.individual_jobs batch)
              =? length (Batch.individual_jobs batch))%nat.
    + now apply update_batch_run.
    + rewrite bind_run, (update_batch_run _ _ _ _ Hb).
      erewrite update_batch_run
        by (simpl; apply lookup_insert_eq).
      unfold with_tailoring_jobs; simpl.
      now rewrite insert_insert_eq.
  - rewrite bind_run, (update_batch_run _ _ _ _ Hb).
    erewrite update_batch_run by (simpl; apply lookup_insert_eq).
    unfold with_tailoring_jobs; simpl.
    now rewrite insert_insert_eq.
Qed.

(** A run on a batch with one subjob per job description, for a resume
    with an extraction record, goes through without an exception. *)
Lemma tailoring_body_run task_id batch es st :
  tailoring_jobs st !! task_id = Some batch ->
  length (Batch.individual_jobs batch)
  = length (Batch.job_descriptions batch) ->
  extraction_status st !! Batch.resume_id batch = Some es ->
  tailoring_body W task_id st
  = (Return tt,
     with_tailoring_jobs
       <[task_id := final_batch W batch (Extraction.extracted_data es)]>
       (with_tailored_resumes
          (files_after W (Batch.resume_id batch)
             (Extraction.extracted_data es) 0 (Batch.job_descriptions batch))
          st)).
Proof.
  intros Hb Hlen Hes. unfold tailoring_body.
  rewrite bind_run, (lookup_batch_run _ _ _ Hb).
  rewrite bind_run, (update_batch_run _ _ _ _ Hb).
  rewrite bind_run. unfold lookup_extraction at 1. simpl. rewrite Hes.
  rewrite bind_run.
  erewrite (loop_run task_id _ _ _ _ (Batch.set_status processing batch) []
              (Batch.individual_jobs batch));
    [| simpl; apply lookup_insert_eq | reflexivity | exact Hlen].
  erewrite summarize_run by (simpl; apply lookup_insert_eq).
  f_equal. unfold with_tailoring_jobs, with_tailored_resumes; simpl.
  now rewrite !insert_insert_eq.
Qed.

Lemma perform_tailoring_run task_id batch es st :
  tailoring_jobs st !! task_id = Some batch ->
  length (Batch.individual_jobs batch)
  = length (Batch.job_descriptions batch) ->
  extraction_status st !! Batch.resume_id batch = Some es ->
  perform_tailoring W task_id st = tailoring_body W task_id st.
Proof.
  intros Hb Hlen Hes. unfold perform_tailoring.
  rewrite (try_return _ _ _ _ _ (tailoring_body_run _ _ _ _ Hb Hlen Hes)).
  symmetry. now apply tailoring_body_run.
Qed.

End Run.

(** ** Counting subjobs *)

Lemma count_status_cons s job jobs :
  count_status s (job :: jobs)
  = (if decide (SubJob.status job = s) then 1 else 0) + count_status s jobs.
Proof.
  unfold count_status. rewrite filter_cons.
  now destruct (decide (SubJob.status job = s)).
Qed.

Lemma count_status_le s jobs : count_status s jobs <= length jobs.
Proof. apply length_filter. Qed.

Lemma count_status_pos s jobs :
  0 < count_status s jobs <-> exists job, job ∈ jobs /\ SubJob.status job = s.
Proof.
  induction jobs as [|job jobs IH].
  - split; [inversion 1|]. intros (job & Hin & _). inversion Hin.
  - rewrite count_status_cons. split.
    + destruct (decide (SubJob.status job = s)) as [Hs|Hs].
      * intros _. exists job. split; [left|assumption].
      * intros H. apply IH in H as (job' & Hin & Hs').
        exists job'. split; [now right|assumption].
    + intros (job' & Hin & Hs'). apply elem_of_cons in Hin as [->|Hin].
      * rewrite decide_True by assumption. lia.
      * assert (0 < count_status s jobs) by (apply IH; eauto). lia.
Qed.

Lemma count_status_all s jobs :
  count_status s jobs = length jobs <-> Forall (fun job => SubJob.status job = s) jobs.
Proof.
  induction jobs as [|job jobs IH].
  - split; [constructor|reflexivity].
  - rewrite count_status_cons. pose proof (count_status_le s jobs).
    rewrite Forall_cons. simpl.
    destruct (decide (SubJob.status job = s)) as [Hs|Hs].
    + rewrite <- IH. split; [intros; split; [assumption|lia] | intros []; lia].
    + split; [lia | intros []; contradiction].
Qed.

Lemma count_status_none s s' jobs :
  s <> s' ->
  Forall (fun job => SubJob.status job = s') jobs -> count_status s jobs = 0.
Proof.
  intros Hne. induction 1 as [|job jobs Hs _ IH]; [reflexivity|].
  rewrite count_status_cons, IH. rewrite decide_False by congruence.
  reflexivity.
Qed.

Section Outcome.

Context (W : Collaborators).

Lemma finished_job_terminal resume_id resume_data i jd job :
  terminal (finished_job W resume_id resume_data i jd job).
Proof.
  unfold terminal, finished_job.
  destruct (tailor_resume_with_ai W i resume_data (job_context jd))
    as [[content|]|e]; simpl; auto.
  destruct (json_dump W _ _); simpl; auto.
Qed.

Lemma finish_jobs_terminal resume_id resume_data start jds jobs :
  length jobs = length jds ->
  Forall terminal (finish_jobs W resume_id resume_data start jds jobs).
Proof.
  revert start jobs. induction jds as [|jd jds IH]; intros start [|job jobs];
    simpl; try discriminate; intros Hlen; constructor.
  - apply finished_job_terminal.
  - apply IH. now injection Hlen.
Qed.

Lemma summary_jobs batch :
  Batch.individual_jobs (summary batch) = Batch.individual_jobs batch.
Proof.
  unfold summary.
  destruct (0 <? _)%nat; [destruct (_ =? _)%nat|]; reflexivity.
Qed.

(** The rule of the completion check. *)
Lemma summary_rule batch :
  let jobs := Batch.individual_jobs batch in
  ((exists job, job ∈ jobs /\ SubJob.status job = completed) ->
     Batch.status (summary batch) = completed
     /\ ((exists job, job ∈ jobs /\ SubJob.status job = failed) ->
           Batch.error_message (summary batch)
           = Some (partial_message (count_status completed jobs)
                     (length jobs) (count_status failed jobs)))
     /\ (Forall (fun job => SubJob.status job = completed) jobs ->
           Batch.error_message (summary batch) = Batch.error_message batch))
  /\ (Forall (fun job => SubJob.status job = failed) jobs ->
        Batch.status (summary batch) = failed
        /\ Batch.error_message (summary batch)
           = Some "All jobs failed to process").
Proof.
  intros jobs. unfold summary. fold jobs. split.
  - intros Hc. apply count_status_pos in Hc.
    apply Nat.ltb_lt in Hc. rewrite Hc.
    destruct (count_status completed jobs =? length jobs)%nat eqn:Hall.
    + apply Nat.eqb_eq, count_status_all in Hall.
      split; [reflexivity|]. split; [|reflexivity].
      intros (job & Hin & Hf).
      rewrite Forall_forall in Hall. specialize (Hall job Hin). congruence.
    + apply Nat.eqb_neq in Hall.
      split; [reflexivity|]. split; [reflexivity|].
      intros Hcall. now apply count_status_all in Hcall.
  - intros Hf.
    rewrite (count_status_none completed failed jobs) by (congruence || assumption).
    simpl. auto.
Qed.

End Outcome.

(** ** The outcome of a batch *)

Section Claims.

Context (W : Collaborators).

(** C1: a run on a batch with one subjob per job description ends
    without an exception escaping; afterwards every subjob is [completed]
    or [failed], the batch is [completed] if at least one subjob is
    [completed] -- with the advisory message "c out of n jobs completed
    successfully. f jobs failed." for its c completed, n and f failed
    subjobs if some subjob is [failed] -- and it is [failed] with the
    message "All jobs failed to process" if every subjob is [failed]. *)
Theorem batch_outcome (st : State) (task_id : string) (batch : Batch.t)
    (es : Extraction.t)
    (Hbatch : tailoring_jobs st !! task_id = Some batch)
    (Hcount : length (Batch.individual_jobs batch)
              = length (Batch.job_descriptions batch))
    (Hresume : extraction_status st !! Batch.resume_id batch = Some es) :
  exists st' batch',
    tailoring_body W task_id st = (Return tt, st')
    /\ perform_tailoring W task_id st = (Return tt, st')
    /\ tailoring_jobs st' !! task_id = Some batch'
    /\ Forall terminal (Batch.individual_jobs batch')
    /\ ((exists job, job ∈ Batch.individual_jobs batch'
                     /\ SubJob.status job = completed) ->
          Batch.status batch' = completed
          /\ ((exists job, job ∈ Batch.individual_jobs batch'
                           /\ SubJob.status job = failed) ->
                Batch.error_message batch'
                = Some (PyStr.str_int
                          (count_status completed
                             (Batch.individual_jobs batch'))
                        +:+ " out of "
                        +:+ PyStr.str_int
                              (length (Batch.individual_jobs batch'))
                        +:+ " jobs completed successfully. "
                        +:+ PyStr.str_int
                              (count_status failed
                                 (Batch.individual_jobs batch'))
                        +:+ " jobs failed.")))
    /\ (Forall (fun job => SubJob.status job = failed)
          (Batch.individual_jobs batch') ->
          Batch.status batch' = failed
          /\ Batch.error_message batch' = Some "All jobs failed to process").
Proof.
  pose proof (tailoring_body_run W task_id batch es st Hbatch Hcount Hresume)
    as Hrun.
  eexists. exists (final_batch W batch (Extraction.extracted_data es)).
  split; [exact Hrun|].
  split; [now rewrite (perform_tailoring_run W _ _ _ _ Hbatch Hcount Hresume)|].
  split; [simpl; apply lookup_insert_eq|].
  unfold final_batch. rewrite summary_jobs. simpl.
  split; [now apply finish_jobs_terminal|].
  set (b := Batch.set_individual_jobs _ _).
  pose proof (summary_rule b) as [Hsome Hnone]. subst b. simpl in *.
  split.
  - intros Hc. destruct (Hsome Hc) as (Hs & Hpartial & _).
    split; [exact Hs|]. intros Hf. exact (Hpartial Hf).
  - exact Hnone.
Qed.

End Claims.

Lemma batch_outcome_witness :
  exists st' batch',
    perform_tailoring sample_world "t" sample_state = (Return tt, st')
    /\ tailoring_jobs st' !! "t" = Some batch'
    /\ Batch.status batch' = completed
    /\ Batch.error_message batch'
       = Some "1 out of 2 jobs completed successfully. 1 jobs failed.".
Proof.
  destruct (batch_outcome sample_world sample_state "t" sample_batch
              (Extraction.mk completed sample_resume None))
    as (st' & batch' & _ & Hrun & Hb & Hterm & Hsome & _).
  - reflexivity.
  - reflexivity.
  - reflexivity.
  - exists st', batch'. split; [exact Hrun|]. split; [exact Hb|].
    assert (Hst : st' = (perform_tailoring sample_world "t" sample_state).2)
      by now rewrite Hrun.
    subst st'. vm_compute in Hb. injection Hb as Heq.
    assert (Hc : exists job, job ∈ Batch.individual_jobs batch'
                             /\ SubJob.status job = completed).
    { rewrite <- Heq. eexists.
      split; [apply list_elem_of_lookup; exists 1; reflexivity|].
      reflexivity. }
    assert (Hf : exists job, job ∈ Batch.individual_jobs batch'
                             /\ SubJob.status job = failed).
    { rewrite <- Heq. eexists.
      split; [apply list_elem_of_lookup; exists 0; reflexivity|].
      reflexivity. }
    destruct (Hsome Hc) as [Hstatus Hmessage].
    split; [exact Hstatus|].
    rewrite (Hmessage Hf), <- Heq. vm_compute. reflexivity.
Defined.

(** ** Submission *)

Lemma tailor_resume_accepts task_id now request st r es :
  resume_storage st !! req_resume_id request = Some r ->
  extraction_status st !! req_resume_id request = Some es ->
  Extraction.status es = completed ->
  truthy (Extraction.extracted_data es) = true ->
  tailor_resume task_id now request st
  = (Return {| tr_task_id := task_id;
               tr_message := "Resume tailoring started";
               tr_status := processing |},
     with_scheduled (fun q => (q ++ [TailoringTask task_id])%list)
       (with_tailoring_jobs
          <[task_id := Batch.mk (req_resume_id request)
                         (req_job_descriptions request) pending
                         (build_individual_jobs 0
                            (req_job_descriptions request) [])
                         None now]> st)).
Proof.
  intros Hr Hes Hc Hd. unfold tailor_resume.
  rewrite bind_run; unfold gets at 1; cbv beta iota; unfold id.
  rewrite Hr, Hes, Hc. rewrite bool_decide_eq_true_2 by reflexivity. simpl.
  now rewrite Hd.
Qed.

(** A refused submission raises one of the four failures and writes
    nothing. *)
Lemma tailor_resume_refuses task_id now request st e st' :
  tailor_resume task_id now request st = (Raise e, st') ->
  (exists f, e = submit_failure f) /\ st' = st.
Proof.
  unfold tailor_resume. rewrite bind_run; unfold gets at 1; cbv beta iota; unfold id.
  destruct (resume_storage st !! req_resume_id request) as [r|].
  - destruct (extraction_status st !! req_resume_id request) as [es|].
    + destruct (bool_decide (Extraction.status es = completed)); simpl.
      * destruct (truthy (Extraction.extracted_data es)); simpl.
        -- discriminate.
        -- intros [= <- <-]. split; [now exists NoData|reflexivity].
      * intros [= <- <-]. split; [now exists ExtractionIncomplete|reflexivity].
    + intros [= <- <-]. split; [now exists NotExtracted|reflexivity].
  - intros [= <- <-]. split; [now exists NotFound|reflexivity].
Qed.

(** C2: a submission checks its preconditions in this order, each with a
    failure of its own: unknown resume ([NotFound]), no extraction record
    ([NotExtracted]), record not [completed] ([ExtractionIncomplete]),
    [completed] but empty data ([NoData]).  A [pending] resume fails with
    [ExtractionIncomplete] and not with [NotExtracted].  A submission that
    fails fails in one of these four ways and leaves the state, and so the
    registry of batches, as it was. *)
Theorem submit_preconditions_in_order (task_id now : string)
    (request : TailorRequest) (st : State) :
  let rid := req_resume_id request in
  let outcome := tailor_resume task_id now request st in
  (resume_storage st !! rid = None ->
     outcome = (Raise (submit_failure NotFound), st))
  /\ (is_Some (resume_storage st !! rid) ->
      extraction_status st !! rid = None ->
      outcome = (Raise (submit_failure NotExtracted), st))
  /\ (forall es,
        is_Some (resume_storage st !! rid) ->
        extraction_status st !! rid = Some es ->
        Extraction.status es <> completed ->
        outcome = (Raise (submit_failure ExtractionIncomplete), st))
  /\ (forall es,
        is_Some (resume_storage st !! rid) ->
        extraction_status st !! rid = Some es ->
        Extraction.status es = completed ->
        truthy (Extraction.extracted_data es) = false ->
        outcome = (Raise (submit_failure NoData), st))
  /\ (forall es,
        is_Some (resume_storage st !! rid) ->
        extraction_status st !! rid = Some es ->
        Extraction.status es = pending ->
        outcome = (Raise (submit_failure ExtractionIncomplete), st)
        /\ outcome.1 <> Raise (submit_failure NotExtracted))
  /\ (forall e st',
        outcome = (Raise e, st') ->
        (exists f, e = submit_failure f)
        /\ st' = st /\ tailoring_jobs st' = tailoring_jobs st)
  /\ (forall f g, submit_failure f = submit_failure g -> f = g).
Proof.
  intros rid outcome.
  assert (Hincomplete : forall es,
            is_Some (resume_storage st !! rid) ->
            extraction_status st !! rid = Some es ->
            Extraction.status es <> completed ->
            outcome = (Raise (submit_failure ExtractionIncomplete), st)).
  { intros es [r Hr] Hes Hs. subst outcome rid. unfold tailor_resume.
    rewrite bind_run; unfold gets at 1; cbv beta iota; unfold id. rewrite Hr, Hes.
    now rewrite bool_decide_eq_false_2 by assumption. }
  split; [|split; [|split; [|split; [|split; [|split]]]]].
  - intros Hr. subst outcome rid. unfold tailor_resume.
    rewrite bind_run; unfold gets at 1; cbv beta iota; unfold id. now rewrite Hr.
  - intros [r Hr] Hes. subst outcome rid. unfold tailor_resume.
    rewrite bind_run; unfold gets at 1; cbv beta iota; unfold id. now rewrite Hr, Hes.
  - exact Hincomplete.
  - intros es [r Hr] Hes Hs Hd. subst outcome rid. unfold tailor_resume.
    rewrite bind_run; unfold gets at 1; cbv beta iota; unfold id. rewrite Hr, Hes.
    rewrite bool_decide_eq_true_2 by assumption. simpl. now rewrite Hd.
  - intros es Hr Hes Hs.
    assert (Hne : Extraction.status es <> completed) by congruence.
    rewrite (Hincomplete es Hr Hes Hne). split; [reflexivity|discriminate].
  - intros e st' Hrun.
    destruct (tailor_resume_refuses _ _ _ _ _ _ Hrun) as [Hf ->]. auto.
  - intros [] []; simpl; congruence.
Qed.

Lemma submit_preconditions_in_order_witness :
  tailor_resume "t2" "now" {| req_resume_id := "r"; req_job_descriptions := [] |}
    (with_extraction_status <["r" := Extraction.mk pending PyNone None]>
       sample_state)
  = (Raise (submit_failure ExtractionIncomplete),
     with_extraction_status <["r" := Extraction.mk pending PyNone None]>
       sample_state).
Proof.
  pose proof (submit_preconditions_in_order "t2" "now"
                {| req_resume_id := "r"; req_job_descriptions := [] |}
                (with_extraction_status
                   <["r" := Extraction.mk pending PyNone None]> sample_state))
    as (_ & _ & _ & _ & Hpending & _).
  apply (Hpending (Extraction.mk pending PyNone None)).
  - eexists. reflexivity.
  - reflexivity.
  - reflexivity.
Defined.

(** ** Empty batches and rendering failures *)

Section MoreClaims.

Context (W : Collaborators).

(** C10: a submission with no job description, for a resume extracted
    with data, is accepted and creates a batch without subjobs; its run
    ends without an exception and leaves the batch [failed] with the
    message "All jobs failed to process". *)
Theorem empty_batch_fails (st : State) (task_id now resume_id : string)
    (r : Resume.t) (es : Extraction.t)
    (Hresume : resume_storage st !! resume_id = Some r)
    (Hes : extraction_status st !! resume_id = Some es)
    (Hcompleted : Extraction.status es = completed)
    (Hdata : truthy (Extraction.extracted_data es) = true) :
  exists response st1 st2 batch,
    tailor_resume task_id now
      {| req_resume_id := resume_id; req_job_descriptions := [] |} st
    = (Return response, st1)
    /\ tailoring_jobs st1 !! task_id
       = Some (Batch.mk resume_id [] pending [] None now)
    /\ tailoring_body W task_id st1 = (Return tt, st2)
    /\ perform_tailoring W task_id st1 = (Return tt, st2)
    /\ tailoring_jobs st2 !! task_id = Some batch
    /\ Batch.individual_jobs batch = []
    /\ Batch.status batch = failed
    /\ Batch.error_message batch = Some "All jobs failed to process".
Proof.
  pose proof (tailor_resume_accepts task_id now
                {| req_resume_id := resume_id; req_job_descriptions := [] |}
                st r es Hresume Hes Hcompleted Hdata) as Hsubmit.
  simpl in Hsubmit.
  set (st1 := with_scheduled _ _) in Hsubmit.
  set (batch := Batch.mk resume_id [] pending [] None now).
  assert (Hb : tailoring_jobs st1 !! task_id = Some batch)
    by (subst st1; simpl; apply lookup_insert_eq).
  assert (Hes1 : extraction_status st1 !! Batch.resume_id batch = Some es)
    by exact Hes.
  pose proof (tailoring_body_run W task_id batch es st1 Hb eq_refl Hes1)
    as Hrun.
  eexists _, st1, _, _.
  split; [exact Hsubmit|]. split; [exact Hb|].
  split; [exact Hrun|].
  split; [now rewrite (perform_tailoring_run W _ _ _ _ Hb eq_refl Hes1)|].
  split; [simpl; apply lookup_insert_eq|].
  repeat split.
Qed.

(** C6: when the tailoring call of a subjob answers with content and the
    JSON artifact is written, the subjob ends [completed] with the content
    as its result whether or not the PDF is rendered; its [json] link
    names the JSON artifact, which is in the store, and its [pdf] link
    names the PDF artifact if it was rendered and otherwise the
    conversion endpoint of the JSON artifact. *)
Theorem pdf_failure_keeps_subjob_completed (st : State)
    (task_id resume_id : string) (resume_data : pyobj) (batch : Batch.t)
    (i : nat) (job : SubJob.t) (job_desc_data : JobDesc)
    (content : TailoredResume)
    (Hbatch : tailoring_jobs st !! task_id = Some batch)
    (Hjob : Batch.individual_jobs batch !! i = Some job)
    (Hcontent : tailor_resume_with_ai W i resume_data
                  (job_context job_desc_data) = Return (Some content))
    (Hsaved : json_dump W
                ("tailored_resumes/"
                 +:+ base_filename resume_id job_desc_data i +:+ ".json")
                (model_dump content) = None) :
  let base := base_filename resume_id job_desc_data i in
  let rendered :=
    generate_pdf W (model_dump content)
      ("tailored_resumes/" +:+ base +:+ ".pdf") in
  exists st' batch' job' links,
    tailor_job W task_id resume_id resume_data i job_desc_data st
    = (Return tt, st')
    /\ tailoring_jobs st' !! task_id = Some batch'
    /\ Batch.individual_jobs batch' !! i = Some job'
    /\ SubJob.status job' = completed
    /\ SubJob.tailored_resume job' = Some (model_dump content)
    /\ SubJob.error_message job' = None
    /\ SubJob.download_links job' = Some links
    /\ Links.json links = "/api/download/" +:+ base +:+ ".json"
    /\ Links.pdf links
       = (if rendered then "/api/download/" +:+ base +:+ ".pdf"
          else "/api/download/" +:+ (base +:+ ".json") +:+ "/pdf")
    /\ tailored_resumes st' !! (base +:+ ".json")
       = Some (JsonFile (model_dump content))
    /\ (if rendered
        then tailored_resumes st' !! (base +:+ ".pdf")
             = Some (PdfFile (model_dump content))
        else tailored_resumes st' !! (base +:+ ".pdf")
             = tailored_resumes st !! (base +:+ ".pdf")).
Proof.
  intros base rendered.
  assert (Hi : i < length (Batch.individual_jobs batch))
    by now apply lookup_lt_Some in Hjob.
  pose proof (tailor_job_run W task_id resume_id resume_data batch i job
                job_desc_data st Hi) as Hrun.
  rewrite (put_job_id _ _ _ _ _ Hbatch Hjob) in Hrun.
  assert (Hne : base +:+ ".pdf" <> base +:+ ".json")
    by (intros H; apply String.app_inj in H; discriminate).
  unfold finished_job, written_files in Hrun.
  rewrite Hcontent in Hrun. cbv zeta in Hrun.
  unfold json_filename, pdf_filename in Hrun. fold base in Hrun.
  change (json_dump W ("tailored_resumes/" +:+ base +:+ ".json")
            (model_dump content) = None) in Hsaved.
  rewrite Hsaved in Hrun. fold rendered in Hrun.
  eexists _, _, _, _. split; [exact Hrun|].
  split; [simpl; apply lookup_insert_eq|].
  split; [simpl; now apply list_lookup_insert_eq|].
  simpl. repeat split.
  - destruct rendered.
    + rewrite lookup_insert_ne by assumption. apply lookup_insert_eq.
    + apply lookup_insert_eq.
  - destruct rendered eqn:Hr.
    + apply lookup_insert_eq.
    + rewrite lookup_insert_ne by congruence. reflexivity.
Qed.

End MoreClaims.

(** ** Containment of a failing subjob *)

Section Containment.

Context (W : Collaborators).

(** The record of a subjob that succeeds is [completed]. *)
Lemma finished_job_completed resume_id resume_data i jd job :
  job_failure W resume_id resume_data i jd = None ->
  tailor_resume_with_ai W i resume_data (job_context jd) <> Return None ->
  SubJob.status (finished_job W resume_id resume_data i jd job) = completed.
Proof.
  unfold job_failure, finished_job.
  destruct (tailor_resume_with_ai W i resume_data (job_context jd))
    as [[content|]|e]; simpl; try congruence.
  now intros ->.
Qed.

(** C5: when the [try] block of iteration [i] raises [e], the iteration
    itself returns: subjob [i] becomes [failed] with [str(e)] as error
    message -- the text [text] itself for an exception [Exception text]
    of a collaborator -- and no progress message, result or links, and no
    other subjob and no other batch changes.  The loop goes on with
    iteration [i + 1], runs to its end, and every later subjob ends in
    the record its own collaborators decide -- [completed] when they
    succeed. *)
Theorem subjob_failure_is_contained (st st1 : State)
    (task_id resume_id : string) (resume_data : pyobj) (batch : Batch.t)
    (i : nat) (job : SubJob.t) (job_desc_data : JobDesc)
    (rest : list JobDesc) (e : exn)
    (Hbatch : tailoring_jobs st !! task_id = Some batch)
    (Hjob : Batch.individual_jobs batch !! i = Some job)
    (Hcount : length (Batch.individual_jobs batch) = i + S (length rest))
    (Hraise : job_body W task_id resume_id resume_data i job_desc_data st
              = (Raise e, st1)) :
  let failed_job :=
    SubJob.mk (SubJob.job_index job) (SubJob.job_title job)
      (SubJob.company job) failed None (Some (str_exn W e)) None None in
  let loop := tailor_job W task_id resume_id resume_data in
  exists st2 st3 batch3,
    loop i job_desc_data st = (Return tt, st2)
    /\ tailoring_jobs st2
       = <[task_id := Batch.set_individual_jobs
                        (<[i := failed_job]> (Batch.individual_jobs batch))
                        batch]> (tailoring_jobs st)
    /\ for_enumerate i (job_desc_data :: rest) loop st
       = for_enumerate (S i) rest loop st2
    /\ for_enumerate (S i) rest loop st2 = (Return tt, st3)
    /\ tailoring_jobs st3 !! task_id = Some batch3
    /\ (forall k, k <= i ->
          Batch.individual_jobs batch3 !! k
          = <[i := failed_job]> (Batch.individual_jobs batch) !! k)
    /\ (forall text, e = Exception text ->
          Batch.individual_jobs batch3 !! i
          = Some (SubJob.mk (SubJob.job_index job) (SubJob.job_title job)
                    (SubJob.company job) failed None (Some text) None None))
    /\ (forall k jd sibling,
          rest !! k = Some jd ->
          Batch.individual_jobs batch !! (S i + k) = Some sibling ->
          Batch.individual_jobs batch3 !! (S i + k)
          = Some (finished_job W resume_id resume_data (S i + k) jd sibling)
          /\ (job_failure W resume_id resume_data (S i + k) jd = None ->
              tailor_resume_with_ai W (S i + k) resume_data (job_context jd)
              <> Return None ->
              exists done,
                Batch.individual_jobs batch3 !! (S i + k) = Some done
                /\ SubJob.status done = completed)).
Proof.
  intros failed_job loop.
  assert (Hi : i < length (Batch.individual_jobs batch))
    by now apply lookup_lt_Some in Hjob.
  (* the iteration *)
  pose proof (tailor_job_run W task_id resume_id resume_data batch i job
                job_desc_data st Hi) as Hrun.
  destruct (job_body_run W task_id resume_id resume_data batch i job
              job_desc_data st Hi) as (job' & _ & Hbody).
  rewrite (put_job_id _ _ _ _ _ Hbatch Hjob) in Hrun, Hbody.
  rewrite Hraise in Hbody.
  destruct (job_failure W resume_id resume_data i job_desc_data)
    as [e'|] eqn:Hfail; [|discriminate].
  injection Hbody as -> _.
  rewrite (finished_job_failure W _ _ _ _ _ _ Hfail) in Hrun.
  change (failed_with (str_exn W e') job) with failed_job in Hrun.
  set (st2 := put_job task_id batch i failed_job _) in Hrun.
  set (batch2 := Batch.set_individual_jobs
                   (<[i := failed_job]> (Batch.individual_jobs batch)) batch).
  (* the rest of the loop *)
  set (jobs2 := <[i := failed_job]> (Batch.individual_jobs batch)).
  assert (Hb2 : tailoring_jobs st2 !! task_id = Some batch2)
    by (subst st2; simpl; apply lookup_insert_eq).
  assert (Hlen2 : length jobs2 = i + S (length rest))
    by (subst jobs2; now rewrite length_insert).
  assert (Hsplit : Batch.individual_jobs batch2
                   = (take (S i) jobs2 ++ drop (S i) jobs2)%list)
    by (symmetry; apply take_drop).
  assert (Hdone : length (take (S i) jobs2) = S i)
    by (rewrite length_take; lia).
  assert (Hrest : length (drop (S i) jobs2) = length rest)
    by (rewrite length_drop; lia).
  pose proof (loop_run W task_id resume_id resume_data rest st2 batch2
                (take (S i) jobs2) (drop (S i) jobs2) Hb2 Hsplit Hrest)
    as Hloop.
  rewrite Hdone in Hloop. fold loop in Hloop.
  eexists st2, _, _.
  split; [exact Hrun|]. split; [reflexivity|].
  split; [cbn [for_enumerate]; rewrite bind_run; unfold loop; now rewrite Hrun|].
  split; [exact Hloop|].
  split; [simpl; apply lookup_insert_eq|].
  simpl.
  assert (Hkept : forall k, k <= i ->
            (take (S i) jobs2
             ++ finish_jobs W resume_id resume_data (S i) rest
                  (drop (S i) jobs2))%list !! k
            = jobs2 !! k).
  { intros k Hk. rewrite lookup_app_l by lia.
    rewrite lookup_take_lt by lia. reflexivity. }
  split; [exact Hkept|]. split.
  - intros text ->. rewrite (Hkept i) by lia. subst jobs2.
    now rewrite list_lookup_insert_eq by exact Hi.
  - intros k jd sibling Hjd Hsib.
    assert (Hfinal :
              (take (S i) jobs2
               ++ finish_jobs W resume_id resume_data (S i) rest
                    (drop (S i) jobs2))%list !! (S i + k)
              = Some (finished_job W resume_id resume_data (S i + k) jd
                        sibling)).
    { rewrite lookup_app_r by lia. rewrite Hdone.
      replace (S i + k - S i) with k by lia.
      apply finish_jobs_lookup; [assumption|].
      rewrite lookup_drop. subst jobs2.
      rewrite list_lookup_insert_ne by lia. exact Hsib. }
    split; [exact Hfinal|].
    intros Hok Hsome. eexists. split; [exact Hfinal|].
    now apply finished_job_completed.
Qed.

End Containment.

Lemma empty_batch_fails_witness :
  exists st2 batch,
    perform_tailoring sample_world "t2"
      (tailor_resume "t2" "now"
         {| req_resume_id := "r"; req_job_descriptions := [] |}
         sample_state).2
    = (Return tt, st2)
    /\ tailoring_jobs st2 !! "t2" = Some batch
    /\ Batch.status batch = failed
    /\ Batch.error_message batch = Some "All jobs failed to process".
Proof.
  destruct (empty_batch_fails sample_world sample_state "t2" "now" "r"
              (Resume.mk "cv.pdf" "uploads/r_cv.pdf" "now" "uploaded")
              (Extraction.mk completed sample_resume None)
              eq_refl eq_refl eq_refl eq_refl)
    as (response & st1 & st2 & batch & Hsubmit & _ & _ & Hrun & Hb & _ & Hs & He).
  exists st2, batch. rewrite Hsubmit. simpl. auto.
Defined.

Lemma pdf_failure_keeps_subjob_completed_witness :
  exists st' batch' job' links,
    tailor_job sample_world "t" "r" sample_resume 1 acme_engineer sample_state
    = (Return tt, st')
    /\ tailoring_jobs st' !! "t" = Some batch'
    /\ Batch.individual_jobs batch' !! 1 = Some job'
    /\ SubJob.status job' = completed
    /\ SubJob.download_links job' = Some links
    /\ Links.json links = "/api/download/r_Acme_Engineer_1.json"
    /\ Links.pdf links = "/api/download/r_Acme_Engineer_1.json/pdf".
Proof.
  destruct (pdf_failure_keeps_subjob_completed sample_world sample_state
              "t" "r" sample_resume sample_batch 1
              (new_subjob 1 acme_engineer) acme_engineer
              {| model_dump := PyDict [("summary", PyStr "x")] |}
              eq_refl eq_refl eq_refl eq_refl)
    as (st' & batch' & job' & links & Hrun & Hb & Hj & Hs & _ & _ & Hl & Hjson
        & Hpdf & _).
  exists st', batch', job', links. repeat split; assumption.
Defined.

Lemma subjob_failure_is_contained_witness :
  exists st2 st3 batch3 done,
    tailor_job sample_world "t" "r" sample_resume 0 acme_engineer sample_state
    = (Return tt, st2)
    /\ for_enumerate 1 [acme_engineer]
         (tailor_job sample_world "t" "r" sample_resume) st2
       = (Return tt, st3)
    /\ tailoring_jobs st3 !! "t" = Some batch3
    /\ Batch.individual_jobs batch3 !! 0
       = Some (SubJob.mk 0 "Engineer" "Acme" failed None
                 (Some "quota exceeded") None None)
    /\ Batch.individual_jobs batch3 !! 1 = Some done
    /\ SubJob.status done = completed.
Proof.
  destruct (subjob_failure_is_contained sample_world sample_state
              (job_body sample_world "t" "r" sample_resume 0 acme_engineer
                 sample_state).2
              "t" "r" sample_resume sample_batch 0
              (new_subjob 0 acme_engineer) acme_engineer [acme_engineer]
              (Exception "quota exceeded") eq_refl eq_refl eq_refl)
    as (st2 & st3 & batch3 & Hrun & _ & _ & Hloop & Hb & _ & Htext
        & Hsiblings).
  - vm_compute. reflexivity.
  - destruct (Hsiblings 0 acme_engineer (new_subjob 1 acme_engineer)
                eq_refl eq_refl) as [_ Hdone].
    destruct Hdone as (done & Hlookup & Hstatus);
      [reflexivity | discriminate |].
    exists st2, st3, batch3, done.
    split; [exact Hrun|]. split; [exact Hloop|]. split; [exact Hb|].
    split; [exact (Htext "quota exceeded" eq_refl)|]. auto.
Defined.



(** ** Shapes of batches *)

Lemma keeps_ret {A : Type} (a : A) : keeps_shapes (mret a).
Proof. intros st. reflexivity. Qed.

Lemma keeps_raise {A : Type} (e : exn) : keeps_shapes (@raise A e).
Proof. intros st. reflexivity. Qed.

Lemma keeps_lift {A : Type} (r : result A) : keeps_shapes (lift r).
Proof. intros st. reflexivity. Qed.

Lemma keeps_gets {A : Type} (f : State -> A) : keeps_shapes (gets f).
Proof. intros st. reflexivity. Qed.

Lemma keeps_bind {A B : Type} (m : Py A) (f : A -> Py B) :
  keeps_shapes m -> (forall a, keeps_shapes (f a)) -> keeps_shapes (m ≫= f).
Proof.
  intros Hm Hf st. rewrite bind_run. specialize (Hm st).
  destruct (m st) as [[a|e] st1]; simpl in *.
  - now rewrite Hf.
  - assumption.
Qed.

Lemma keeps_try {A : Type} (m : Py A) (h : exn -> Py A) :
  keeps_shapes m -> (forall e, keeps_shapes (h e)) ->
  keeps_shapes (try_except m h).
Proof.
  intros Hm Hh st. unfold try_except. specialize (Hm st).
  destruct (m st) as [[a|e] st1]; simpl in *.
  - assumption.
  - now rewrite Hh.
Qed.

Lemma keeps_attempt {A : Type} (m : Py A) :
  keeps_shapes m -> keeps_shapes (attempt m).
Proof.
  intros Hm st. unfold attempt. specialize (Hm st).
  now destruct (m st) as [r st1].
Qed.

Lemma keeps_modify (f : State -> State) :
  (forall st, tailoring_jobs (f st) = tailoring_jobs st) ->
  keeps_shapes (modify f).
Proof. intros Hf st. unfold shapes. simpl. now rewrite Hf. Qed.

Lemma keeps_lookup_batch task_id : keeps_shapes (lookup_batch task_id).
Proof.
  intros st. unfold lookup_batch.
  now destruct (tailoring_jobs st !! task_id).
Qed.

Lemma keeps_lookup_extraction resume_id :
  keeps_shapes (lookup_extraction resume_id).
Proof.
  intros st. unfold lookup_extraction.
  now destruct (extraction_status st !! resume_id).
Qed.

(** Replacing a batch by one of the same shape. *)
Lemma shapes_insert_same task_id batch batch' st :
  tailoring_jobs st !! task_id = Some batch ->
  shape batch' = shape batch ->
  shapes (with_tailoring_jobs <[task_id := batch']> st) = shapes st.
Proof.
  intros Hb Hs. unfold shapes. simpl. rewrite fmap_insert, Hs.
  apply insert_id. now rewrite lookup_fmap, Hb.
Qed.

Lemma keeps_update_batch task_id (f : Batch.t -> Batch.t) :
  (forall batch, shape (f batch) = shape batch) ->
  keeps_shapes (update_batch task_id f).
Proof.
  intros Hf st. unfold update_batch. rewrite bind_run. unfold lookup_batch.
  destruct (tailoring_jobs st !! task_id) as [batch|] eqn:Hb; [|reflexivity].
  now apply (shapes_insert_same task_id batch).
Qed.

Lemma keeps_update_job task_id i (f : SubJob.t -> SubJob.t) :
  (forall job, identity (f job) = identity job) ->
  keeps_shapes (update_job task_id i f).
Proof.
  intros Hf st. unfold update_job. rewrite bind_run. unfold lookup_batch.
  destruct (tailoring_jobs st !! task_id) as [batch|] eqn:Hb; [|reflexivity].
  destruct (Batch.individual_jobs batch !! i) as [job|] eqn:Hj; [|reflexivity].
  apply (shapes_insert_same task_id batch); [assumption|].
  unfold shape. simpl. f_equal.
  rewrite list_fmap_insert, Hf. apply list_insert_id.
  now rewrite list_lookup_fmap, Hj.
Qed.

Create HintDb keeps.

#[local] Hint Resolve keeps_ret keeps_raise keeps_lift keeps_gets
  keeps_lookup_batch keeps_lookup_extraction : keeps.

(** Take a computation apart down to its reads and writes. *)
Ltac keeps :=
  repeat match goal with
    | |- forall _, _ => intro
    | |- keeps_shapes (update_job _ _ _) =>
        apply keeps_update_job; reflexivity
    | |- keeps_shapes (update_batch _ _) =>
        apply keeps_update_batch; reflexivity
    | |- keeps_shapes (modify _) => apply keeps_modify; reflexivity
    | |- keeps_shapes (_ ≫= _) => apply keeps_bind
    | |- keeps_shapes (try_except _ _) => apply keeps_try
    | |- keeps_shapes (attempt _) => apply keeps_attempt
    | |- keeps_shapes (match ?x with _ => _ end) => destruct x
    | |- keeps_shapes _ => solve [auto with keeps]
    end.

Section KeepsShapes.

Context (W : Collaborators).

Lemma keeps_save_json name doc : keeps_shapes (save_json W name doc).
Proof. unfold save_json. keeps. Qed.

Lemma keeps_render_pdf name doc : keeps_shapes (render_pdf W name doc).
Proof. unfold render_pdf. keeps. Qed.

#[local] Hint Resolve keeps_save_json keeps_render_pdf : keeps.

Lemma keeps_job_begin task_id i jd : keeps_shapes (job_begin task_id i jd).
Proof. unfold job_begin. keeps. Qed.

Lemma keeps_job_finish task_id resume_id i jd content :
  keeps_shapes (job_finish W task_id resume_id i jd content).
Proof. unfold job_finish. keeps. Qed.

Lemma keeps_job_except task_id i e : keeps_shapes (job_except W task_id i e).
Proof. unfold job_except. keeps. Qed.

#[local] Hint Resolve keeps_job_begin keeps_job_finish keeps_job_except : keeps.

Lemma keeps_tailor_job task_id resume_id resume_data i jd :
  keeps_shapes (tailor_job W task_id resume_id resume_data i jd).
Proof. unfold tailor_job, job_body. keeps. Qed.

Lemma keeps_for_enumerate {A : Type} (body : nat -> A -> Py unit) xs :
  (forall i x, keeps_shapes (body i x)) ->
  forall start, keeps_shapes (for_enumerate start xs body).
Proof.
  intros Hbody. induction xs as [|x xs IH]; intros start; simpl.
  - apply keeps_ret.
  - apply keeps_bind; auto.
Qed.

Lemma keeps_summarize task_id : keeps_shapes (summarize task_id).
Proof. unfold summarize. keeps. Qed.

Lemma keeps_batch_except task_id e : keeps_shapes (batch_except W task_id e).
Proof. unfold batch_except. keeps. Qed.

#[local] Hint Resolve keeps_tailor_job keeps_summarize keeps_batch_except : keeps.

Lemma keeps_perform_tailoring task_id :
  keeps_shapes (perform_tailoring W task_id).
Proof.
  unfold perform_tailoring, tailoring_body. keeps.
  apply keeps_for_enumerate. keeps.
Qed.

Lemma keeps_run_to_await task_id resume_id resume_data jobs :
  forall i, keeps_shapes (run_to_await W task_id resume_id resume_data i jobs).
Proof.
  induction jobs as [|jd jobs IH]; intros i; simpl; keeps.
Qed.

#[local] Hint Resolve keeps_run_to_await : keeps.

Lemma keeps_worker_start task_id : keeps_shapes (worker_start W task_id).
Proof. unfold worker_start. keeps. Qed.

Lemma keeps_worker_resume w : keeps_shapes (worker_resume W w).
Proof. unfold worker_resume. keeps. Qed.

Lemma keeps_perform_extraction resume_id :
  keeps_shapes (perform_extraction W resume_id).
Proof. unfold perform_extraction. keeps. Qed.

Lemma keeps_upload_resume resume_id now filename content :
  keeps_shapes (upload_resume W resume_id now filename content).
Proof. unfold upload_resume. keeps. Qed.

Lemma keeps_download_pdf file_key :
  keeps_shapes (download_tailored_resume_pdf W file_key).
Proof. unfold download_tailored_resume_pdf, load_json. keeps. Qed.

End KeepsShapes.

Lemma keeps_extract_resume_data resume_id :
  keeps_shapes (extract_resume_data resume_id).
Proof. unfold extract_resume_data. keeps. Qed.

Lemma keeps_get_extraction_status resume_id :
  keeps_shapes (get_extraction_status resume_id).
Proof. unfold get_extraction_status. keeps. Qed.

Lemma keeps_update_resume_data resume_id data :
  keeps_shapes (update_resume_data resume_id data).
Proof. unfold update_resume_data. keeps. Qed.

Lemma keeps_get_tailoring_status task_id :
  keeps_shapes (get_tailoring_status task_id).
Proof. unfold get_tailoring_status. keeps. Qed.

Lemma keeps_download file_key : keeps_shapes (download_tailored_resume file_key).
Proof. unfold download_tailored_resume. keeps. Qed.

(** ** Submissions and the shapes they add *)

Lemma build_individual_jobs_imap start jds acc :
  build_individual_jobs start jds acc
  = (acc ++ imap (fun i jd => new_subjob (start + i) jd) jds)%list.
Proof.
  revert start acc. induction jds as [|jd jds IH]; intros start acc; simpl.
  - now rewrite app_nil_r.
  - rewrite IH, <- app_assoc. simpl. rewrite Nat.add_0_r.
    do 2 f_equal. apply imap_ext. intros i x _. simpl.
    f_equal. lia.
Qed.

Lemma new_batch_aligned resume_id jds now :
  aligned (Batch.mk resume_id jds pending (build_individual_jobs 0 jds [])
             None now).
Proof.
  unfold aligned, aligned_shape, shape. simpl.
  rewrite build_individual_jobs_imap. simpl.
  now rewrite fmap_imap.
Qed.

(** What being aligned means subjob by subjob. *)
Lemma aligned_spelled_out batch :
  aligned batch ->
  length (Batch.individual_jobs batch) = length (Batch.job_descriptions batch)
  /\ forall i jd,
       Batch.job_descriptions batch !! i = Some jd ->
       exists job,
         Batch.individual_jobs batch !! i = Some job
         /\ SubJob.job_index job = i
         /\ SubJob.job_title job = dict_get jd "title" "Unknown Title"
         /\ SubJob.company job = dict_get jd "company" "Unknown Company".
Proof.
  unfold aligned, aligned_shape, shape. simpl. intros H. split.
  - apply (f_equal length) in H.
    now rewrite length_fmap, length_imap in H.
  - intros i jd Hjd.
    apply (f_equal (fun l => l !! i)) in H.
    rewrite list_lookup_fmap, list_lookup_imap, Hjd in H. simpl in H.
    destruct (Batch.individual_jobs batch !! i) as [job|]; [|discriminate].
    injection H as H1 H2 H3. eauto.
Qed.

Lemma tailor_resume_shapes task_id now request st :
  let '(r, st') := tailor_resume task_id now request st in
  match r with
  | Return _ =>
      exists batch,
        aligned batch
        /\ Batch.job_descriptions batch = req_job_descriptions request
        /\ tailoring_jobs st' = <[task_id := batch]> (tailoring_jobs st)
  | Raise _ => st' = st
  end.
Proof.
  unfold tailor_resume. rewrite bind_run; unfold gets at 1; cbv beta iota;
    unfold id.
  destruct (resume_storage st !! req_resume_id request); [|reflexivity].
  destruct (extraction_status st !! req_resume_id request) as [es|];
    [|reflexivity].
  destruct (bool_decide (Extraction.status es = completed)); [|reflexivity].
  destruct (truthy (Extraction.extracted_data es)); [|reflexivity].
  simpl. eexists. split; [apply new_batch_aligned|]. split; reflexivity.
Qed.

(** ** Steps of the backend *)

Lemma handle_shapes W c st :
  fresh c st ->
  shapes st ⊆ shapes (handle W c st)
  /\ (all_aligned st -> all_aligned (handle W c st)).
Proof.
  assert (Hsame : forall st', shapes st' = shapes st ->
            shapes st ⊆ shapes st'
            /\ (all_aligned st -> all_aligned st')).
  { intros st' Heq. unfold all_aligned. now rewrite Heq. }
  destruct c; simpl; intros Hfresh.
  - apply Hsame, keeps_upload_resume.
  - apply Hsame, keeps_extract_resume_data.
  - apply Hsame, keeps_get_extraction_status.
  - apply Hsame, keeps_update_resume_data.
  - pose proof (tailor_resume_shapes task_id now request st) as H.
    destruct (tailor_resume task_id now request st) as [[response|e] st'].
    + destruct H as (batch & Hal & _ & Htj). simpl.
      unfold all_aligned, shapes. rewrite Htj, fmap_insert. split.
      * apply insert_subseteq. now rewrite lookup_fmap, Hfresh.
      * intros Hall. now apply map_Forall_insert_2.
    + subst st'. now apply Hsame.
  - apply Hsame, keeps_get_tailoring_status.
  - apply Hsame, keeps_download.
  - apply Hsame, keeps_download_pdf.
Qed.

Lemma step_shapes s s' :
  step s s' ->
  shapes (store s) ⊆ shapes (store s')
  /\ (all_aligned (store s) -> all_aligned (store s')).
Proof.
  assert (Hsame : forall st st', shapes st' = shapes st ->
            shapes st ⊆ shapes st'
            /\ (all_aligned st -> all_aligned st')).
  { intros st st' Heq. unfold all_aligned. now rewrite Heq. }
  destruct 1 as [W c s Hfresh | W resume_id s q1 q2 Hq
                | W task_id s q1 q2 r st' Hq Hrun | W w s l1 l2 r st' Hl Hrun];
    simpl.
  - now apply handle_shapes.
  - apply Hsame. now rewrite keeps_perform_extraction.
  - apply Hsame. pose proof (keeps_worker_start W task_id
                               (with_scheduled (fun _ => (q1 ++ q2)%list)
                                  (store s))) as H.
    now rewrite Hrun in H.
  - apply Hsame. pose proof (keeps_worker_resume W w (store s)) as H.
    now rewrite Hrun in H.
Qed.

Lemma steps_shapes s s' :
  rtc step s s' ->
  shapes (store s) ⊆ shapes (store s')
  /\ (all_aligned (store s) -> all_aligned (store s')).
Proof.
  induction 1 as [s|s s1 s2 Hstep _ [IHsub IHal]].
  - split; [reflexivity|auto].
  - destruct (step_shapes _ _ Hstep) as [Hsub Hal]. split.
    + now transitivity (shapes (store s1)).
    + auto.
Qed.

(** C3: an accepted submission of N job descriptions creates a batch with
    these job descriptions and exactly N subjobs, the subjob at position
    [i] carrying index [i] and the title and company of job description
    [i].  Whatever the backend does afterwards -- requests, status queries,
    extraction runs, the segments of tailoring runs -- the batch stays in
    the registry with the same job descriptions and the same subjobs in the
    same order, so with the same count.  In every reachable state every
    batch has one subjob per job description, in order. *)
Theorem subjobs_fixed_by_submission :
  (forall task_id now request st response st',
     tailor_resume task_id now request st = (Return response, st') ->
     exists batch,
       tailoring_jobs st' !! task_id = Some batch
       /\ Batch.job_descriptions batch = req_job_descriptions request
       /\ length (Batch.individual_jobs batch)
          = length (req_job_descriptions request)
       /\ forall i jd,
            req_job_descriptions request !! i = Some jd ->
            exists job,
              Batch.individual_jobs batch !! i = Some job
              /\ SubJob.job_index job = i
              /\ SubJob.job_title job = dict_get jd "title" "Unknown Title"
              /\ SubJob.company job = dict_get jd "company" "Unknown Company")
  /\ (forall s s' task_id batch,
        rtc step s s' ->
        tailoring_jobs (store s) !! task_id = Some batch ->
        exists batch',
          tailoring_jobs (store s') !! task_id = Some batch'
          /\ Batch.job_descriptions batch' = Batch.job_descriptions batch
          /\ identity <$> Batch.individual_jobs batch'
             = identity <$> Batch.individual_jobs batch
          /\ length (Batch.individual_jobs batch')
             = length (Batch.individual_jobs batch))
  /\ (forall s task_id batch,
        reachable s ->
        tailoring_jobs (store s) !! task_id = Some batch ->
        length (Batch.individual_jobs batch)
        = length (Batch.job_descriptions batch)
        /\ forall i jd,
             Batch.job_descriptions batch !! i = Some jd ->
             exists job,
               Batch.individual_jobs batch !! i = Some job
               /\ SubJob.job_index job = i
               /\ SubJob.job_title job = dict_get jd "title" "Unknown Title"
               /\ SubJob.company job
                  = dict_get jd "company" "Unknown Company").
Proof.
  split; [|split].
  - intros task_id now request st response st' Hrun.
    pose proof (tailor_resume_shapes task_id now request st) as H.
    rewrite Hrun in H. destruct H as (batch & Hal & Hjds & Htj).
    exists batch. rewrite Htj, lookup_insert_eq.
    destruct (aligned_spelled_out batch Hal) as [Hlen Hjobs].
    rewrite Hjds in Hlen, Hjobs. auto.
  - intros s s' task_id batch Hsteps Hb.
    destruct (steps_shapes s s' Hsteps) as [Hsub _].
    assert (Hsh : shapes (store s) !! task_id = Some (shape batch))
      by (unfold shapes; now rewrite lookup_fmap, Hb).
    eapply lookup_weaken in Hsh; [|exact Hsub].
    unfold shapes in Hsh. rewrite lookup_fmap in Hsh.
    destruct (tailoring_jobs (store s') !! task_id) as [batch'|];
      [|discriminate].
    injection Hsh as Hjds Hids. exists batch'.
    split; [reflexivity|]. split; [assumption|]. split; [assumption|].
    apply (f_equal length) in Hids. now rewrite !length_fmap in Hids.
  - intros s task_id batch Hreach Hb.
    destruct (steps_shapes _ _ Hreach) as [_ Hal].
    apply aligned_spelled_out.
    apply (Hal (map_Forall_empty _) task_id (shape batch)).
    unfold shapes. now rewrite lookup_fmap, Hb.
Qed.

Lemma sample_system_reachable : reachable sample_system.
Proof.
  unfold reachable, sample_system.
  eapply rtc_l.
  { apply (step_call sample_world (CallUpload "r" "now" "cv.pdf" "bytes")
             initial_system). split; reflexivity. }
  eapply rtc_l.
  { apply (step_call sample_world (CallExtract "r")). exact I. }
  eapply rtc_l.
  { apply (step_extraction sample_world "r" _ [] []). reflexivity. }
  eapply rtc_l.
  { apply (step_call sample_world (CallTailor "t" "now" two_jobs)).
    reflexivity. }
  eapply rtc_l.
  { eapply (step_start sample_world "t" _ [] []).
    - reflexivity.
    - simpl. apply surjective_pairing. }
  apply rtc_refl.
Qed.

Lemma subjobs_fixed_by_submission_witness :
  exists batch,
    tailoring_jobs (store sample_system) !! "t" = Some batch
    /\ length (Batch.individual_jobs batch) = 2.
Proof.
  destruct subjobs_fixed_by_submission as (_ & _ & Hreach).
  assert (Hb : tailoring_jobs (store sample_system) !! "t"
               = Some (Batch.mk "r" [acme_engineer; acme_engineer] processing
                         [SubJob.set_progress "Tailoring resume with AI..."
                            (SubJob.set_status processing
                               (new_subjob 0 acme_engineer));
                          new_subjob 1 acme_engineer] None "now"))
    by (vm_compute; reflexivity).
  destruct (Hreach sample_system "t" _ sample_system_reachable Hb) as [Hlen _].
  eexists. split; [exact Hb|exact Hlen].
Defined.



(** ** Extraction records *)

Lemma upload_resume_record W resume_id now filename content st response st' :
  upload_resume W resume_id now filename content st = (Return response, st') ->
  exists es, extraction_status st' !! resume_id = Some es
             /\ data_iff_completed es.
Proof.
  unfold upload_resume.
  destruct (negb _); [discriminate|].
  destruct (write_upload W _ content); [discriminate|].
  intros [= _ <-]. eexists. split; [simpl; apply lookup_insert_eq|].
  split; simpl; discriminate.
Qed.

Lemma perform_extraction_record W resume_id st :
  exists es, extraction_status (perform_extraction W resume_id st).2 !! resume_id
             = Some es
             /\ data_iff_completed es.
Proof.
  unfold perform_extraction, try_except.
  rewrite bind_run; unfold gets at 1; cbv beta iota; unfold id.
  destruct (resume_storage st !! resume_id) as [r|].
  - rewrite bind_run. unfold lift at 1.
    destruct (parse_resume_raw_json W (Resume.file_path r)) as [data|e].
    + destruct (truthy data) eqn:Htruthy.
      * destruct data as [| | | | |items]; try discriminate Htruthy;
          try (eexists; split; [simpl; apply lookup_insert_eq|];
               split; reflexivity).
        destruct (eq_str (assoc_get items "error") "api_key_invalid");
          (eexists; split; [simpl; apply lookup_insert_eq|]);
          split; simpl; (reflexivity || discriminate).
      * eexists; split; [simpl; apply lookup_insert_eq|].
        split; simpl; discriminate.
    + eexists; split; [simpl; apply lookup_insert_eq|].
      split; simpl; discriminate.
  - eexists; split; [simpl; apply lookup_insert_eq|].
    split; simpl; discriminate.
Qed.

Lemma update_resume_data_record resume_id data st response st' es :
  extraction_status st !! resume_id = Some es ->
  data_iff_completed es ->
  update_resume_data resume_id data st = (Return response, st') ->
  exists es', extraction_status st' !! resume_id = Some es'
              /\ data_iff_completed es'.
Proof.
  intros Hes Hinv. unfold update_resume_data.
  rewrite bind_run; unfold gets at 1; cbv beta iota; unfold id. rewrite Hes.
  destruct (decide (Extraction.status es = completed)) as [Hc|Hc].
  - rewrite bool_decide_eq_true_2 by assumption. simpl.
    intros [= _ <-]. eexists. split; [simpl; apply lookup_insert_eq|].
    split; simpl; auto.
  - rewrite bool_decide_eq_false_2 by assumption. discriminate.
Qed.

(** Triggering an extraction changes the state of the record and nothing
    else of it. *)
Lemma extract_resume_data_record resume_id st r es :
  resume_storage st !! resume_id = Some r ->
  extraction_status st !! resume_id = Some es ->
  extract_resume_data resume_id st
  = (Return {| esr_resume_id := resume_id;
               esr_status := processing;
               esr_extracted_data := PyNone;
               esr_error_message := None |},
     with_extraction_status
       <[resume_id := Extraction.mk processing (Extraction.extracted_data es)
                        (Extraction.error_message es)]>
       (with_scheduled (fun q => (q ++ [ExtractionTask resume_id])%list) st)).
Proof.
  intros Hr Hes. unfold extract_resume_data.
  rewrite bind_run; unfold gets at 1; cbv beta iota; unfold id.
  rewrite Hr, Hes. rewrite bind_run. simpl.
  rewrite bind_run. unfold modify at 1. cbv beta iota.
  rewrite bind_run. unfold lookup_extraction. simpl. now rewrite Hes.
Qed.

(** Triggering an extraction keeps the invariant of a record that is not
    [completed]. *)
Lemma extract_resume_data_record_pending resume_id st r es :
  resume_storage st !! resume_id = Some r ->
  extraction_status st !! resume_id = Some es ->
  data_iff_completed es ->
  Extraction.status es <> completed ->
  exists es',
    extraction_status (extract_resume_data resume_id st).2 !! resume_id
    = Some es'
    /\ data_iff_completed es'.
Proof.
  intros Hr Hes Hinv Hs.
  rewrite (extract_resume_data_record resume_id st r es Hr Hes).
  eexists. split; [simpl; apply lookup_insert_eq|].
  split; simpl; [|discriminate].
  intros Hdata. apply Hinv in Hdata. contradiction.
Qed.

(** C7: the code breaks the invariant when an extraction is triggered
    again.  On the sample deployment, whose resume is [completed] with
    data, [extract_resume_data] answers with state [processing] and no
    data, but leaves in the registry a record in state [processing] that
    still holds the data, as the next status query shows. *)
Theorem reextraction_keeps_extracted_data :
  let again := extract_resume_data "r" extracted_state in
  extraction_status extracted_state !! "r"
  = Some (Extraction.mk completed sample_resume None)
  /\ again.1 = Return {| esr_resume_id := "r";
                         esr_status := processing;
                         esr_extracted_data := PyNone;
                         esr_error_message := None |}
  /\ extraction_status again.2 !! "r"
     = Some (Extraction.mk processing sample_resume None)
  /\ ~ data_iff_completed (Extraction.mk processing sample_resume None)
  /\ (get_extraction_status "r" again.2).1
     = Return {| esr_resume_id := "r";
                 esr_status := processing;
                 esr_extracted_data := sample_resume;
                 esr_error_message := None |}.
Proof.
  intros again.
  assert (Hes : extraction_status extracted_state !! "r"
                = Some (Extraction.mk completed sample_resume None))
    by (vm_compute; reflexivity).
  assert (Hr : resume_storage extracted_state !! "r"
               = Some (Resume.mk "cv.pdf" "uploads/r_cv.pdf" "now" "uploaded"))
    by (vm_compute; reflexivity).
  subst again. rewrite (extract_resume_data_record "r" _ _ _ Hr Hes). simpl.
  split; [exact Hes|]. split; [reflexivity|].
  split; [apply lookup_insert_eq|].
  split.
  - intros [H _]. specialize (H eq_refl). discriminate.
  - unfold get_extraction_status.
    rewrite bind_run; unfold gets at 1; cbv beta iota; unfold id. simpl.
    now rewrite lookup_insert_eq.
Qed.

(** ** Download with conversion *)

Module ReplaceFacts.
Import PyStr PyStrFacts.

Lemma length_append (a b : string) :
  String.length (a +:+ b) = String.length a + String.length b.
Proof. induction a as [|x a IH]; str_simpl; [reflexivity | now rewrite IH]. Qed.

(** A character that does not start the pattern is copied. *)
Lemma replace_scan_copy (k : nat) (c : ascii) (s : string) :
  Ascii.eqb "." c = false ->
  replace_scan (S k) ".json" "" (String c s)
  = String c (replace_scan k ".json" "" s).
Proof. intros Hc. cbn [replace_scan strip_prefix]. now rewrite Hc. Qed.

(** The scan copies a stretch without dots, a character a round. *)
Lemma replace_scan_stem (stem tail : string) (k : nat) :
  contains "." stem = false ->
  replace_scan (String.length stem + k) ".json" "" (stem +:+ tail)
  = stem +:+ replace_scan k ".json" "" tail.
Proof.
  intros Hstem. induction stem as [|c stem IH]; [reflexivity|].
  cbn [contains] in Hstem. apply orb_false_elim in Hstem as [Hc Hstem].
  rewrite !append_cons. cbn [String.length Nat.add].
  rewrite replace_scan_copy by now rewrite Ascii.eqb_sym.
  now rewrite IH.
Qed.

Lemma replace_json_stem (stem : string) :
  contains "." stem = false ->
  replace ".json" "" stem = stem
  /\ replace ".json" "" (stem +:+ ".json") = stem
  /\ replace ".json" "" (stem +:+ ".pdf") = stem +:+ ".pdf".
Proof.
  intros Hstem. unfold replace. repeat split.
  - transitivity (replace_scan (String.length stem + 0) ".json" ""
                    (stem +:+ "")).
    + now rewrite Nat.add_0_r, append_nil_r.
    + rewrite (replace_scan_stem stem "" 0 Hstem). apply append_nil_r.
  - rewrite length_append, (replace_scan_stem stem ".json" _ Hstem).
    apply append_nil_r.
  - rewrite length_append, (replace_scan_stem stem ".pdf" _ Hstem).
    reflexivity.
Qed.

End ReplaceFacts.

Section Download.

Context (W : Collaborators).


End Download.



(** ** A run and its segments

    Resuming a tailoring run segment by segment, with nothing in between,
    is [perform_tailoring]. *)

Section Segments.

Context (W : Collaborators).

Lemma try_bind {A B : Type} (m : Py A) (k : A -> Py B) (h : exn -> Py B) st :
  try_except (m ≫= k) h st
  = match m st with
    | (Return a, st') => try_except (k a) h st'
    | (Raise e, st') => h e st'
    end.
Proof.
  unfold try_except. rewrite bind_run. now destruct (m st) as [[a|e] st'].
Qed.

Lemma drive_none n st : drive W n None st = (Return tt, st).
Proof. now destruct n. Qed.

(** After the handler of the outer [try] the run is over. *)
Lemma give_up_run task_id n e st :
  ((batch_except W task_id e;; mret None) ≫= drive W n) st
  = batch_except W task_id e st.
Proof.
  rewrite !bind_run.
  destruct (batch_except W task_id e st) as [[[]|e'] st']; [|reflexivity].
  apply drive_none.
Qed.

(** The loop, one iteration unrolled. *)
Lemma loop_unroll task_id resume_id resume_data i jd rest st :
  let body := tailor_job W task_id resume_id resume_data in
  let after :=
    try_except (for_enumerate (S i) rest body;; summarize task_id)
      (batch_except W task_id) in
  try_except (for_enumerate i (jd :: rest) body;; summarize task_id)
    (batch_except W task_id) st
  = match job_begin task_id i jd st with
    | (Return ctx, st1) =>
        match try_except
                (tailored_content ←
                   lift (tailor_resume_with_ai W i resume_data ctx);
                 job_finish W task_id resume_id i jd tailored_content)
                (job_except W task_id i) st1 with
        | (Return _, st2) => after st2
        | (Raise e, st2) => batch_except W task_id e st2
        end
    | (Raise e, st1) =>
        match job_except W task_id i e st1 with
        | (Return _, st2) => after st2
        | (Raise e', st2) => batch_except W task_id e' st2
        end
    end.
Proof.
  intros body after. subst body after.
  unfold try_except, tailor_job, job_body. cbn [for_enumerate].
  unfold try_except, mbind, Py_bind.
  destruct (job_begin task_id i jd st) as [[ctx|e] st1].
  - destruct (lift _ st1) as [[content|e] st2].
    + now destruct (job_finish W task_id resume_id i jd content st2)
        as [[[]|e] st3]; [|destruct (job_except W task_id i e st3)
                              as [[[]|e'] st4]].
    + now destruct (job_except W task_id i e st2) as [[[]|e'] st3].
  - now destruct (job_except W task_id i e st1) as [[[]|e'] st2].
Qed.

(** The segments, one iteration unrolled. *)
Lemma segments_unroll task_id resume_id resume_data i jd rest n st :
  let after :=
    try_except (run_to_await W task_id resume_id resume_data (S i) rest)
      (fun e => batch_except W task_id e;; mret None)
    ≫= drive W n in
  (try_except (run_to_await W task_id resume_id resume_data i (jd :: rest))
     (fun e => batch_except W task_id e;; mret None)
   ≫= drive W (S n)) st
  = match job_begin task_id i jd st with
    | (Return ctx, st1) =>
        match try_except
                (tailored_content ←
                   lift (tailor_resume_with_ai W i resume_data ctx);
                 job_finish W task_id resume_id i jd tailored_content)
                (job_except W task_id i) st1 with
        | (Return _, st2) => after st2
        | (Raise e, st2) => batch_except W task_id e st2
        end
    | (Raise e, st1) =>
        match job_except W task_id i e st1 with
        | (Return _, st2) =>
            (try_except
               (run_to_await W task_id resume_id resume_data (S i) rest)
               (fun e => batch_except W task_id e;; mret None)
             ≫= drive W (S n)) st2
        | (Raise e', st2) => batch_except W task_id e' st2
        end
    end.
Proof.
  intros after. subst after. cbn [run_to_await].
  rewrite bind_run, try_bind. unfold attempt at 1.
  destruct (job_begin task_id i jd st) as [[ctx|e] st1].
  - unfold try_except at 1, mret at 1, Py_ret at 1. cbn [drive].
    rewrite bind_run. unfold worker_resume. cbn [w_task_id w_resume_id
      w_resume_data w_index w_job_desc_data w_context w_rest].
    rewrite try_bind.
    destruct (try_except _ (job_except W task_id i) st1) as [[[]|e] st2].
    + now rewrite bind_run.
    + rewrite <- bind_run. apply give_up_run.
  - rewrite try_bind.
    destruct (job_except W task_id i e st1) as [[[]|e'] st2].
    + now rewrite bind_run.
    + rewrite <- bind_run. apply give_up_run.
Qed.

Lemma loop_by_segments task_id resume_id resume_data jobs :
  forall i n st,
    length jobs <= n ->
    try_except
      (for_enumerate i jobs (tailor_job W task_id resume_id resume_data);;
       summarize task_id)
      (batch_except W task_id) st
    = (try_except
         (run_to_await W task_id resume_id resume_data i jobs)
         (fun e => batch_except W task_id e;; mret None)
       ≫= drive W n) st.
Proof.
  induction jobs as [|jd rest IH]; intros i n st Hn.
  - cbn [for_enumerate run_to_await]. rewrite try_bind.
    unfold mret at 1, Py_ret at 1.
    rewrite bind_run, try_bind. unfold try_except.
    destruct (summarize task_id st) as [[[]|e] st'].
    + symmetry. apply drive_none.
    + symmetry. apply give_up_run.
  - destruct n as [|n]; [simpl in Hn; lia|].
    assert (Hrest : length rest <= n) by (simpl in Hn; lia).
    assert (Hrest' : length rest <= S n) by lia.
    rewrite loop_unroll, segments_unroll. cbv zeta.
    destruct (job_begin task_id i jd st) as [[ctx|e] st1].
    + destruct (try_except _ (job_except W task_id i) st1) as [[[]|e] st2];
        [now apply IH | reflexivity].
    + destruct (job_except W task_id i e st1) as [[[]|e'] st2];
        [now apply IH | reflexivity].
Qed.

Theorem perform_tailoring_by_segments task_id st :
  perform_tailoring W task_id st
  = (worker_start W task_id
     ≫= drive W (match tailoring_jobs st !! task_id with
                  | Some batch => length (Batch.job_descriptions batch)
                  | None => 0
                  end)) st.
Proof.
  unfold perform_tailoring, tailoring_body, worker_start.
  rewrite try_bind, bind_run, try_bind. unfold lookup_batch.
  destruct (tailoring_jobs st !! task_id) as [batch|];
    [|symmetry; rewrite <- bind_run; apply give_up_run].
  rewrite !try_bind.
  destruct (update_batch task_id _ st) as [[[]|e] st1];
    [|symmetry; rewrite <- bind_run; apply give_up_run].
  rewrite !try_bind.
  destruct (lookup_extraction (Batch.resume_id batch) st1) as [[es|e] st2];
    [|symmetry; rewrite <- bind_run; apply give_up_run].
  rewrite <- bind_run. now apply loop_by_segments.
Qed.

End Segments.

(** * Further properties *)

(** ** The life of an extraction record *)

(** X1: an extraction run catches every [Exception] and writes one record.
    The record is [completed], with the parser's answer as data and no
    error message, exactly when the resume is registered and the parser
    returns a value that is not empty and is no API-key error.  Otherwise
    it is [failed] without data, and its message is the text of the
    [KeyError] for a resume that is not registered, the text of the
    exception the parser raised, "Failed to extract resume data" for an
    empty answer, or "API Key Error: ..." with the parser's message. *)
Theorem perform_extraction_writes_one_record (W : Collaborators)
    (resume_id : string) (st : State) :
  exists es,
    perform_extraction W resume_id st
    = (Return tt, with_extraction_status <[resume_id := es]> st)
    /\ (Extraction.status es = completed \/ Extraction.status es = failed)
    /\ data_iff_completed es
    /\ (Extraction.status es = completed <->
        Extraction.error_message es = None)
    /\ (Extraction.status es = completed <->
        exists r data,
          resume_storage st !! resume_id = Some r
          /\ parse_resume_raw_json W (Resume.file_path r) = Return data
          /\ truthy data = true
          /\ (forall items, data = PyDict items ->
                eq_str (assoc_get items "error") "api_key_invalid" = false))
    /\ (forall r data,
          resume_storage st !! resume_id = Some r ->
          parse_resume_raw_json W (Resume.file_path r) = Return data ->
          truthy data = true ->
          (forall items, data = PyDict items ->
             eq_str (assoc_get items "error") "api_key_invalid" = false) ->
          es = Extraction.mk completed data None)
    /\ (resume_storage st !! resume_id = None ->
        es = Extraction.mk failed PyNone (Some (repr_str W resume_id)))
    /\ (forall r e,
          resume_storage st !! resume_id = Some r ->
          parse_resume_raw_json W (Resume.file_path r) = Raise e ->
          es = Extraction.mk failed PyNone (Some (str_exn W e))
          /\ forall text, e = Exception text ->
               es = Extraction.mk failed PyNone (Some text))
    /\ (forall r data,
          resume_storage st !! resume_id = Some r ->
          parse_resume_raw_json W (Resume.file_path r) = Return data ->
          truthy data = false ->
          es = Extraction.mk failed PyNone
                 (Some "Failed to extract resume data"))
    /\ (forall r items,
          resume_storage st !! resume_id = Some r ->
          parse_resume_raw_json W (Resume.file_path r)
          = Return (PyDict items) ->
          eq_str (assoc_get items "error") "api_key_invalid" = true ->
          es = Extraction.mk failed PyNone
                 (Some ("API Key Error: "
                        +:+ match assoc_get items "error_message" with
                            | Some v => format_obj W v
                            | None => "Invalid or missing API key"
                            end))).
Proof.
  assert (Hnone : forall data, truthy data = true -> is_none data = false)
    by (intros []; simpl; congruence).
  unfold perform_extraction, try_except.
  rewrite bind_run; unfold gets at 1; cbv beta iota; unfold id.
  destruct (resume_storage st !! resume_id) as [r|] eqn:Hr;
    [rewrite bind_run; unfold lift at 1;
     destruct (parse_resume_raw_json W (Resume.file_path r)) as [data|e]
       eqn:Hparse;
     [destruct (truthy data) eqn:Htruthy;
      [destruct data as [| | | | |items];
       [| | | | |destruct (eq_str (assoc_get items "error") "api_key_invalid")
                  eqn:Herr]|]|]|];
    (eexists; split; [reflexivity|]);
    unfold data_iff_completed; cbn [Extraction.status Extraction.extracted_data
                                     Extraction.error_message is_none];
    repeat match goal with
      | |- _ /\ _ => split
      | |- _ <-> _ => split
      | |- forall _, _ => intro
      end;
    repeat match goal with
      | H : exists _, _ |- _ => destruct H
      | H : _ /\ _ |- _ => destruct H
      | H : ?x = Some _, H' : ?x = _ |- _ => rewrite H in H'
      | H : ?x = Return _, H' : ?x = _ |- _ => rewrite H in H'
      | H : ?x = Raise _, H' : ?x = _ |- _ => rewrite H in H'
      | H : Some _ = Some _ |- _ => injection H as H; try subst
      | H : Return _ = Return _ |- _ => injection H as H; try subst
      | H : Raise _ = Raise _ |- _ => injection H as H; try subst
      | H : PyDict _ = PyDict _ |- _ => injection H as H; try subst
      | H : forall items, PyDict ?i = PyDict items -> _ |- _ =>
          specialize (H i eq_refl)
      | H : truthy (PyDict ?i) = false |- _ =>
          destruct i; [clear H|discriminate H]
      end;
    try discriminate; try congruence; try reflexivity; auto;
    try (subst; reflexivity);
    try (eexists _, _; repeat split; (reflexivity || eassumption || idtac);
         intros; try discriminate; congruence).
Qed.

Lemma perform_extraction_writes_one_record_witness :
  perform_extraction sample_world "r" sample_state
  = (Return tt,
     with_extraction_status
       <["r" := Extraction.mk completed sample_resume None]> sample_state)
  /\ perform_extraction sample_world "nobody" sample_state
     = (Return tt,
        with_extraction_status
          <["nobody" := Extraction.mk failed PyNone (Some "nobody")]>
          sample_state).
Proof.
  split.
  - destruct (perform_extraction_writes_one_record sample_world "r"
                sample_state)
      as (es & Hrun & _ & _ & _ & _ & Hdone & _).
    rewrite Hrun.
    rewrite (Hdone (Resume.mk "cv.pdf" "uploads/r_cv.pdf" "now" "uploaded")
               sample_resume eq_refl eq_refl eq_refl);
      [reflexivity|].
    intros items [= <-]. reflexivity.
  - destruct (perform_extraction_writes_one_record sample_world "nobody"
                sample_state)
      as (es & Hrun & _ & _ & _ & _ & _ & Hmissing & _).
    rewrite Hrun, (Hmissing eq_refl). reflexivity.
Defined.

Lemma upload_resume_run W resume_id now filename content st :
  path_suffix_lower W filename ∈ allowed_extensions ->
  write_upload W ("uploads/" +:+ resume_id +:+ "_" +:+ filename) content
  = None ->
  upload_resume W resume_id now filename content st
  = (Return {| up_resume_id := resume_id;
               up_filename := filename;
               up_message := "Resume uploaded successfully" |},
     with_extraction_status
       <[resume_id := Extraction.mk pending PyNone None]>
       (with_resume_storage
          <[resume_id := Resume.mk filename
                           ("uploads/" +:+ resume_id +:+ "_" +:+ filename)
                           now "uploaded"]>
          (with_uploads <[resume_id +:+ "_" +:+ filename := content]> st))).
Proof.
  intros Hext Hwrite. unfold upload_resume. cbv zeta.
  rewrite bool_decide_eq_true_2 by assumption. simpl negb. cbv iota.
  rewrite Hwrite. reflexivity.
Qed.

Lemma perform_extraction_completes W resume_id st r data :
  resume_storage st !! resume_id = Some r ->
  parse_resume_raw_json W (Resume.file_path r) = Return data ->
  truthy data = true ->
  (forall items, data = PyDict items ->
     eq_str (assoc_get items "error") "api_key_invalid" = false) ->
  perform_extraction W resume_id st
  = (Return tt,
     with_extraction_status
       <[resume_id := Extraction.mk completed data None]> st).
Proof.
  intros Hr Hparse Htruthy Hnoerr. unfold perform_extraction, try_except.
  rewrite bind_run; unfold gets at 1; cbv beta iota; unfold id.
  rewrite Hr, bind_run. unfold lift at 1. rewrite Hparse, Htruthy.
  destruct data as [| | | | |items]; try reflexivity.
  now rewrite (Hnoerr items eq_refl).
Qed.

Lemma get_extraction_status_run resume_id st es :
  extraction_status st !! resume_id = Some es ->
  get_extraction_status resume_id st
  = (new_extraction_status_response resume_id (Extraction.status es)
       (Extraction.extracted_data es) (Extraction.error_message es), st).
Proof.
  intros Hes. unfold get_extraction_status.
  rewrite bind_run; unfold gets at 1; cbv beta iota; unfold id.
  now rewrite Hes.
Qed.

(** X2: upload, trigger, run: the status goes pending, processing,
    completed, and the resume can then be tailored.  The last status
    query returns the data if the parser's answer is a dictionary; for an
    answer of another type (a list, a string, a number, which the JSON
    fallback of the parser can give) the record is [completed] all the
    same, but the response model refuses the data and the query raises
    its validation error. *)
Theorem extraction_lifecycle (W : Collaborators)
    (resume_id now filename content : string) (st : State) (data : pyobj)
    (Hext : path_suffix_lower W filename ∈ allowed_extensions)
    (Hwrite : write_upload W
                ("uploads/" +:+ resume_id +:+ "_" +:+ filename) content
              = None)
    (Hparse : parse_resume_raw_json W
                ("uploads/" +:+ resume_id +:+ "_" +:+ filename)
              = Return data)
    (Htruthy : truthy data = true)
    (Hnoerr : forall items, data = PyDict items ->
                eq_str (assoc_get items "error") "api_key_invalid" = false) :
  let st1 := (upload_resume W resume_id now filename content st).2 in
  let st2 := (extract_resume_data resume_id st1).2 in
  let st3 := (perform_extraction W resume_id st2).2 in
  (get_extraction_status resume_id st1).1
  = Return {| esr_resume_id := resume_id; esr_status := pending;
              esr_extracted_data := PyNone; esr_error_message := None |}
  /\ (get_extraction_status resume_id st2).1
     = Return {| esr_resume_id := resume_id; esr_status := processing;
                 esr_extracted_data := PyNone; esr_error_message := None |}
  /\ scheduled st2 = (scheduled st ++ [ExtractionTask resume_id])%list
  /\ extraction_status st3 !! resume_id
     = Some (Extraction.mk completed data None)
  /\ (get_extraction_status resume_id st3).1
     = match data with
       | PyDict _ =>
           Return {| esr_resume_id := resume_id; esr_status := completed;
                     esr_extracted_data := data; esr_error_message := None |}
       | _ => Raise (ValidationError "ExtractionStatusResponse" data)
       end
  /\ forall task_id now' job_descriptions,
       (tailor_resume task_id now'
          {| req_resume_id := resume_id;
             req_job_descriptions := job_descriptions |} st3).1
       = Return {| tr_task_id := task_id;
                   tr_message := "Resume tailoring started";
                   tr_status := processing |}.
Proof.
  intros st1 st2 st3. subst st3 st2 st1.
  rewrite (upload_resume_run W _ _ _ _ _ Hext Hwrite).
  cbn [snd]. set (st1 := with_extraction_status _ _).
  set (r := Resume.mk filename ("uploads/" +:+ resume_id +:+ "_" +:+ filename)
              now "uploaded").
  assert (Hr1 : resume_storage st1 !! resume_id = Some r)
    by (subst st1; simpl; apply lookup_insert_eq).
  assert (Hes1 : extraction_status st1 !! resume_id
                 = Some (Extraction.mk pending PyNone None))
    by (subst st1; simpl; apply lookup_insert_eq).
  split; [now rewrite (get_extraction_status_run _ _ _ Hes1)|].
  rewrite (extract_resume_data_record _ _ _ _ Hr1 Hes1).
  cbn [snd]. set (st2 := with_extraction_status _ (with_scheduled _ st1)).
  assert (Hr2 : resume_storage st2 !! resume_id = Some r) by exact Hr1.
  assert (Hes2 : extraction_status st2 !! resume_id
                 = Some (Extraction.mk processing PyNone None))
    by (subst st2; simpl; apply lookup_insert_eq).
  split; [now rewrite (get_extraction_status_run _ _ _ Hes2)|].
  split; [reflexivity|].
  rewrite (perform_extraction_completes W _ _ r data Hr2 Hparse Htruthy Hnoerr).
  cbn [snd]. set (st3 := with_extraction_status _ st2).
  assert (Hes3 : extraction_status st3 !! resume_id
                 = Some (Extraction.mk completed data None))
    by (subst st3; simpl; apply lookup_insert_eq).
  split; [exact Hes3|].
  split.
  - rewrite (get_extraction_status_run _ _ _ Hes3). cbn [fst].
    unfold new_extraction_status_response. cbn [Extraction.extracted_data].
    destruct data; try reflexivity. discriminate Htruthy.
  - intros task_id now' jds.
    erewrite tailor_resume_accepts; [reflexivity|exact Hr2|exact Hes3|..];
      [reflexivity|exact Htruthy].
Qed.

Lemma extraction_lifecycle_witness :
  (get_extraction_status "r" extracted_state).1
  = Return {| esr_resume_id := "r"; esr_status := completed;
              esr_extracted_data := sample_resume;
              esr_error_message := None |}
  /\ (get_extraction_status "r"
        (perform_extraction (with_parser sample_world listing_parser) "r"
           (extract_resume_data "r"
              (upload_resume sample_world "r" "now" "cv.pdf" "bytes"
                 initial_state).2).2).2).1
     = Raise (ValidationError "ExtractionStatusResponse"
                (PyList [PyInt 1])).
Proof.
  split.
  - destruct (extraction_lifecycle sample_world "r" "now" "cv.pdf" "bytes"
                initial_state sample_resume)
      as (_ & _ & _ & _ & Hdone & _).
    + unfold allowed_extensions. simpl. set_solver.
    + reflexivity.
    + reflexivity.
    + reflexivity.
    + intros items [= <-]. reflexivity.
    + exact Hdone.
  - destruct (extraction_lifecycle (with_parser sample_world listing_parser)
                "r" "now" "cv.pdf" "bytes" initial_state
                (PyList [PyInt 1]))
      as (_ & _ & _ & _ & Hdone & _).
    + unfold allowed_extensions. simpl. set_solver.
    + reflexivity.
    + reflexivity.
    + reflexivity.
    + discriminate.
    + exact Hdone.
Defined.

(** ** Manual correction of the extracted data *)

(** X3: a correction goes through exactly for a [completed] record; it
    replaces the data of that record and nothing else, and a refused
    correction writes nothing. *)
Theorem update_resume_data_replaces_data (resume_id : string)
    (updated_data : list (string * pyobj)) (st : State) :
  match update_resume_data resume_id updated_data st with
  | (Return message, st') =>
      exists es,
        extraction_status st !! resume_id = Some es
        /\ Extraction.status es = completed
        /\ st' = with_extraction_status
                   <[resume_id := Extraction.mk completed
                                    (PyDict updated_data)
                                    (Extraction.error_message es)]> st
        /\ (get_extraction_status resume_id st').1
           = Return {| esr_resume_id := resume_id;
                       esr_status := completed;
                       esr_extracted_data := PyDict updated_data;
                       esr_error_message := Extraction.error_message es |}
  | (Raise e, st') =>
      st' = st
      /\ ((extraction_status st !! resume_id = None
           /\ e = HTTPException 404 "Resume not found")
          \/ (exists es,
                extraction_status st !! resume_id = Some es
                /\ Extraction.status es <> completed
                /\ e = HTTPException 400
                         "Resume extraction not complete, cannot update."))
  end.
Proof.
  unfold update_resume_data.
  rewrite bind_run; unfold gets at 1; cbv beta iota; unfold id.
  destruct (extraction_status st !! resume_id) as [es|] eqn:Hes.
  - destruct (decide (Extraction.status es = completed)) as [Hc|Hc].
    + rewrite bool_decide_eq_true_2 by assumption. simpl.
      exists es. rewrite Hc. repeat split.
      erewrite get_extraction_status_run by (simpl; apply lookup_insert_eq).
      reflexivity.
    + rewrite bool_decide_eq_false_2 by assumption. simpl.
      split; [reflexivity|]. right. eauto.
  - simpl. split; [reflexivity|]. now left.
Qed.

(** ** Submission and status *)

Lemma get_tailoring_status_run task_id st batch :
  tailoring_jobs st !! task_id = Some batch ->
  get_tailoring_status task_id st
  = (Return {| tsr_task_id := task_id;
               overall_status := Batch.status batch;
               total_jobs := length (Batch.job_descriptions batch);
               completed_jobs :=
                 count_status completed (Batch.individual_jobs batch);
               failed_jobs := count_status failed (Batch.individual_jobs batch);
               tsr_individual_jobs := Batch.individual_jobs batch;
               tsr_error_message := Batch.error_message batch |}, st).
Proof.
  intros Hb. unfold get_tailoring_status.
  rewrite bind_run; unfold gets at 1; cbv beta iota; unfold id.
  now rewrite Hb.
Qed.

Lemma count_status_pending_new s start jds acc :
  s <> pending ->
  count_status s (build_individual_jobs start jds acc) = count_status s acc.
Proof.
  intros Hs. revert start acc.
  induction jds as [|jd jds IH]; intros start acc; simpl; [reflexivity|].
  rewrite IH. unfold count_status. rewrite filter_app, length_app. simpl.
  rewrite filter_cons_False by (simpl; congruence). simpl. lia.
Qed.

(** X4: the answer to a submission says [processing], but until the run
    starts the batch is [pending]: a status query then shows N pending
    subjobs and no completed or failed one.  The submission schedules one
    run. *)
Theorem submitted_batch_is_pending (task_id now : string)
    (request : TailorRequest) (st st' : State) (response : TailorResponse)
    (Hsubmit : tailor_resume task_id now request st = (Return response, st')) :
  tr_status response = processing
  /\ scheduled st' = (scheduled st ++ [TailoringTask task_id])%list
  /\ exists status_response,
       get_tailoring_status task_id st' = (Return status_response, st')
       /\ overall_status status_response = pending
       /\ total_jobs status_response = length (req_job_descriptions request)
       /\ completed_jobs status_response = 0
       /\ failed_jobs status_response = 0
       /\ tsr_error_message status_response = None
       /\ length (tsr_individual_jobs status_response)
          = length (req_job_descriptions request)
       /\ Forall (fun job => SubJob.status job = pending
                             /\ SubJob.progress_message job = None
                             /\ SubJob.tailored_resume job = None
                             /\ SubJob.download_links job = None)
            (tsr_individual_jobs status_response).
Proof.
  revert Hsubmit. unfold tailor_resume.
  rewrite bind_run; unfold gets at 1; cbv beta iota; unfold id.
  destruct (resume_storage st !! req_resume_id request); [|discriminate].
  destruct (extraction_status st !! req_resume_id request) as [es|];
    [|discriminate].
  destruct (bool_decide (Extraction.status es = completed)); [|discriminate].
  destruct (truthy (Extraction.extracted_data es)); [|discriminate].
  simpl. intros [= <- <-]. split; [reflexivity|]. split; [reflexivity|].
  eexists. split.
  { apply get_tailoring_status_run. simpl. apply lookup_insert_eq. }
  simpl. rewrite !count_status_pending_new by discriminate.
  rewrite build_individual_jobs_imap. simpl. rewrite length_imap.
  repeat split.
  apply Forall_forall. intros job Hin.
  apply list_elem_of_lookup in Hin as [i Hi].
  rewrite list_lookup_imap in Hi.
  destruct (req_job_descriptions request !! i); [|discriminate].
  injection Hi as <-. repeat split.
Qed.

Lemma submitted_batch_is_pending_witness :
  exists status_response,
    get_tailoring_status "t"
      (tailor_resume "t" "now" two_jobs extracted_state).2
    = (Return status_response,
       (tailor_resume "t" "now" two_jobs extracted_state).2)
    /\ overall_status status_response = pending
    /\ total_jobs status_response = 2.
Proof.
  destruct (submitted_batch_is_pending "t" "now" two_jobs extracted_state
              (tailor_resume "t" "now" two_jobs extracted_state).2
              {| tr_task_id := "t"; tr_message := "Resume tailoring started";
                 tr_status := processing |})
    as (_ & _ & status_response & Hq & Hs & Ht & _).
  - vm_compute. reflexivity.
  - exists status_response. auto.
Defined.

(** ** The status of a batch after its run *)

Lemma terminal_counts jobs :
  Forall terminal jobs ->
  count_status completed jobs + count_status failed jobs = length jobs.
Proof.
  induction 1 as [|job jobs Hjob _ IH]; [reflexivity|].
  rewrite !count_status_cons. simpl. destruct Hjob as [Hs|Hs]; rewrite Hs.
  - rewrite decide_True by reflexivity.
    rewrite decide_False by discriminate. lia.
  - rewrite decide_False by discriminate.
    rewrite decide_True by reflexivity. lia.
Qed.

Lemma finish_jobs_length W resume_id resume_data start jds jobs :
  length (finish_jobs W resume_id resume_data start jds jobs) = length jobs.
Proof.
  revert start jobs. induction jds as [|jd jds IH]; intros start [|j jobs];
    simpl; auto.
Qed.

Lemma summary_job_descriptions batch :
  Batch.job_descriptions (summary batch) = Batch.job_descriptions batch.
Proof.
  unfold summary.
  destruct (0 <? _)%nat; [destruct (_ =? _)%nat|]; reflexivity.
Qed.

Lemma none_completed_all_failed jobs :
  Forall terminal jobs ->
  count_status completed jobs = 0 ->
  Forall (fun job => SubJob.status job = failed) jobs.
Proof.
  induction 1 as [|job jobs Hjob _ IH]; [constructor|].
  rewrite count_status_cons.
  destruct (decide (SubJob.status job = completed)) as [Hc|Hc]; [lia|].
  intros Hzero. constructor; [|apply IH; lia].
  destruct Hjob; [contradiction|assumption].
Qed.

(** X5: after the run of a batch with one subjob per job description, a
    status query counts every subjob as completed or failed, and the
    overall state is [completed] exactly when some subjob completed and
    [failed] otherwise. *)
Theorem status_after_run (W : Collaborators) (st : State) (task_id : string)
    (batch : Batch.t) (es : Extraction.t)
    (Hbatch : tailoring_jobs st !! task_id = Some batch)
    (Hcount : length (Batch.individual_jobs batch)
              = length (Batch.job_descriptions batch))
    (Hresume : extraction_status st !! Batch.resume_id batch = Some es) :
  let st' := (perform_tailoring W task_id st).2 in
  exists response,
    get_tailoring_status task_id st' = (Return response, st')
    /\ completed_jobs response + failed_jobs response = total_jobs response
    /\ total_jobs response = length (Batch.job_descriptions batch)
    /\ length (tsr_individual_jobs response) = total_jobs response
    /\ (0 < completed_jobs response -> overall_status response = completed)
    /\ (completed_jobs response = 0 ->
        overall_status response = failed
        /\ tsr_error_message response = Some "All jobs failed to process").
Proof.
  intros st'. subst st'.
  rewrite (perform_tailoring_run W _ _ _ _ Hbatch Hcount Hresume).
  rewrite (tailoring_body_run W _ _ _ _ Hbatch Hcount Hresume). cbn [snd].
  eexists. split.
  { apply get_tailoring_status_run. simpl. apply lookup_insert_eq. }
  cbn [completed_jobs failed_jobs total_jobs overall_status
         tsr_individual_jobs tsr_error_message].
  unfold final_batch.
  rewrite summary_jobs, summary_job_descriptions.
  set (b0 := Batch.set_individual_jobs _ _).
  change (Batch.job_descriptions b0) with (Batch.job_descriptions batch).
  assert (Hterm : Forall terminal (Batch.individual_jobs b0))
    by (subst b0; simpl; now apply finish_jobs_terminal).
  assert (Hlen : length (Batch.individual_jobs b0)
                 = length (Batch.job_descriptions batch))
    by (subst b0; simpl; now rewrite finish_jobs_length).
  pose proof (summary_rule b0) as [Hsome Hnone]. cbv zeta in Hsome, Hnone.
  split; [rewrite <- Hlen; now apply terminal_counts|].
  split; [reflexivity|]. split; [exact Hlen|].
  split.
  - intros Hpos. apply count_status_pos in Hpos. now apply Hsome.
  - intros Hzero. apply Hnone. now apply none_completed_all_failed.
Qed.

Lemma status_after_run_witness :
  exists response,
    (get_tailoring_status "t"
       (perform_tailoring sample_world "t" sample_state).2).1
    = Return response
    /\ completed_jobs response + failed_jobs response = 2.
Proof.
  destruct (status_after_run sample_world sample_state "t" sample_batch
              (Extraction.mk completed sample_resume None)
              eq_refl eq_refl eq_refl)
    as (response & Hq & Hsum & Htotal & _).
  exists response. rewrite Hq. split; [reflexivity|].
  now rewrite Hsum, Htotal.
Defined.

(** ** Runs that cannot start *)

(** X6: a run for a task id that is not registered raises [KeyError] out of
    the background task and writes nothing; a run whose resume has no
    extraction record marks the batch [failed] with the text of the
    [KeyError] and leaves every subjob as it was. *)
Theorem perform_tailoring_missing_keys (W : Collaborators) (task_id : string)
    (st : State) :
  (tailoring_jobs st !! task_id = None ->
     perform_tailoring W task_id st = (Raise (KeyError task_id), st))
  /\ (forall batch,
        tailoring_jobs st !! task_id = Some batch ->
        extraction_status st !! Batch.resume_id batch = None ->
        exists st' batch',
          perform_tailoring W task_id st = (Return tt, st')
          /\ tailoring_jobs st' !! task_id = Some batch'
          /\ Batch.status batch' = failed
          /\ Batch.error_message batch'
             = Some (repr_str W (Batch.resume_id batch))
          /\ Batch.individual_jobs batch' = Batch.individual_jobs batch
          /\ tailored_resumes st' = tailored_resumes st).
Proof.
  split.
  - intros Hnone. unfold perform_tailoring, tailoring_body, try_except.
    rewrite bind_run. unfold lookup_batch at 1. rewrite Hnone.
    unfold batch_except, update_batch. rewrite bind_run.
    unfold lookup_batch. now rewrite Hnone.
  - intros batch Hb Hes.
    unfold perform_tailoring, tailoring_body, try_except.
    rewrite bind_run, (lookup_batch_run _ _ _ Hb).
    rewrite bind_run, (update_batch_run _ _ _ _ Hb).
    rewrite bind_run. unfold lookup_extraction at 1. simpl. rewrite Hes.
    unfold batch_except.
    erewrite update_batch_run by (simpl; apply lookup_insert_eq).
    eexists _, _. split; [reflexivity|].
    split; [simpl; apply lookup_insert_eq|]. repeat split.
Qed.

(** ** The data a run works on *)

Lemma perform_tailoring_missing_keys_witness :
  perform_tailoring sample_world "t" initial_state
  = (Raise (KeyError "t"), initial_state)
  /\ exists st' batch',
       perform_tailoring sample_world "t"
         (with_extraction_status (fun _ => ∅) sample_state)
       = (Return tt, st')
       /\ tailoring_jobs st' !! "t" = Some batch'
       /\ Batch.status batch' = failed
       /\ Batch.error_message batch' = Some "r".
Proof.
  split.
  - apply (perform_tailoring_missing_keys sample_world "t" initial_state).
    reflexivity.
  - destruct (perform_tailoring_missing_keys sample_world "t"
                (with_extraction_status (fun _ => ∅) sample_state))
      as [_ Hrun].
    destruct (Hrun sample_batch eq_refl eq_refl)
      as (st' & batch' & Hst & Hb & Hfailed & Herr & _).
    exists st', batch'. auto.
Defined.

Lemma finished_job_completed_inv W resume_id resume_data i jd job :
  SubJob.status (finished_job W resume_id resume_data i jd job) = completed ->
  exists content,
    tailor_resume_with_ai W i resume_data (job_context jd)
    = Return (Some content)
    /\ json_dump W
         ("tailored_resumes/"
          +:+ json_filename (base_filename resume_id jd i))
         (model_dump content) = None
    /\ SubJob.tailored_resume (finished_job W resume_id resume_data i jd job)
       = Some (model_dump content).
Proof.
  unfold finished_job.
  destruct (tailor_resume_with_ai W i resume_data (job_context jd))
    as [[content|]|e]; simpl; try discriminate.
  destruct (json_dump W _ (model_dump content)) eqn:Hdump; simpl;
    [discriminate|].
  intros _. exists content. auto.
Qed.

Lemma update_resume_data_accepted resume_id updated_data st message st' :
  update_resume_data resume_id updated_data st = (Return message, st') ->
  exists es,
    extraction_status st !! resume_id = Some es
    /\ Extraction.status es = completed
    /\ st' = with_extraction_status
               <[resume_id := Extraction.mk completed (PyDict updated_data)
                                (Extraction.error_message es)]> st.
Proof.
  unfold update_resume_data.
  rewrite bind_run; unfold gets at 1; cbv beta iota; unfold id.
  destruct (extraction_status st !! resume_id) as [es|] eqn:Hes;
    [|discriminate].
  destruct (decide (Extraction.status es = completed)) as [Hc|Hc].
  - rewrite bool_decide_eq_true_2 by assumption. simpl.
    intros [= _ <-]. exists es. now rewrite Hc.
  - rewrite bool_decide_eq_false_2 by assumption. discriminate.
Qed.

(** X7: a submission does not copy the extracted data: a run works on the
    data the record holds when the run starts.  After a correction made
    between the submission and the run, every subjob that completes holds
    the answer to a tailoring call made with the corrected data. *)
Theorem run_uses_corrected_data (W : Collaborators) (task_id now : string)
    (request : TailorRequest) (updated_data : list (string * pyobj))
    (st st1 st2 : State) (response : TailorResponse) (message : string)
    (Hsubmit : tailor_resume task_id now request st = (Return response, st1))
    (Hupdate : update_resume_data (req_resume_id request) updated_data st1
               = (Return message, st2)) :
  exists st3 batch,
    perform_tailoring W task_id st2 = (Return tt, st3)
    /\ tailoring_jobs st3 !! task_id = Some batch
    /\ forall i job,
         Batch.individual_jobs batch !! i = Some job ->
         SubJob.status job = completed ->
         exists jd content,
           req_job_descriptions request !! i = Some jd
           /\ tailor_resume_with_ai W i (PyDict updated_data) (job_context jd)
              = Return (Some content)
           /\ SubJob.tailored_resume job = Some (model_dump content).
Proof.
  pose proof (tailor_resume_shapes task_id now request st) as Hshape.
  rewrite Hsubmit in Hshape. destruct Hshape as (batch0 & Hal & Hjds & Htj).
  destruct (update_resume_data_accepted _ _ _ _ _ Hupdate)
    as (es & Hes & Hc & ->).
  set (es' := Extraction.mk completed (PyDict updated_data)
                (Extraction.error_message es)).
  assert (Hb : tailoring_jobs
                 (with_extraction_status
                    <[req_resume_id request := es']> st1) !! task_id
               = Some batch0)
    by (simpl; rewrite Htj; apply lookup_insert_eq).
  destruct (aligned_spelled_out batch0 Hal) as [Hlen Hjobs].
  assert (Hrid : Batch.resume_id batch0 = req_resume_id request).
  { revert Hsubmit Htj. unfold tailor_resume.
    rewrite bind_run; unfold gets at 1; cbv beta iota; unfold id.
    destruct (resume_storage st !! req_resume_id request); [|discriminate].
    destruct (extraction_status st !! req_resume_id request) as [es0|];
      [|discriminate].
    destruct (bool_decide (Extraction.status es0 = completed));
      [|discriminate].
    destruct (truthy (Extraction.extracted_data es0)); [|discriminate].
    simpl. intros [= _ <-]. simpl. intros Heq.
    apply (f_equal (fun m => m !! task_id)) in Heq.
    rewrite !lookup_insert_eq in Heq. now injection Heq as <-. }
  assert (Hes' : extraction_status
                   (with_extraction_status
                      <[req_resume_id request := es']> st1)
                 !! Batch.resume_id batch0 = Some es')
    by (rewrite Hrid; simpl; apply lookup_insert_eq).
  rewrite (perform_tailoring_run W _ _ _ _ Hb Hlen Hes').
  rewrite (tailoring_body_run W _ _ _ _ Hb Hlen Hes').
  eexists _, _. split; [reflexivity|].
  split; [simpl; apply lookup_insert_eq|].
  intros i job. unfold final_batch. rewrite summary_jobs. simpl.
  intros Hjob Hdone.
  assert (Hi : i < length (Batch.job_descriptions batch0)).
  { apply lookup_lt_Some in Hjob.
    rewrite finish_jobs_length in Hjob. lia. }
  destruct (lookup_lt_is_Some_2 _ _ Hi) as [jd Hjd].
  destruct (Hjobs i jd Hjd) as (job0 & Hjob0 & _).
  rewrite (finish_jobs_lookup W _ _ 0 _ _ i jd job0 Hjd Hjob0) in Hjob.
  injection Hjob as <-. simpl in Hdone.
  destruct (finished_job_completed_inv W _ _ _ _ _ Hdone)
    as (content & Hcall & _ & Hres).
  exists jd, content. rewrite <- Hjds. auto.
Qed.

Lemma run_uses_corrected_data_witness :
  exists st3 batch,
    perform_tailoring sample_world "t"
      (update_resume_data "r" [("name", PyStr "Grace")]
         (tailor_resume "t" "now" two_jobs extracted_state).2).2
    = (Return tt, st3)
    /\ tailoring_jobs st3 !! "t" = Some batch.
Proof.
  destruct (run_uses_corrected_data sample_world "t" "now" two_jobs
              [("name", PyStr "Grace")] extracted_state
              (tailor_resume "t" "now" two_jobs extracted_state).2
              (update_resume_data "r" [("name", PyStr "Grace")]
                 (tailor_resume "t" "now" two_jobs extracted_state).2).2
              {| tr_task_id := "t"; tr_message := "Resume tailoring started";
                 tr_status := processing |}
              "Resume data updated successfully")
    as (st3 & batch & Hrun & Hb & _).
  - vm_compute. reflexivity.
  - vm_compute. reflexivity.
  - exists st3, batch. auto.
Defined.

(** ** Suffixes of file names *)

Module SuffixFacts.
Import PyStr PyStrFacts.

(** Appending on the right is injective. *)
Lemma append_inv_r (a b s : string) : a +:+ s = b +:+ s -> a = b.
Proof.
  revert b. induction a as [|x a IH]; intros [|y b]; str_simpl; intros H.
  - reflexivity.
  - apply (f_equal String.length) in H. simpl in H.
    rewrite ReplaceFacts.length_append in H. lia.
  - apply (f_equal String.length) in H. simpl in H.
    rewrite ReplaceFacts.length_append in H. lia.
  - injection H as -> H. f_equal. now apply IH.
Qed.

(** Strings that end in different characters differ. *)
Lemma last_char (a b : string) (c d : ascii) :
  a +:+ String c "" = b +:+ String d "" -> c = d.
Proof.
  revert b. induction a as [|x a IH]; intros [|y b]; str_simpl; intros H.
  - congruence.
  - injection H as _ H. destruct b; discriminate.
  - injection H as _ H. destruct a; discriminate.
  - injection H as _ H. now apply (IH b).
Qed.

Lemma endswith_cons (c : ascii) (s suffix : string) :
  endswith (String c s) suffix
  = if String.eqb (String c s) suffix then true else endswith s suffix.
Proof. reflexivity. Qed.

Lemma endswith_true (s suffix : string) :
  endswith s suffix = true <-> exists p, s = p +:+ suffix.
Proof.
  split.
  - induction s as [|c s IH].
    + destruct suffix; [|discriminate]. intros _. now exists "".
    + rewrite endswith_cons.
      destruct (String.eqb (String c s) suffix) eqn:Heq.
      * apply String.eqb_eq in Heq as <-. intros _. now exists "".
      * intros H. destruct (IH H) as [p ->]. now exists (String c p).
  - intros [p ->]. induction p as [|c p IH].
    + rewrite append_nil_l. destruct suffix; [reflexivity|].
      rewrite endswith_cons. now rewrite String.eqb_refl.
    + rewrite append_cons, endswith_cons.
      now destruct (String.eqb (String c (p +:+ suffix)) suffix).
Qed.

Lemma json_name_not_pdf (a b : string) : a +:+ ".json" <> b +:+ ".pdf".
Proof.
  intros H.
  change (a +:+ ".jso" +:+ "n" = b +:+ ".pd" +:+ "f") in H.
  rewrite <- !append_assoc in H. apply last_char in H. discriminate.
Qed.

Lemma endswith_json (a : string) :
  endswith (a +:+ ".json") ".json" = true
  /\ endswith (a +:+ ".json") ".pdf" = false.
Proof.
  split.
  - apply endswith_true. now exists a.
  - destruct (endswith (a +:+ ".json") ".pdf") eqn:H; [|reflexivity].
    apply endswith_true in H as [p H]. now apply json_name_not_pdf in H.
Qed.

Lemma endswith_pdf (a : string) : endswith (a +:+ ".pdf") ".pdf" = true.
Proof. apply endswith_true. now exists a. Qed.

End SuffixFacts.

(** ** Artifacts of a batch *)

(** The index can be read off a base name. *)
Lemma base_filename_index resume_id jd1 jd2 i j :
  base_filename resume_id jd1 i = base_filename resume_id jd2 j -> i = j.
Proof.
  unfold base_filename. intros H.
  apply PyStrFacts.str_int_inj.
  rewrite <- !PyStrFacts.append_assoc in H.
  rewrite (PyStrFacts.append_assoc _ "_" (PyStr.str_int i)) in H.
  rewrite (PyStrFacts.append_assoc _ "_" (PyStr.str_int j)) in H.
  eapply (PyStrFacts.last_segment "_"); [| |exact H];
    apply PyStrFacts.str_int_no_underscore.
Qed.

Section Artifacts.

Context (W : Collaborators).

Lemma written_files_other resume_id resume_data k jd files name :
  name <> json_filename (base_filename resume_id jd k) ->
  name <> pdf_filename (base_filename resume_id jd k) ->
  written_files W resume_id resume_data k jd files !! name = files !! name.
Proof.
  intros Hjson Hpdf. unfold written_files.
  destruct (tailor_resume_with_ai W k resume_data (job_context jd))
    as [[content|]|e]; try reflexivity.
  cbv zeta. destruct (json_dump W _ _); [reflexivity|].
  destruct (generate_pdf W _ _).
  - rewrite lookup_insert_ne by congruence.
    now rewrite lookup_insert_ne by congruence.
  - now rewrite lookup_insert_ne by congruence.
Qed.

Lemma files_after_other resume_id resume_data jds name :
  forall start files,
    (forall k jd, jds !! k = Some jd ->
       name <> json_filename (base_filename resume_id jd (start + k))
       /\ name <> pdf_filename (base_filename resume_id jd (start + k))) ->
    files_after W resume_id resume_data start jds files !! name
    = files !! name.
Proof.
  induction jds as [|jd jds IH]; intros start files Hother; [reflexivity|].
  simpl. rewrite IH.
  - destruct (Hother 0 jd eq_refl) as [Hjson Hpdf].
    rewrite Nat.add_0_r in Hjson, Hpdf. now apply written_files_other.
  - intros k jd' Hjd'. specialize (Hother (S k) jd' Hjd').
    now rewrite Nat.add_succ_r in Hother.
Qed.

Lemma files_after_app resume_id resume_data l1 l2 :
  forall start files,
    files_after W resume_id resume_data start (l1 ++ l2) files
    = files_after W resume_id resume_data (start + length l1) l2
        (files_after W resume_id resume_data start l1 files).
Proof.
  induction l1 as [|jd l1 IH]; intros start files; simpl.
  - now rewrite Nat.add_0_r.
  - rewrite IH. now rewrite Nat.add_succ_r.
Qed.

Lemma written_files_json resume_id resume_data i jd files content :
  tailor_resume_with_ai W i resume_data (job_context jd)
  = Return (Some content) ->
  json_dump W
    ("tailored_resumes/" +:+ json_filename (base_filename resume_id jd i))
    (model_dump content) = None ->
  written_files W resume_id resume_data i jd files
  !! json_filename (base_filename resume_id jd i)
  = Some (JsonFile (model_dump content)).
Proof.
  intros Hcall Hdump. unfold written_files. rewrite Hcall. cbv zeta.
  rewrite Hdump. destruct (generate_pdf W _ _).
  - rewrite lookup_insert_ne; [apply lookup_insert_eq|].
    unfold json_filename, pdf_filename. intros H. symmetry in H.
    now apply SuffixFacts.json_name_not_pdf in H.
  - apply lookup_insert_eq.
Qed.

(** X8: in the state that a run of a batch leaves when it is not
    interleaved with another run, the [json] link of every completed
    subjob names an artifact of the store that holds this subjob's
    tailored resume, and a download of that artifact is answered as JSON:
    no later subjob of the same batch overwrites it.  File names carry no
    task id, so a run of another batch for the same resume, company,
    title and index writes the same name; the statement is about the run
    taken alone, [perform_tailoring] applied to the state it starts in. *)
Theorem completed_subjobs_have_their_artifact (st : State)
    (task_id : string) (batch : Batch.t) (es : Extraction.t)
    (Hbatch : tailoring_jobs st !! task_id = Some batch)
    (Hcount : length (Batch.individual_jobs batch)
              = length (Batch.job_descriptions batch))
    (Hresume : extraction_status st !! Batch.resume_id batch = Some es) :
  let st' := (perform_tailoring W task_id st).2 in
  exists batch',
    tailoring_jobs st' !! task_id = Some batch'
    /\ forall i jd job,
         Batch.job_descriptions batch !! i = Some jd ->
         Batch.individual_jobs batch' !! i = Some job ->
         SubJob.status job = completed ->
         let name :=
           base_filename (Batch.resume_id batch) jd i +:+ ".json" in
         exists doc links,
           SubJob.tailored_resume job = Some doc
           /\ SubJob.download_links job = Some links
           /\ Links.json links = "/api/download/" +:+ name
           /\ tailored_resumes st' !! name = Some (JsonFile doc)
           /\ download_tailored_resume name st'
              = (Return {| fr_path := "tailored_resumes/" +:+ name;
                           fr_filename := name;
                           media_type := "application/json" |}, st').
Proof.
  intros st'. subst st'.
  rewrite (perform_tailoring_run W _ _ _ _ Hbatch Hcount Hresume).
  rewrite (tailoring_body_run W _ _ _ _ Hbatch Hcount Hresume). cbn [snd].
  set (rid := Batch.resume_id batch).
  set (rd := Extraction.extracted_data es).
  set (jds := Batch.job_descriptions batch).
  eexists. split; [simpl; apply lookup_insert_eq|].
  intros i jd job Hjd. unfold final_batch. rewrite summary_jobs. simpl.
  intros Hjob Hdone.
  set (name := base_filename rid jd i +:+ ".json").
  assert (Hi : i < length (Batch.individual_jobs batch))
    by (apply lookup_lt_Some in Hjd; fold jds in Hcount; lia).
  destruct (lookup_lt_is_Some_2 _ _ Hi) as [job0 Hjob0].
  fold rid rd jds in Hjob.
  rewrite (finish_jobs_lookup W _ _ 0 _ _ i jd job0 Hjd Hjob0) in Hjob.
  injection Hjob as <-. simpl in Hdone.
  destruct (finished_job_completed_inv W _ _ _ _ _ Hdone)
    as (content & Hcall & Hdump & Hres).
  assert (Hfile :
            files_after W rid rd 0 jds (tailored_resumes st) !! name
            = Some (JsonFile (model_dump content))).
  { rewrite <- (take_drop_middle jds i jd Hjd).
    rewrite files_after_app. cbn [files_after].
    rewrite length_take_le by (apply lookup_lt_Some in Hjd; lia).
    rewrite files_after_other.
    - now apply written_files_json.
    - intros k jd' _. unfold json_filename, pdf_filename. split.
      + intros H. apply SuffixFacts.append_inv_r, base_filename_index in H.
        lia.
      + apply SuffixFacts.json_name_not_pdf. }
  exists (model_dump content).
  unfold finished_job in *. rewrite Hcall in *. cbv zeta in *.
  rewrite Hdump in *. eexists.
  split; [reflexivity|]. split; [reflexivity|]. split; [reflexivity|].
  split; [exact Hfile|].
  unfold download_tailored_resume.
  rewrite bind_run; unfold gets at 1; cbv beta iota; unfold id.
  unfold path_exists.
  cbn [tailored_resumes with_tailoring_jobs with_tailored_resumes].
  rewrite Hfile. cbv zeta. cbn [negb].
  destruct (SuffixFacts.endswith_json (base_filename rid jd i)) as [Hj Hp].
  fold name in Hj, Hp. now rewrite Hp, Hj.
Qed.

End Artifacts.

Lemma completed_subjobs_have_their_artifact_witness :
  tailored_resumes (perform_tailoring sample_world "t" sample_state).2
  !! "r_Acme_Engineer_1.json"
  = Some (JsonFile (PyDict [("summary", PyStr "x")])).
Proof.
  destruct (completed_subjobs_have_their_artifact sample_world sample_state
              "t" sample_batch (Extraction.mk completed sample_resume None)
              eq_refl eq_refl eq_refl)
    as (batch' & Hb & Hjobs).
  assert (Hb' : tailoring_jobs
                  (perform_tailoring sample_world "t" sample_state).2 !! "t"
                = Some batch') by exact Hb.
  vm_compute in Hb'. injection Hb' as <-.
  destruct (Hjobs 1 acme_engineer _ eq_refl eq_refl eq_refl)
    as (doc & links & Hdoc & _ & _ & Hfile & _).
  injection Hdoc as <-. exact Hfile.
Defined.

(** ** Dots in file names *)

Module DotFacts.
Import PyStr PyStrFacts.

Lemma all_safe_no_dot (s : string) :
  all_chars safe_char s = true -> contains "." s = false.
Proof.
  induction s as [|c s IH]; simpl; [reflexivity|].
  intros H. apply andb_prop in H as [Hc Hs]. rewrite (IH Hs).
  destruct (Ascii.eqb c ".") eqn:Heq; [|reflexivity].
  apply Ascii.eqb_eq in Heq as ->. discriminate.
Qed.

Lemma sanitize_no_dot (s : string) : contains "." (sanitize s) = false.
Proof.
  apply all_safe_no_dot. unfold sanitize.
  destruct (rstrip_split (join_filter safe_char s)) as (tail & Hsplit & _).
  pose proof (join_filter_all safe_char s) as Hall.
  rewrite Hsplit, all_chars_append in Hall.
  now apply andb_prop in Hall as [Hall _].
Qed.

Lemma digits_no_dot (d : Decimal.uint) :
  contains "." (NilEmpty.string_of_uint d) = false.
Proof. induction d; simpl; auto. Qed.

(** A base name has a dot only if the resume id has one. *)
Lemma base_filename_no_dot resume_id jd i :
  contains "." resume_id = false ->
  contains "." (base_filename resume_id jd i) = false.
Proof.
  intros Hrid. unfold base_filename. cbv zeta.
  rewrite !contains_append, Hrid, !sanitize_no_dot.
  unfold str_int. now rewrite digits_no_dot.
Qed.

End DotFacts.

(** ** Conversion on demand *)

(** The conversion endpoint on a key whose PDF is not in the store and
    whose JSON document is. *)
Lemma download_pdf_converts (W : Collaborators) file_key base doc st :
  PyStr.replace ".json" "" file_key = base ->
  tailored_resumes st !! (base +:+ ".pdf") = None ->
  tailored_resumes st !! (base +:+ ".json") = Some (JsonFile doc) ->
  download_tailored_resume_pdf W file_key st
  = if generate_pdf W doc ("tailored_resumes/" +:+ base +:+ ".pdf")
    then (Return (pdf_response (base +:+ ".pdf")),
          with_tailored_resumes <[base +:+ ".pdf" := PdfFile doc]> st)
    else (Raise (HTTPException 500
                   ("Error generating PDF: "
                    +:+ str_http_exception W 500 "Failed to generate PDF")),
          st).
Proof.
  intros Hbase Hpdf Hjson. unfold download_tailored_resume_pdf.
  cbv zeta. rewrite Hbase.
  rewrite bind_run; unfold gets at 1; cbv beta iota; unfold id.
  rewrite Hpdf, Hjson. unfold try_except, load_json, render_pdf.
  rewrite bind_run. unfold mret at 1, Py_ret. rewrite bind_run.
  now destruct (generate_pdf W doc _).
Qed.

Section OnDemand.

Context (W : Collaborators).

(** X9: a subjob whose PDF could not be rendered gets the conversion
    endpoint of its JSON artifact as [pdf] link (the resume id has no dot,
    as an identifier of [uuid4] has none).  If the store held no PDF of
    that name before the iteration, a plain download of the PDF is
    answered with status 404, while the conversion endpoint, called with
    the JSON file name, renders the stored document: if the renderer now
    succeeds the PDF is stored, served, and from then on downloadable as
    a PDF; if it fails again the answer is status 500 and nothing is
    written.  If the store did hold a PDF of that name, left by an
    earlier batch for the same resume, company, title and index, that
    older file is what both endpoints serve, and nothing is rendered. *)
Theorem fallback_link_converts_on_demand (W' : Collaborators) (st : State)
    (task_id resume_id : string) (resume_data : pyobj) (batch : Batch.t)
    (i : nat) (job : SubJob.t) (jd : JobDesc) (content : TailoredResume)
    (Hbatch : tailoring_jobs st !! task_id = Some batch)
    (Hjob : Batch.individual_jobs batch !! i = Some job)
    (Hcontent : tailor_resume_with_ai W i resume_data (job_context jd)
                = Return (Some content))
    (Hsaved : json_dump W
                ("tailored_resumes/"
                 +:+ base_filename resume_id jd i +:+ ".json")
                (model_dump content) = None)
    (Hfail : generate_pdf W (model_dump content)
               ("tailored_resumes/"
                +:+ base_filename resume_id jd i +:+ ".pdf") = false)
    (Hnodot : PyStr.contains "." resume_id = false) :
  let base := base_filename resume_id jd i in
  let st1 := (tailor_job W task_id resume_id resume_data i jd st).2 in
  let converted :=
    with_tailored_resumes
      <[base +:+ ".pdf" := PdfFile (model_dump content)]> st1 in
  let served :=
    {| fr_path := "tailored_resumes/" +:+ base +:+ ".pdf";
       fr_filename := base +:+ ".pdf";
       media_type := "application/pdf" |} in
  (exists batch1 job1 links,
     tailoring_jobs st1 !! task_id = Some batch1
     /\ Batch.individual_jobs batch1 !! i = Some job1
     /\ SubJob.status job1 = completed
     /\ SubJob.download_links job1 = Some links
     /\ Links.pdf links = "/api/download/" +:+ (base +:+ ".json") +:+ "/pdf")
  /\ tailored_resumes st1 !! (base +:+ ".json")
     = Some (JsonFile (model_dump content))
  /\ (tailored_resumes st !! (base +:+ ".pdf") = None ->
      download_tailored_resume (base +:+ ".pdf") st1
      = (Raise (HTTPException 404 "File not found"), st1)
      /\ (generate_pdf W' (model_dump content)
             ("tailored_resumes/" +:+ base +:+ ".pdf") = true ->
          download_tailored_resume_pdf W' (base +:+ ".json") st1
          = (Return served, converted)
          /\ download_tailored_resume (base +:+ ".pdf") converted
             = (Return served, converted))
      /\ (generate_pdf W' (model_dump content)
             ("tailored_resumes/" +:+ base +:+ ".pdf") = false ->
          download_tailored_resume_pdf W' (base +:+ ".json") st1
          = (Raise (HTTPException 500
                      ("Error generating PDF: "
                       +:+ str_http_exception W' 500
                             "Failed to generate PDF")), st1)))
  /\ (forall older,
        tailored_resumes st !! (base +:+ ".pdf") = Some older ->
        tailored_resumes st1 !! (base +:+ ".pdf") = Some older
        /\ download_tailored_resume (base +:+ ".pdf") st1
           = (Return served, st1)
        /\ download_tailored_resume_pdf W' (base +:+ ".json") st1
           = (Return served, st1)).
Proof.
  intros base st1 converted served.
  assert (Hi : i < length (Batch.individual_jobs batch))
    by now apply lookup_lt_Some in Hjob.
  pose proof (tailor_job_run W task_id resume_id resume_data batch i job
                jd st Hi) as Hrun.
  rewrite (put_job_id _ _ _ _ _ Hbatch Hjob) in Hrun.
  unfold finished_job, written_files in Hrun.
  rewrite Hcontent in Hrun. cbv zeta in Hrun.
  unfold json_filename, pdf_filename in Hrun. fold base in Hrun, Hsaved, Hfail.
  rewrite Hsaved, Hfail in Hrun.
  subst converted st1. rewrite Hrun. cbn [snd].
  set (st1 := put_job _ _ _ _ _).
  assert (Hne : base +:+ ".pdf" <> base +:+ ".json")
    by (intros H; apply String.app_inj in H; discriminate).
  assert (Hpdf1 : tailored_resumes st1 !! (base +:+ ".pdf")
                  = tailored_resumes st !! (base +:+ ".pdf")).
  { subst st1. cbn [tailored_resumes put_job with_tailoring_jobs
      with_tailored_resumes].
    now rewrite lookup_insert_ne by (intros H; now apply Hne). }
  assert (Hjson1 : tailored_resumes st1 !! (base +:+ ".json")
                   = Some (JsonFile (model_dump content)))
    by (subst st1; simpl; apply lookup_insert_eq).
  assert (Hbase : PyStr.replace ".json" "" (base +:+ ".json") = base).
  { apply ReplaceFacts.replace_json_stem.
    now apply DotFacts.base_filename_no_dot. }
  assert (Hdot : base +:+ ".pdf" ∉ [""; "."; ".."]).
  { intros Hin.
    assert (Hlen : 4 <= String.length (base +:+ ".pdf"))
      by (rewrite ReplaceFacts.length_append; simpl; lia).
    apply list_elem_of_In in Hin. simpl in Hin.
    destruct Hin as [H|[H|[H|[]]]]; rewrite <- H in Hlen; simpl in Hlen; lia. }
  assert (Hserve : forall s f,
            tailored_resumes s !! (base +:+ ".pdf") = Some f ->
            download_tailored_resume (base +:+ ".pdf") s
            = (Return served, s)).
  { intros s f Hf. unfold download_tailored_resume.
    rewrite bind_run; unfold gets at 1; cbv beta iota; unfold id.
    unfold path_exists. rewrite Hf. cbn [negb]. cbv zeta.
    now rewrite SuffixFacts.endswith_pdf. }
  split; [|split; [exact Hjson1|split]].
  - eexists _, _, _. split; [subst st1; simpl; apply lookup_insert_eq|].
    split; [simpl; now apply list_lookup_insert_eq|]. repeat split.
  - intros Hnopdf. rewrite Hnopdf in Hpdf1. split; [|split].
    + unfold download_tailored_resume.
      rewrite bind_run; unfold gets at 1; cbv beta iota; unfold id.
      unfold path_exists. rewrite Hpdf1.
      now rewrite bool_decide_eq_false_2 by exact Hdot.
    + intros Hok. split.
      * rewrite (download_pdf_converts W' _ base _ _ Hbase Hpdf1 Hjson1).
        now rewrite Hok.
      * apply (Hserve _ (PdfFile (model_dump content))).
        cbn [tailored_resumes with_tailored_resumes].
        apply lookup_insert_eq.
    + intros Hbad.
      rewrite (download_pdf_converts W' _ base _ _ Hbase Hpdf1 Hjson1).
      now rewrite Hbad.
  - intros older Hold. rewrite Hold in Hpdf1.
    split; [exact Hpdf1|]. split; [now apply (Hserve _ older)|].
    unfold download_tailored_resume_pdf. cbv zeta. rewrite Hbase.
    rewrite bind_run; unfold gets at 1; cbv beta iota; unfold id.
    now rewrite Hpdf1.
Qed.

End OnDemand.

Lemma fallback_link_converts_on_demand_witness :
  let after st :=
    (tailor_job sample_world "t" "r" sample_resume 1 acme_engineer st).2 in
  let older :=
    with_tailored_resumes
      <["r_Acme_Engineer_1.pdf" := PdfFile sample_resume]> sample_state in
  (download_tailored_resume "r_Acme_Engineer_1.pdf" (after sample_state)).1
  = Raise (HTTPException 404 "File not found")
  /\ (download_tailored_resume_pdf rendering_world "r_Acme_Engineer_1.json"
        (after sample_state)).1
     = Return (pdf_response "r_Acme_Engineer_1.pdf")
  /\ tailored_resumes (after older) !! "r_Acme_Engineer_1.pdf"
     = Some (PdfFile sample_resume)
  /\ (download_tailored_resume "r_Acme_Engineer_1.pdf" (after older)).1
     = Return (pdf_response "r_Acme_Engineer_1.pdf").
Proof.
  intros after older.
  destruct (fallback_link_converts_on_demand sample_world rendering_world
              sample_state "t" "r" sample_resume sample_batch 1
              (new_subjob 1 acme_engineer) acme_engineer
              {| model_dump := PyDict [("summary", PyStr "x")] |}
              eq_refl eq_refl eq_refl eq_refl eq_refl eq_refl)
    as (_ & _ & Hfresh & _).
  destruct (Hfresh eq_refl) as (Hmissing & Hok & _).
  destruct (Hok eq_refl) as [Hserve _].
  destruct (fallback_link_converts_on_demand sample_world rendering_world
              older "t" "r" sample_resume sample_batch 1
              (new_subjob 1 acme_engineer) acme_engineer
              {| model_dump := PyDict [("summary", PyStr "x")] |}
              eq_refl eq_refl eq_refl eq_refl eq_refl eq_refl)
    as (_ & _ & _ & Hstale).
  destruct (Hstale (PdfFile sample_resume) eq_refl) as (Hkept & Hplain & _).
  split; [exact (f_equal fst Hmissing)|].
  split; [exact (f_equal fst Hserve)|].
  split; [exact Hkept|exact (f_equal fst Hplain)].
Defined.

(** ** Job search *)

(** The scraper hands on a frame only if it has rows; an exception of
    [scrape_jobs] is swallowed. *)
Lemma find_and_save_jobs_some S search_term location time_days proxy df :
  JobSearch.find_and_save_jobs S search_term location time_days proxy
  = Some df ->
  JobSearch.empty df = false
  /\ exists google_search_term proxies,
       JobSearch.scrape_jobs S search_term google_search_term location
         (time_days * 24) proxies = Return (Some df).
Proof.
  unfold JobSearch.find_and_save_jobs. cbv zeta.
  destruct (JobSearch.scrape_jobs S _ _ _ _ _) as [[df'|]|e] eqn:Hscrape;
    try discriminate.
  destruct (JobSearch.empty df') eqn:Hempty; simpl; [discriminate|].
  intros [= <-]. split; [assumption|]. eauto.
Qed.

(** X10: a search never answers with status 404: when the scraper finds
    nothing, returns no frame or raises, the 404 raised inside the [try]
    is caught and answered as status 500, whose detail quotes the 404.
    A search writes nothing. *)
Theorem search_jobs_failure_is_500 (W : Collaborators)
    (S : JobSearch.Scraper) (query location : string) (limit : Z)
    (proxy : option string) (st : State) :
  match JobSearch.search_jobs W S query location limit proxy st with
  | (Raise e, st') =>
      st' = st
      /\ JobSearch.find_and_save_jobs S query location 4 proxy = None
      /\ e = HTTPException 500
               ("Job search failed: "
                +:+ str_http_exception W 404
                      "No jobs found or scraping failed")
  | (Return response, st') =>
      st' = st
      /\ exists df,
           JobSearch.find_and_save_jobs S query location 4 proxy = Some df
           /\ df <> []
  end.
Proof.
  unfold JobSearch.search_jobs, try_except.
  destruct (JobSearch.find_and_save_jobs S query location 4 proxy)
    as [df|] eqn:Hfind.
  - destruct (find_and_save_jobs_some _ _ _ _ _ _ Hfind) as [Hne _].
    rewrite Hne. simpl. split; [reflexivity|]. exists df.
    split; [reflexivity|]. now destruct df.
  - simpl. auto.
Qed.

Lemma head_prefix (n : Z) (df : JobSearch.DataFrame) :
  JobSearch.head n df `prefix_of` df.
Proof. unfold JobSearch.head. destruct (0 <=? n)%Z; apply prefix_take. Qed.

Lemma head_length (n : Z) (df : JobSearch.DataFrame) :
  length (JobSearch.head n df)
  = if (0 <=? n)%Z then Nat.min (Z.to_nat n) (length df)
    else length df - Z.to_nat (- n).
Proof.
  unfold JobSearch.head. destruct (0 <=? n)%Z; rewrite length_take; lia.
Qed.

(** X11: a successful search answers with the first rows of the scraped
    frame, in the scraper's order: at most [limit] of them for a [limit]
    that is not negative (none for [limit = 0], although postings were
    found), all but the last [-limit] for a negative one; [total_count]
    counts the rows of the answer, not the postings found. *)
Theorem search_jobs_limits_results (W : Collaborators)
    (S : JobSearch.Scraper) (query location : string) (limit : Z)
    (proxy : option string) (st st' : State)
    (response : JobSearch.JobSearchResponse)
    (Hsearch : JobSearch.search_jobs W S query location limit proxy st
               = (Return response, st')) :
  exists df,
    JobSearch.find_and_save_jobs S query location 4 proxy = Some df
    /\ JobSearch.jobs response `prefix_of` df
    /\ JobSearch.total_count response = length (JobSearch.jobs response)
    /\ ((0 <= limit)%Z ->
        JobSearch.total_count response
        = Nat.min (Z.to_nat limit) (length df))
    /\ ((limit < 0)%Z ->
        JobSearch.total_count response = length df - Z.to_nat (- limit))
    /\ JobSearch.search_term response = query
    /\ JobSearch.location response = location.
Proof.
  revert Hsearch. unfold JobSearch.search_jobs, try_except.
  destruct (JobSearch.find_and_save_jobs S query location 4 proxy)
    as [df|]; [|discriminate].
  destruct (JobSearch.empty df); [discriminate|].
  simpl. intros [= <- _]. exists df. simpl.
  split; [reflexivity|]. split; [apply head_prefix|].
  split; [reflexivity|]. rewrite head_length.
  split; [|split; [|auto]]; intros Hlimit.
  - now rewrite (proj2 (Z.leb_le 0 limit) Hlimit).
  - now rewrite (proj2 (Z.leb_gt 0 limit) Hlimit).
Qed.

Lemma search_jobs_limits_results_witness :
  exists response,
    JobSearch.search_jobs sample_world sample_scraper "engineer" "Berlin" 2
      None initial_state
    = (Return response, initial_state)
    /\ JobSearch.jobs response = [PyStr "a"; PyStr "b"]
    /\ JobSearch.total_count response = 2.
Proof.
  destruct (search_jobs_limits_results sample_world sample_scraper
              "engineer" "Berlin" 2 None initial_state initial_state
              {| JobSearch.jobs := [PyStr "a"; PyStr "b"];
                 JobSearch.total_count := 2;
                 JobSearch.search_term := "engineer";
                 JobSearch.location := "Berlin" |}
              eq_refl)
    as (df & _ & _ & Hcount & _).
  eexists. split; [reflexivity|]. split; [reflexivity|exact Hcount].
Defined.

(** ** What the tailoring agent's answers do to a subjob *)

(** The agent answers with a model exactly when the cleaned response
    parses to a non-empty JSON value that validates; a value that does not
    validate, or an empty one, gives [None] and no exception; only the
    call of the model and the JSON parser raise. *)
Lemma agent_tailor_resume_outcome (A : Agent.t)
    (resume_data job_context : pyobj) :
  (forall validated,
     Agent.tailor_resume A resume_data job_context = Return (Some validated)
     <-> exists response data,
           Agent.arun A resume_data job_context = Return response
           /\ Agent.parse_json_response A
                (Agent.clean_response_content A response) = Return data
           /\ truthy data = true
           /\ Agent.validate A data = Return validated)
  /\ (forall e,
        Agent.tailor_resume A resume_data job_context = Raise e
        <-> Agent.arun A resume_data job_context = Raise e
            \/ exists response,
                 Agent.arun A resume_data job_context = Return response
                 /\ Agent.parse_json_response A
                      (Agent.clean_response_content A response) = Raise e)
  /\ (Agent.tailor_resume A resume_data job_context = Return None
      <-> exists response data,
            Agent.arun A resume_data job_context = Return response
            /\ Agent.parse_json_response A
                 (Agent.clean_response_content A response) = Return data
            /\ (truthy data = false
                \/ exists e, Agent.validate A data = Raise e)).
Proof.
  unfold Agent.tailor_resume.
  destruct (Agent.arun A resume_data job_context) as [response|e0];
    [cbv zeta;
     destruct (Agent.parse_json_response A
                 (Agent.clean_response_content A response))
       as [data|e1] eqn:Hparse;
     [destruct (truthy data) eqn:Htruthy;
      [destruct (Agent.validate A data) as [validated|e2] eqn:Hvalid|]|]|];
    (split; [intros v|split; [intros e|]]); split; intros H;
    try discriminate;
    repeat match goal with
      | H : exists _, _ |- _ => destruct H
      | H : _ /\ _ |- _ => destruct H
      | H : _ \/ _ |- _ => destruct H
      | H : Return _ = Return _ |- _ => injection H as ->
      | H : Return _ = Return _ |- _ => injection H as <-
      | H : Raise _ = Raise _ |- _ => injection H as <-
      end;
    try congruence; eauto 10.
Qed.

Section AgentInBatch.

Context (W : Collaborators) (A : Agent.t).

(** X12: what the agent's answer makes of a subjob: a response that is no
    JSON, or a failing model call, fails the subjob with the text of the
    exception; a response that is JSON but empty or not a valid tailored
    resume fails it with "Failed to generate tailored content".  Either
    way the iteration returns and no file is written. *)
Theorem subjob_error_from_agent (st : State) (task_id resume_id : string)
    (resume_data : pyobj) (batch : Batch.t) (i : nat) (job : SubJob.t)
    (jd : JobDesc)
    (Hbatch : tailoring_jobs st !! task_id = Some batch)
    (Hjob : Batch.individual_jobs batch !! i = Some job) :
  let run :=
    tailor_job (with_agent W A) task_id resume_id resume_data i jd st in
  let failed_with_text text :=
    (Return tt,
     with_tailoring_jobs
       <[task_id := Batch.set_individual_jobs
                      (<[i := SubJob.mk (SubJob.job_index job)
                                 (SubJob.job_title job) (SubJob.company job)
                                 failed None (Some text) None None]>
                         (Batch.individual_jobs batch)) batch]> st) in
  (forall e,
     Agent.tailor_resume A resume_data (job_context jd) = Raise e ->
     run = failed_with_text (str_exn W e))
  /\ (Agent.tailor_resume A resume_data (job_context jd) = Return None ->
      run = failed_with_text "Failed to generate tailored content").
Proof.
  intros run failed_with_text.
  assert (Hi : i < length (Batch.individual_jobs batch))
    by now apply lookup_lt_Some in Hjob.
  pose proof (tailor_job_run (with_agent W A) task_id resume_id resume_data
                batch i job jd st Hi) as Hrun.
  rewrite (put_job_id _ _ _ _ _ Hbatch Hjob) in Hrun.
  unfold finished_job, written_files in Hrun.
  cbn [tailor_resume_with_ai with_agent] in Hrun.
  subst run failed_with_text. rewrite Hrun. split.
  - intros e He. rewrite He. unfold put_job, with_tailored_resumes.
    now destruct st.
  - intros Hnone. rewrite Hnone. unfold put_job, with_tailored_resumes.
    now destruct st.
Qed.

End AgentInBatch.

Lemma subjob_error_from_agent_witness :
  exists st' batch' job',
    tailor_job (with_agent sample_world babbling_agent) "t" "r"
      sample_resume 0 acme_engineer sample_state
    = (Return tt, st')
    /\ tailoring_jobs st' !! "t" = Some batch'
    /\ Batch.individual_jobs batch' !! 0 = Some job'
    /\ SubJob.error_message job'
       = Some "Expecting value: line 1 column 1 (char 0)".
Proof.
  destruct (subjob_error_from_agent sample_world babbling_agent sample_state
              "t" "r" sample_resume sample_batch 0
              (new_subjob 0 acme_engineer) acme_engineer eq_refl eq_refl)
    as [Hraise _].
  specialize (Hraise (Exception "Expecting value: line 1 column 1 (char 0)")
                eq_refl).
  eexists _, _, _. split; [exact Hraise|].
  split; [simpl; apply lookup_insert_eq|]. split; reflexivity.
Defined.

(** ** The parser's outcomes *)

Module ParserFacts.

Lemma validation_cases W P :
  (Parser.not_str (Parser.getenv P "GOOGLE_API_KEY") = true
   /\ Parser.validate_gemini_api_key W P
      = Return {| Parser.valid := false;
                  Parser.error :=
                    Some "GOOGLE_API_KEY not found in environment variables" |})
  \/ (exists api_key,
        Parser.getenv P "GOOGLE_API_KEY" = Some api_key
        /\ api_key <> ""
        /\ ((Parser.test_request P api_key = Return true
             /\ Parser.validate_gemini_api_key W P
                = Return {| Parser.valid := true; Parser.error := None |})
            \/ (Parser.test_request P api_key = Return false
                /\ Parser.validate_gemini_api_key W P
                   = Return {| Parser.valid := false;
                               Parser.error :=
                                 Some "API key is invalid or has insufficient permissions" |})
            \/ (exists e,
                  Parser.test_request P api_key = Raise e
                  /\ Parser.validate_gemini_api_key W P
                     = Return {| Parser.valid := false;
                                 Parser.error :=
                                   Some ("API validation failed: "
                                         +:+ str_exn W e) |}))).
Proof.
  unfold Parser.validate_gemini_api_key. cbv zeta.
  destruct (Parser.getenv P "GOOGLE_API_KEY") as [api_key|] eqn:Hkey;
    [|left; now split].
  simpl Parser.not_str.
  destruct (String.eqb api_key "") eqn:Hempty; [left; now split|].
  right. exists api_key. split; [reflexivity|].
  split; [now apply String.eqb_neq|]. simpl default.
  destruct (Parser.test_request P api_key) as [[|]|e].
  - now left.
  - right. now left.
  - right. right. now exists e.
Qed.

Lemma concat_empty (parts : list string) :
  String.concat Parser.separator parts = "" <-> parts = [] \/ parts = [""].
Proof.
  split.
  - destruct parts as [|p [|q rest]]; simpl.
    + now left.
    + intros ->. now right.
    + destruct p; discriminate.
  - now intros [-> | ->].
Qed.

Lemma parse_resume_raw_json_invalid W P path v :
  Parser.validate_gemini_api_key W P = Return v ->
  Parser.valid v = false ->
  Parser.parse_resume_raw_json W P path
  = Return (PyDict [("error", PyStr "api_key_invalid");
                    ("error_message", Parser.opt_str (Parser.error v));
                    ("status", PyStr "failed")]).
Proof.
  intros Hv Hvalid. unfold Parser.parse_resume_raw_json.
  now rewrite Hv, Hvalid.
Qed.

Lemma perform_extraction_falsy W resume_id st r data :
  resume_storage st !! resume_id = Some r ->
  parse_resume_raw_json W (Resume.file_path r) = Return data ->
  truthy data = false ->
  perform_extraction W resume_id st
  = (Return tt,
     with_extraction_status
       <[resume_id := Extraction.mk failed PyNone
                        (Some "Failed to extract resume data")]> st).
Proof.
  intros Hr Hparse Htruthy. unfold perform_extraction, try_except.
  rewrite bind_run; unfold gets at 1; cbv beta iota; unfold id.
  rewrite Hr, bind_run. unfold lift at 1. now rewrite Hparse, Htruthy.
Qed.

Lemma perform_extraction_api_error W P resume_id st r v :
  resume_storage st !! resume_id = Some r ->
  Parser.validate_gemini_api_key W P = Return v ->
  Parser.valid v = false ->
  perform_extraction (with_parser W P) resume_id st
  = (Return tt,
     with_extraction_status
       <[resume_id := Extraction.mk failed PyNone
                        (Some ("API Key Error: "
                               +:+ format_obj W
                                     (Parser.opt_str (Parser.error v))))]>
       st).
Proof.
  intros Hr Hv Hvalid. unfold perform_extraction, try_except.
  rewrite bind_run; unfold gets at 1; cbv beta iota; unfold id.
  rewrite Hr, bind_run. unfold lift at 1.
  cbn [parse_resume_raw_json with_parser].
  now rewrite (parse_resume_raw_json_invalid _ _ _ _ Hv Hvalid).
Qed.

End ParserFacts.

(** X13: the validation endpoint always answers: it is valid exactly when
    a non-empty key is configured and the test request gives text, it
    carries an error message exactly when it is not valid, and the text
    of its own handler, "Validation failed: ...", is never the message. *)
Theorem validate_api_key_response (W : Collaborators) (P : Parser.t)
    (now : string) :
  exists response,
    validate_api_key W P now = Return response
    /\ kv_timestamp response = now
    /\ (kv_valid response = true <->
        exists api_key,
          Parser.getenv P "GOOGLE_API_KEY" = Some api_key
          /\ api_key <> ""
          /\ Parser.test_request P api_key = Return true)
    /\ (kv_error_message response = None <-> kv_valid response = true)
    /\ (forall e,
          kv_error_message response
          <> Some ("Validation failed: " +:+ str_exn W e)).
Proof.
  unfold validate_api_key.
  destruct (ParserFacts.validation_cases W P)
    as [[Hkey ->]|(api_key & Hkey & Hne & [[Hreq ->]|[[Hreq ->]|(e & Hreq & ->)]])];
    eexists; (split; [reflexivity|]); (split; [reflexivity|]); simpl.
  - split; [|split; [split; discriminate|discriminate]].
    split; [discriminate|]. intros (k & Hk & Hk' & _).
    rewrite Hk in Hkey. simpl in Hkey. now apply String.eqb_eq in Hkey.
  - split; [|split; [split; reflexivity|discriminate]].
    split; [|reflexivity]. intros _. now exists api_key.
  - split; [|split; [split; discriminate|discriminate]].
    split; [discriminate|]. intros (k & Hk & _ & Hk').
    rewrite Hkey in Hk. injection Hk as <-. rewrite Hreq in Hk'.
    discriminate.
  - split; [|split; [split; discriminate|discriminate]].
    split; [discriminate|]. intros (k & Hk & _ & Hk').
    rewrite Hkey in Hk. injection Hk as <-. rewrite Hreq in Hk'.
    discriminate.
Qed.

(** X14: a loader gives the empty text, which stops the parser before the
    model is asked, exactly when its reader failed or the document has no
    part or one empty part.  The parts are joined by a backslash and an
    n, so a document of several empty parts does not count as empty. *)
Theorem loaders_empty_text (P : Parser.t) (file_path : string) :
  (Parser.load_resume_from_pdf P file_path = "" <->
   (exists e, Parser.read_pdf P file_path = Raise e)
   \/ Parser.read_pdf P file_path = Return []
   \/ Parser.read_pdf P file_path = Return [""])
  /\ (Parser.load_resume_from_docx P file_path = "" <->
      (exists e, Parser.read_docx P file_path = Raise e)
      \/ Parser.read_docx P file_path = Return []
      \/ Parser.read_docx P file_path = Return [""]).
Proof.
  unfold Parser.load_resume_from_pdf, Parser.load_resume_from_docx.
  split.
  - destruct (Parser.read_pdf P file_path) as [pages|e].
    + rewrite ParserFacts.concat_empty. split.
      * intros [->| ->]; [right; now left|right; now right].
      * intros [[e He]|[He|He]]; [discriminate| |];
          injection He as ->; [now left|now right].
    + split; [|reflexivity]. intros _. left. now exists e.
  - destruct (Parser.read_docx P file_path) as [paragraphs|e].
    + rewrite ParserFacts.concat_empty. split.
      * intros [->| ->]; [right; now left|right; now right].
      * intros [[e He]|[He|He]]; [discriminate| |];
          injection He as ->; [now left|now right].
    + split; [|reflexivity]. intros _. left. now exists e.
Qed.

(** X15: without a configured API key an extraction run neither reads the
    file nor asks the model: the record is failed with the key error. *)
Theorem extraction_without_api_key (W : Collaborators) (P : Parser.t)
    (resume_id : string) (st : State) (r : Resume.t)
    (Hresume : resume_storage st !! resume_id = Some r)
    (Hkey : Parser.not_str (Parser.getenv P "GOOGLE_API_KEY") = true) :
  perform_extraction (with_parser W P) resume_id st
  = (Return tt,
     with_extraction_status
       <[resume_id :=
           Extraction.mk failed PyNone
             (Some ("API Key Error: "
                    +:+ format_obj W
                          (PyStr "GOOGLE_API_KEY not found in environment variables")))]>
       st).
Proof.
  destruct (ParserFacts.validation_cases W P)
    as [[_ Hv]|(api_key & Hk & Hne & _)].
  - now rewrite (ParserFacts.perform_extraction_api_error _ _ _ _ _ _
                   Hresume Hv eq_refl).
  - rewrite Hk in Hkey. simpl in Hkey. now apply String.eqb_eq in Hkey.
Qed.

Lemma extraction_without_api_key_witness :
  perform_extraction (with_parser sample_world keyless_parser) "r"
    sample_state
  = (Return tt,
     with_extraction_status
       <["r" :=
           Extraction.mk failed PyNone
             (Some ("API Key Error: "
                    +:+ format_obj sample_world
                          (PyStr "GOOGLE_API_KEY not found in environment variables")))]>
       sample_state).
Proof.
  apply (extraction_without_api_key sample_world keyless_parser "r"
           sample_state
           (Resume.mk "cv.pdf" "uploads/r_cv.pdf" "now" "uploaded"));
    reflexivity.
Defined.

(** X16: with a valid key, whatever goes wrong while parsing is reported
    by one text: a file that gives no text, an exception of the model or
    of the JSON parser, or an answer that parses to nothing all leave the
    record failed with "Failed to extract resume data"; the text of the
    exception is lost. *)
Theorem extraction_failure_is_generic (W : Collaborators) (P : Parser.t)
    (resume_id : string) (st : State) (r : Resume.t)
    (Hresume : resume_storage st !! resume_id = Some r)
    (Hvalid : Parser.validate_gemini_api_key W P
              = Return {| Parser.valid := true; Parser.error := None |})
    (Hwrong :
       let resume_text := Parser.load_resume_text W P (Resume.file_path r) in
       let answer := Parser.arun P (Parser.prompt resume_text) in
       resume_text = ""
       \/ (exists e, answer = Raise e)
       \/ (exists response_content,
             answer = Return (Parser.Content response_content)
             /\ ((exists e, Parser.parse_json_response P response_content
                            = Raise e)
                 \/ (exists json_data,
                       Parser.parse_json_response P response_content
                       = Return json_data
                       /\ truthy json_data = false)))) :
  perform_extraction (with_parser W P) resume_id st
  = (Return tt,
     with_extraction_status
       <[resume_id := Extraction.mk failed PyNone
                        (Some "Failed to extract resume data")]> st).
Proof.
  apply (ParserFacts.perform_extraction_falsy _ _ _ r PyNone Hresume);
    [|reflexivity].
  cbn [parse_resume_raw_json with_parser].
  unfold Parser.parse_resume_raw_json. rewrite Hvalid. simpl negb.
  cbv iota zeta. cbv zeta in Hwrong.
  destruct Hwrong as [->|Hwrong]; [reflexivity|].
  destruct (String.eqb _ ""); [reflexivity|].
  destruct Hwrong as [[e ->]|(c & -> & [[e ->]|(d & -> & ->)])];
    reflexivity.
Qed.

Lemma extraction_failure_is_generic_witness :
  perform_extraction (with_parser sample_world unreachable_parser) "r"
    sample_state
  = (Return tt,
     with_extraction_status
       <["r" := Extraction.mk failed PyNone
                  (Some "Failed to extract resume data")]> sample_state).
Proof.
  apply (extraction_failure_is_generic sample_world unreachable_parser "r"
           sample_state
           (Resume.mk "cv.pdf" "uploads/r_cv.pdf" "now" "uploaded"));
    [reflexivity|reflexivity|].
  right. left. now exists (Exception "503 model overloaded").
Defined.

Module DatesFacts.

Import PyStrFacts.

Lemma split_nosep sep s :
  PyStr.contains sep s = false -> Dates.split sep s = [s].
Proof.
  induction s as [|c s IH]; [reflexivity|]. cbn [PyStr.contains Dates.split].
  destruct (Ascii.eqb c sep); [discriminate|].
  intros H. now rewrite (IH H).
Qed.

Lemma split_app sep a b :
  PyStr.contains sep a = false ->
  Dates.split sep (a +:+ String sep b) = a :: Dates.split sep b.
Proof.
  induction a as [|c a IH]; intros Ha.
  - rewrite append_nil_l. cbn [Dates.split]. now rewrite Ascii.eqb_refl.
  - rewrite append_cons. cbn [PyStr.contains] in Ha. cbn [Dates.split].
    destruct (Ascii.eqb c sep); [discriminate|]. now rewrite (IH Ha).
Qed.

Lemma split_head sep s :
  exists part parts,
    Dates.split sep s = part :: parts
    /\ PyStr.contains sep part = false
    /\ (PyStr.contains sep s = true -> parts <> []).
Proof.
  induction s as [|c s (part & parts & IH & Hpart & Hparts)].
  - exists "", []. now repeat split.
  - cbn [Dates.split PyStr.contains].
    destruct (Ascii.eqb c sep) eqn:Hc.
    + exists "", (Dates.split sep s). repeat split. now rewrite IH.
    + rewrite IH. exists (String c part), parts. repeat split; [|assumption].
      cbn [PyStr.contains]. now rewrite Hc.
Qed.

Lemma contains_app_sep sep a b :
  PyStr.contains sep (a +:+ String sep b) = true.
Proof.
  induction a as [|c a IH].
  - rewrite append_nil_l. cbn [PyStr.contains]. now rewrite Ascii.eqb_refl.
  - rewrite append_cons. cbn [PyStr.contains]. rewrite IH.
    now destruct (Ascii.eqb c sep).
Qed.

Lemma contains_lower s :
  PyStr.contains "-" (Dates.lower s) = PyStr.contains "-" s.
Proof.
  induction s as [|c s IH]; [reflexivity|].
  cbn [Dates.lower PyStr.contains]. rewrite IH. f_equal.
  destruct c as [[] [] [] [] [] [] [] []]; reflexivity.
Qed.

(** A text with a hyphen passes the two opening tests. *)
Lemma hyphen_not_present s :
  PyStr.contains "-" s = true ->
  String.eqb s "" || String.eqb (Dates.lower s) "present" = false.
Proof.
  intros H. apply orb_false_intro.
  - destruct s; [discriminate|reflexivity].
  - apply String.eqb_neq. intros Heq.
    rewrite <- contains_lower, Heq in H. discriminate.
Qed.

Lemma month_get_name m name :
  Dates.month_get Dates.month_names m = Some name ->
  PyStr.contains "-" name = false /\ Dates.int name = None
  /\ (1 <= m <= 12)%Z.
Proof.
  unfold Dates.month_names. cbn [Dates.month_get].
  repeat match goal with
    | |- context [(?k =? m)%Z] =>
        destruct (Z.eqb_spec k m) as [<-|_];
          [intros [= <-]; repeat split; (reflexivity || lia)|]
    end.
  discriminate.
Qed.

(** The result is the argument, or its first part and the name of the
    month its second part counts. *)
Lemma format_date_cases date_str :
  Dates._format_date date_str = date_str
  \/ exists year part parts month_num name,
       Dates.split "-" date_str = year :: part :: parts
       /\ Dates.int part = Some month_num
       /\ Dates.month_get Dates.month_names month_num = Some name
       /\ Dates._format_date date_str = year +:+ "-" +:+ name.
Proof.
  unfold Dates._format_date.
  destruct (String.eqb date_str "" || _); [now left|].
  destruct (PyStr.contains "-" date_str); [|now left]. cbv zeta.
  destruct (Dates.split "-" date_str) as [|year [|part parts]];
    [now left|now left|].
  cbn [length Nat.leb lookup list_lookup].
  destruct (Dates.int part) as [month_num|] eqn:Hint; [|now left].
  destruct (Dates.month_get Dates.month_names month_num) as [name|] eqn:Hname;
    [|now left].
  right. now exists year, part, parts, month_num, name.
Qed.

(** A first part, a hyphen and a text that is no number stay as they
    are. *)
Lemma format_date_fixed year name :
  PyStr.contains "-" year = false ->
  PyStr.contains "-" name = false ->
  Dates.int name = None ->
  Dates._format_date (year +:+ "-" +:+ name) = year +:+ "-" +:+ name.
Proof.
  intros Hyear Hname Hint. unfold Dates._format_date.
  change ("-" +:+ name) with (String "-" name).
  rewrite (hyphen_not_present _ (contains_app_sep "-" year name)).
  rewrite contains_app_sep. cbv zeta.
  rewrite (split_app _ _ _ Hyear), (split_nosep _ _ Hname).
  cbn [length Nat.leb lookup list_lookup]. now rewrite Hint.
Qed.

End DatesFacts.

(** X17: a date written year-month or year-month-day, with the month a
    number from 1 to 12, is rendered as the year and the short name of
    the month; the day is dropped. *)
Theorem format_date_iso (year month : string) (day : option string)
    (month_num : Z) (name : string)
    (Hyear : PyStr.contains "-" year = false)
    (Hmonth : PyStr.contains "-" month = false)
    (Hint : Dates.int month = Some month_num)
    (Hname : Dates.month_get Dates.month_names month_num = Some name) :
  Dates._format_date
    (year +:+ "-" +:+ month
     +:+ match day with Some d => "-" +:+ d | None => "" end)
  = year +:+ "-" +:+ name.
Proof.
  unfold Dates._format_date.
  set (rest := month +:+ _).
  change ("-" +:+ rest) with (String "-" rest).
  rewrite (DatesFacts.hyphen_not_present _
             (DatesFacts.contains_app_sep "-" year rest)).
  rewrite DatesFacts.contains_app_sep. cbv zeta.
  rewrite (DatesFacts.split_app _ _ _ Hyear).
  assert (Hrest : exists parts, Dates.split "-" rest = month :: parts).
  { subst rest. destruct day as [d|].
    - change ("-" +:+ d) with (String "-" d).
      rewrite (DatesFacts.split_app _ _ _ Hmonth). now eexists.
    - rewrite PyStrFacts.append_nil_r.
      rewrite (DatesFacts.split_nosep _ _ Hmonth). now eexists. }
  destruct Hrest as [parts ->].
  cbn [length Nat.leb lookup list_lookup]. now rewrite Hint, Hname.
Qed.

Lemma format_date_iso_witness :
  Dates._format_date "2021-03-15" = "2021-Mar".
Proof.
  apply (format_date_iso "2021" "03" (Some "15") 3 "Mar"); reflexivity.
Defined.

(** X18: formatting a date twice is formatting it once: the name of a
    month is no number, so a formatted date is left as it is. *)
Theorem format_date_idempotent (date_str : string) :
  Dates._format_date (Dates._format_date date_str)
  = Dates._format_date date_str.
Proof.
  destruct (DatesFacts.format_date_cases date_str)
    as [H|(year & part & parts & m & name & Hsplit & _ & Hname & ->)];
    [now rewrite !H|].
  destruct (DatesFacts.month_get_name _ _ Hname) as (Hn & Hint & _).
  apply DatesFacts.format_date_fixed; [|assumption|assumption].
  destruct (DatesFacts.split_head "-" date_str)
    as (p & ps & Hp & Hnosep & _).
  rewrite Hsplit in Hp. now injection Hp as <- _.
Qed.

(** X19: only the text after the first hyphen is ever rewritten: a text
    without a hyphen, an empty one and "present" in any case are left as
    they are, and a rewritten date keeps the text before its first
    hyphen and ends with one of the twelve names. *)
Theorem format_date_keeps_year (date_str : string) :
  (PyStr.contains "-" date_str = false ->
   Dates._format_date date_str = date_str)
  /\ (Dates._format_date date_str <> date_str ->
      exists year rest month_num name,
        date_str = year +:+ "-" +:+ rest
        /\ PyStr.contains "-" year = false
        /\ (1 <= month_num <= 12)%Z
        /\ Dates.month_get Dates.month_names month_num = Some name
        /\ Dates._format_date date_str = year +:+ "-" +:+ name).
Proof.
  split.
  - intros H. unfold Dates._format_date. rewrite H.
    now destruct (String.eqb date_str "" || _).
  - intros Hchanged.
    destruct (DatesFacts.format_date_cases date_str)
      as [H|(year & part & parts & m & name & Hsplit & _ & Hname & H)];
      [contradiction|].
    destruct (DatesFacts.month_get_name _ _ Hname) as (_ & _ & Hm).
    destruct (DatesFacts.split_head "-" date_str)
      as (p & ps & Hp & Hnosep & _).
    rewrite Hsplit in Hp. injection Hp as <- <-.
    assert (Hjoin : forall s p q ps,
              Dates.split "-" s = p :: q :: ps ->
              exists rest, s = p +:+ "-" +:+ rest).
    { clear. induction s as [|c s IH]; intros p q ps; [discriminate|].
      cbn [Dates.split]. destruct (Ascii.eqb_spec c "-") as [->|_].
      - intros [= <- _]. now exists s.
      - destruct (Dates.split "-" s) as [|p' [|q' ps']] eqn:Hs;
          [discriminate|discriminate|].
        intros [= <- <- <-]. destruct (IH _ _ _ eq_refl) as [rest ->].
        exists rest. now rewrite PyStrFacts.append_cons. }
    destruct (Hjoin _ _ _ _ Hsplit) as [rest ->].
    now exists year, rest, m, name.
Qed.

Lemma format_date_keeps_year_witness :
  Dates._format_date "03/2021" = "03/2021"
  /\ exists year rest month_num name,
       "2021-03-15" = year +:+ "-" +:+ rest
       /\ PyStr.contains "-" year = false
       /\ (1 <= month_num <= 12)%Z
       /\ Dates.month_get Dates.month_names month_num = Some name
       /\ Dates._format_date "2021-03-15" = year +:+ "-" +:+ name.
Proof.
  split.
  - apply (format_date_keeps_year "03/2021"). reflexivity.
  - apply (format_date_keeps_year "2021-03-15").
    intros H. vm_compute in H. discriminate H.
Defined.

(** ** Links of completed subjobs in every reachable state *)

Module LinkFacts.

Lemma has_json_json name base doc st :
  has_json name st ->
  has_json name
    (with_tailored_resumes <[json_filename base := JsonFile doc]> st).
Proof.
  intros [doc0 H]. unfold has_json. simpl.
  destruct (decide (json_filename base = name)) as [<-|Hne].
  - exists doc. apply lookup_insert_eq.
  - exists doc0. now rewrite lookup_insert_ne.
Qed.

Lemma has_json_pdf base0 base doc st :
  has_json (json_filename base0) st ->
  has_json (json_filename base0)
    (with_tailored_resumes <[pdf_filename base := PdfFile doc]> st).
Proof.
  intros [doc0 H]. exists doc0. simpl. rewrite lookup_insert_ne; [exact H|].
  unfold json_filename, pdf_filename. intros Heq. symmetry in Heq.
  now apply SuffixFacts.json_name_not_pdf in Heq.
Qed.

Lemma linked_files st st' job :
  (forall base, has_json (json_filename base) st ->
                has_json (json_filename base) st') ->
  linked st job -> linked st' job.
Proof.
  intros Hfiles Hl Hdone. destruct (Hl Hdone) as (links & base & H1 & H2 & H3).
  exists links, base. auto.
Qed.

Lemma closed_linked : closed artifacts_linked.
Proof.
  split.
  - intros st st' Hjobs Hfiles H task_id batch i job Hb Hj.
    rewrite Hjobs in Hb. apply (linked_files st); [|now apply (H task_id batch i)].
    intros base [doc Hdoc]. exists doc. now rewrite Hfiles.
  - intros st task_id batch i job job' Hb Hj Hharm H t b k j. simpl.
    destruct (decide (task_id = t)) as [<-|Hne].
    + rewrite lookup_insert_eq. intros [= <-]. simpl.
      destruct (decide (i = k)) as [<-|Hik].
      * rewrite list_lookup_insert_eq by now apply lookup_lt_Some in Hj.
        intros [= <-] Hdone. destruct (Hharm Hdone) as [Hwas Hlinks].
        destruct (H task_id batch i job Hb Hj Hwas)
          as (links & base & H1 & H2 & H3).
        exists links, base. rewrite Hlinks. auto.
      * rewrite list_lookup_insert_ne by assumption.
        intros Hk. now apply (H task_id batch k j).
    + rewrite lookup_insert_ne by assumption.
      intros Hb' Hk. now apply (H t b k j).
  - intros st task_id batch Hold H t b k j. simpl.
    destruct (decide (task_id = t)) as [<-|Hne].
    + rewrite lookup_insert_eq. intros [= <-] Hk Hdone.
      destruct (Hold k j Hk Hdone) as (batch0 & Hb0 & Hk0).
      now apply (H task_id batch0 k j).
    + rewrite lookup_insert_ne by assumption.
      intros Hb' Hk. now apply (H t b k j).
  - intros st base doc H t b k j Hb Hk.
    apply (linked_files st); [|now apply (H t b k j)].
    intros base0. apply has_json_json.
  - intros st base doc H t b k j Hb Hk.
    apply (linked_files st); [|now apply (H t b k j)].
    intros base0. apply has_json_pdf.
Qed.

Lemma closed_with_json base :
  closed (fun st => artifacts_linked st /\ has_json (json_filename base) st).
Proof.
  destruct closed_linked as [Hview Hjob Hbatch Hjson Hpdf].
  split.
  - intros st st' Hjobs Hfiles [H [doc Hdoc]].
    split; [now apply (Hview st)|]. exists doc. now rewrite Hfiles.
  - intros st task_id batch i job job' Hb Hj Hharm [H Hfile].
    split; [now apply (Hjob st task_id batch i job)|exact Hfile].
  - intros st task_id batch Hold [H Hfile].
    split; [now apply Hbatch|exact Hfile].
  - intros st base0 doc [H Hfile].
    split; [now apply Hjson|now apply has_json_json].
  - intros st base0 doc [H Hfile].
    split; [now apply Hpdf|now apply has_json_pdf].
Qed.

Section Stable.

Context (J : State -> Prop) (HJ : closed J).

Lemma stable_ret {A : Type} (a : A) : stable J (mret a).
Proof. intros st H. exact H. Qed.

Lemma stable_raise {A : Type} (e : exn) : stable J (@raise A e).
Proof. intros st H. exact H. Qed.

Lemma stable_lift {A : Type} (r : result A) : stable J (lift r).
Proof. intros st H. exact H. Qed.

Lemma stable_gets {A : Type} (f : State -> A) : stable J (gets f).
Proof. intros st H. exact H. Qed.

Lemma stable_bind {A B : Type} (m : Py A) (f : A -> Py B) :
  stable J m -> (forall a, stable J (f a)) -> stable J (m ≫= f).
Proof.
  intros Hm Hf st H. rewrite bind_run. specialize (Hm st H).
  destruct (m st) as [[a|e] st1]; simpl in *.
  - now apply Hf.
  - assumption.
Qed.

Lemma stable_try {A : Type} (m : Py A) (h : exn -> Py A) :
  stable J m -> (forall e, stable J (h e)) -> stable J (try_except m h).
Proof.
  intros Hm Hh st H. unfold try_except. specialize (Hm st H).
  destruct (m st) as [[a|e] st1]; simpl in *.
  - assumption.
  - now apply Hh.
Qed.

Lemma stable_attempt {A : Type} (m : Py A) :
  stable J m -> stable J (attempt m).
Proof.
  intros Hm st H. unfold attempt. specialize (Hm st H).
  now destruct (m st) as [r st1].
Qed.

Lemma stable_modify (f : State -> State) :
  (forall st, tailoring_jobs (f st) = tailoring_jobs st) ->
  (forall st, tailored_resumes (f st) = tailored_resumes st) ->
  stable J (modify f).
Proof.
  intros Hjobs Hfiles st H. simpl.
  now apply (closed_view J HJ st).
Qed.

Lemma stable_lookup_batch task_id : stable J (lookup_batch task_id).
Proof.
  intros st H. unfold lookup_batch.
  now destruct (tailoring_jobs st !! task_id).
Qed.

Lemma stable_lookup_extraction resume_id :
  stable J (lookup_extraction resume_id).
Proof.
  intros st H. unfold lookup_extraction.
  now destruct (extraction_status st !! resume_id).
Qed.

Lemma stable_update_batch task_id (f : Batch.t -> Batch.t) :
  (forall batch, Batch.individual_jobs (f batch)
                 = Batch.individual_jobs batch) ->
  stable J (update_batch task_id f).
Proof.
  intros Hf st H. unfold update_batch. rewrite bind_run. unfold lookup_batch.
  destruct (tailoring_jobs st !! task_id) as [batch|] eqn:Hb; [|exact H].
  simpl. apply (closed_batch J HJ); [|exact H].
  intros i job Hi _. exists batch. now rewrite <- Hf.
Qed.

Lemma stable_update_job task_id i (f : SubJob.t -> SubJob.t) :
  (forall job, harmless job (f job)) ->
  stable J (update_job task_id i f).
Proof.
  intros Hf st H. unfold update_job. rewrite bind_run. unfold lookup_batch.
  destruct (tailoring_jobs st !! task_id) as [batch|] eqn:Hb; [|exact H].
  destruct (Batch.individual_jobs batch !! i) as [job|] eqn:Hj; [|exact H].
  simpl. now apply (closed_job J HJ st task_id batch i job).
Qed.

Lemma stable_for_enumerate {A : Type} (body : nat -> A -> Py unit) xs :
  (forall i x, stable J (body i x)) ->
  forall start, stable J (for_enumerate start xs body).
Proof.
  intros Hbody. induction xs as [|x xs IH]; intros start; simpl.
  - apply stable_ret.
  - apply stable_bind; auto.
Qed.

End Stable.

Lemma harmless_progress m job : harmless job (SubJob.set_progress m job).
Proof. intros H. split; [exact H|reflexivity]. Qed.

Lemma harmless_status s job :
  s <> completed -> harmless job (SubJob.set_status s job).
Proof. intros Hs H. simpl in H. contradiction. Qed.

Lemma harmless_failed p d l e job :
  harmless job (SubJob.update failed p d l e job).
Proof. intros H. discriminate H. Qed.

Create HintDb stable.

#[local] Hint Resolve stable_ret stable_raise stable_lift stable_gets
  stable_lookup_batch stable_lookup_extraction harmless_progress
  harmless_failed : stable.

(** Take a computation apart down to its reads and writes. *)
Ltac stable :=
  repeat match goal with
    | |- forall _, _ => intro
    | |- stable _ (update_job _ _ (SubJob.set_status processing)) =>
        apply stable_update_job;
        [assumption|intros ?; apply harmless_status; discriminate]
    | |- stable _ (update_job _ _ _) =>
        apply stable_update_job; [assumption|auto with stable]
    | |- stable _ (update_batch _ _) =>
        apply stable_update_batch; [assumption|reflexivity]
    | |- stable _ (modify _) =>
        apply stable_modify; [assumption|reflexivity|reflexivity]
    | |- stable _ (_ ≫= _) => apply stable_bind
    | |- stable _ (try_except _ _) => apply stable_try
    | |- stable _ (attempt _) => apply stable_attempt
    | |- stable _ (match ?x with _ => _ end) => destruct x
    | |- stable _ (if ?x then _ else _) => destruct x
    | |- stable _ _ => solve [auto with stable]
    end.

Section Worker.

Context (W : Collaborators) (J : State -> Prop) (HJ : closed J).

Lemma stable_save_json base doc :
  stable J (save_json W (json_filename base) doc).
Proof.
  unfold save_json. destruct (json_dump W _ doc); [apply stable_raise|].
  intros st H. simpl. now apply (closed_json J HJ).
Qed.

Lemma stable_render_pdf base doc :
  stable J (render_pdf W (pdf_filename base) doc).
Proof.
  unfold render_pdf. destruct (generate_pdf W doc _); [|apply stable_ret].
  apply stable_bind; [|intros; apply stable_ret].
  intros st H. simpl. now apply (closed_pdf J HJ).
Qed.

Lemma stable_job_begin task_id i jd : stable J (job_begin task_id i jd).
Proof. unfold job_begin. stable. Qed.

Lemma stable_job_except task_id i e : stable J (job_except W task_id i e).
Proof. unfold job_except. stable. Qed.

Lemma stable_summarize task_id : stable J (summarize task_id).
Proof. unfold summarize. stable. Qed.

Lemma stable_batch_except task_id e : stable J (batch_except W task_id e).
Proof. unfold batch_except. stable. Qed.

End Worker.

Section Runs.

Context (W : Collaborators).

(** The write that makes a subjob [completed] keeps the invariant once
    the file its link names is in the store. *)
Lemma stable_update_completed task_id i base progress doc links :
  Links.json links = "/api/download/" +:+ json_filename base ->
  stable (fun st => artifacts_linked st /\ has_json (json_filename base) st)
    (update_job task_id i
       (SubJob.update completed progress doc (Some links) None)).
Proof.
  intros Hlinks st [H Hfile]. unfold update_job. rewrite bind_run.
  unfold lookup_batch.
  destruct (tailoring_jobs st !! task_id) as [batch|] eqn:Hb;
    [|now split].
  destruct (Batch.individual_jobs batch !! i) as [job|] eqn:Hj; [|now split].
  simpl. split; [|exact Hfile].
  intros t b k j. simpl.
  destruct (decide (task_id = t)) as [<-|Hne].
  - rewrite lookup_insert_eq. intros [= <-]. simpl.
    destruct (decide (i = k)) as [<-|Hik].
    + rewrite list_lookup_insert_eq by now apply lookup_lt_Some in Hj.
      intros [= <-] _. exists links, base. auto.
    + rewrite list_lookup_insert_ne by assumption.
      intros Hk. now apply (H task_id batch k j).
  - rewrite lookup_insert_ne by assumption.
    intros Hb' Hk. now apply (H t b k j).
Qed.

Lemma stable_job_finish task_id resume_id i jd content :
  stable artifacts_linked (job_finish W task_id resume_id i jd content).
Proof.
  pose proof closed_linked as HJ.
  destruct content as [content|]; [|unfold job_finish; stable].
  set (base := base_filename resume_id jd i).
  pose proof (closed_with_json base) as HJ'.
  unfold job_finish. fold base.
  assert (Hrest : stable
            (fun st => artifacts_linked st
                       /\ has_json (json_filename base) st)
            (update_job task_id i (SubJob.set_progress "Generating PDF...");;
             pdf_generated ← render_pdf W (pdf_filename base)
                               (model_dump content);
             update_job task_id i
               (SubJob.set_progress "Creating download links...");;
             update_job task_id i
               (SubJob.update completed
                  (Some "Resume tailored successfully!")
                  (Some (model_dump content))
                  (Some (download_links (json_filename base)
                           (pdf_filename base) pdf_generated))
                  None))).
  { apply stable_bind; [stable|intros _].
    apply stable_bind; [now apply stable_render_pdf|intros generated].
    apply stable_bind; [stable|intros _].
    now apply stable_update_completed. }
  do 3 (apply stable_bind; [stable|intros _]).
  intros st H. rewrite bind_run. unfold save_json at 1.
  destruct (json_dump W _ (model_dump content)); [exact H|].
  unfold modify at 1. cbv beta iota.
  apply Hrest. split; [now apply (closed_json _ HJ)|].
  exists (model_dump content). simpl. apply lookup_insert_eq.
Qed.

Lemma stable_run_to_await task_id resume_id resume_data jobs :
  forall i,
    stable artifacts_linked
      (run_to_await W task_id resume_id resume_data i jobs).
Proof.
  pose proof closed_linked as HJ.
  induction jobs as [|jd rest IH]; intros i; cbn [run_to_await].
  - apply stable_bind; [now apply stable_summarize|intros; apply stable_ret].
  - apply stable_bind.
    + apply stable_attempt. now apply stable_job_begin.
    + intros [ctx|e]; [apply stable_ret|].
      apply stable_bind; [now apply stable_job_except|intros _; apply IH].
Qed.

Lemma stable_worker_start task_id :
  stable artifacts_linked (worker_start W task_id).
Proof.
  pose proof closed_linked as HJ.
  unfold worker_start. apply stable_try.
  - apply stable_bind; [apply stable_lookup_batch|intros batch].
    apply stable_bind; [stable|intros _].
    apply stable_bind; [apply stable_lookup_extraction|intros es].
    apply stable_run_to_await.
  - intros e. apply stable_bind; [now apply stable_batch_except|].
    intros; apply stable_ret.
Qed.

Lemma stable_worker_resume w :
  stable artifacts_linked (worker_resume W w).
Proof.
  pose proof closed_linked as HJ.
  unfold worker_resume. apply stable_try.
  - apply stable_bind; [|intros _; apply stable_run_to_await].
    apply stable_try.
    + apply stable_bind; [apply stable_lift|intros content].
      apply stable_job_finish.
    + intros e. now apply stable_job_except.
  - intros e. apply stable_bind; [now apply stable_batch_except|].
    intros; apply stable_ret.
Qed.

Lemma stable_perform_extraction resume_id :
  stable artifacts_linked (perform_extraction W resume_id).
Proof.
  pose proof closed_linked as HJ. unfold perform_extraction. stable.
Qed.

Lemma stable_upload_resume resume_id now filename content :
  stable artifacts_linked (upload_resume W resume_id now filename content).
Proof.
  pose proof closed_linked as HJ. unfold upload_resume. stable.
Qed.

Lemma stable_download_pdf file_key :
  stable artifacts_linked (download_tailored_resume_pdf W file_key).
Proof.
  pose proof closed_linked as HJ.
  unfold download_tailored_resume_pdf, load_json. cbv zeta.
  apply stable_bind; [apply stable_gets|intros st].
  destruct (tailored_resumes st !! _); [apply stable_ret|].
  destruct (tailored_resumes st !! _) as [stored|]; [|apply stable_raise].
  apply stable_try; [|intros; apply stable_raise].
  apply stable_bind; [destruct stored; stable|intros doc].
  apply stable_bind.
  - apply (stable_render_pdf W _ HJ (PyStr.replace ".json" "" file_key)).
  - intros []; stable.
Qed.

End Runs.

Lemma pending_not_completed start jds :
  forall i job,
    build_individual_jobs start jds [] !! i = Some job ->
    SubJob.status job <> completed.
Proof.
  intros i job. rewrite build_individual_jobs_imap. simpl.
  rewrite list_lookup_imap. destruct (jds !! i); [|discriminate].
  simpl. intros [= <-]. discriminate.
Qed.

Lemma stable_tailor_resume task_id now request :
  stable artifacts_linked (tailor_resume task_id now request).
Proof.
  pose proof closed_linked as HJ. unfold tailor_resume.
  apply stable_bind; [apply stable_gets|intros st].
  destruct (resume_storage st !! _); [|apply stable_raise].
  destruct (extraction_status st !! _) as [es|]; [|apply stable_raise].
  destruct (negb _); [apply stable_raise|].
  destruct (negb _); [apply stable_raise|]. cbv zeta.
  apply stable_bind; [|stable].
  intros st0 H. simpl. apply (closed_batch _ HJ); [|exact H].
  intros i job Hi Hdone. simpl in Hi.
  now apply pending_not_completed in Hi.
Qed.

Lemma handle_linked W c st :
  artifacts_linked st -> artifacts_linked (handle W c st).
Proof.
  pose proof closed_linked as HJ.
  destruct c; simpl.
  - apply stable_upload_resume.
  - assert (H : stable artifacts_linked (extract_resume_data resume_id))
      by (unfold extract_resume_data; stable).
    apply H.
  - assert (H : stable artifacts_linked (get_extraction_status resume_id))
      by (unfold get_extraction_status; stable).
    apply H.
  - assert (H : stable artifacts_linked
                  (update_resume_data resume_id updated_data))
      by (unfold update_resume_data; stable).
    apply H.
  - apply stable_tailor_resume.
  - assert (H : stable artifacts_linked (get_tailoring_status task_id))
      by (unfold get_tailoring_status; stable).
    apply H.
  - assert (H : stable artifacts_linked (download_tailored_resume file_key))
      by (unfold download_tailored_resume; stable).
    apply H.
  - apply stable_download_pdf.
Qed.

Lemma step_linked s s' :
  step s s' -> artifacts_linked (store s) -> artifacts_linked (store s').
Proof.
  pose proof closed_linked as HJ.
  destruct 1 as [W c s Hfresh | W resume_id s q1 q2 Hq
                | W task_id s q1 q2 r st' Hq Hrun | W w s l1 l2 r st' Hl Hrun];
    simpl; intros H.
  - now apply handle_linked.
  - apply stable_perform_extraction. now apply (closed_view _ HJ (store s)).
  - pose proof (stable_worker_start W task_id
                  (with_scheduled (fun _ => (q1 ++ q2)%list) (store s))) as Hs.
    rewrite Hrun in Hs. apply Hs. now apply (closed_view _ HJ (store s)).
  - pose proof (stable_worker_resume W w (store s) H) as Hs.
    now rewrite Hrun in Hs.
Qed.

Lemma reachable_linked s : reachable s -> artifacts_linked (store s).
Proof.
  unfold reachable. intros Hreach.
  assert (H0 : artifacts_linked (store initial_system))
    by (intros t b i j Hb; discriminate Hb).
  revert H0. induction Hreach as [s|s s1 s2 Hstep _ IH]; [auto|].
  intros H. apply IH. now apply (step_linked s).
Qed.

Lemma finished_system_reachable : reachable finished_system.
Proof.
  unfold reachable. transitivity sample_system; [apply sample_system_reachable|].
  eapply rtc_l.
  { eapply (step_resume sample_world _ sample_system [] []).
    - vm_compute. reflexivity.
    - apply surjective_pairing. }
  eapply rtc_l.
  { eapply (step_resume sample_world _ _ [] []).
    - vm_compute. reflexivity.
    - apply surjective_pairing. }
  vm_compute. apply rtc_refl.
Qed.

End LinkFacts.


